(** * A market-making simulator: spread analytics, quoting, fills, ledger, audit

    Shallow embedding of the decision and accounting pipeline of the
    repository (spread.py, strategy.py, portfolio.py, analyze.py) together
    with the properties its specification states about it.

    Numbers.  Python floats are embedded as exact rationals [Q]; equality of
    computed amounts is [Qeq] (written [==]).  NaN, infinities and rounding
    are outside the embedding: a property proved here is the exact-arithmetic
    content of the corresponding floating-point statement.

    Errors.  Python's true division raises [ZeroDivisionError] on a zero
    divisor.  Every [/] by a variable is [Py.truediv] in the error monad
    [Py.result]; division by a non-zero literal is plain [Qdiv].

    Time.  [time.time()] is an input: each reading the source takes is an
    explicit argument of the embedded function. *)

From Stdlib Require Import String Ascii DecimalString.
From Stdlib Require Import QArith Qabs Qminmax Lqa ZArith Lia.
From Stdlib Require Import List Bool.
Import ListNotations.
Open Scope Q_scope.

(* ================================================================== *)
(** * Python values and exceptions *)

Module Py.

Inductive exn : Type :=
| ZeroDivisionError
| IndexError
| TypeError
| StatisticsError.

Inductive result (A : Type) : Type :=
| Ok (a : A)
| Raise (e : exn).

Arguments Ok {A} a.
Arguments Raise {A} e.

Definition bind {A B : Type} (m : result A) (k : A -> result B) : result B :=
  match m with
  | Ok a => k a
  | Raise e => Raise e
  end.

(** [x / y] on floats. *)
Definition truediv (x y : Q) : result Q :=
  if Qeq_bool y 0 then Raise ZeroDivisionError else Ok (x / y).

Definition leb (x y : Q) : bool := Qle_bool x y.
Definition ltb (x y : Q) : bool := negb (Qle_bool y x).
Definition geb (x y : Q) : bool := leb y x.
Definition gtb (x y : Q) : bool := ltb y x.
Definition eqb (x y : Q) : bool := Qeq_bool x y.

(** Truth value of an [Optional[float]]: [None] and [0.0] are false. *)
Definition truthy (o : option Q) : bool :=
  match o with
  | Some x => negb (Qeq_bool x 0)
  | None => false
  end.

(** [int(x)]: truncation toward zero. *)
Definition int (x : Q) : Z := Z.quot (Qnum x) (Zpos (Qden x)).

(** [str(n)] of an integer. *)
Definition str_of_int (n : Z) : string := NilZero.string_of_int (Z.to_int n).

(** [sum(xs)] over floats. *)
Definition sum (xs : list Q) : Q := fold_left Qplus xs 0.

(** [xs[:n]] for an integer [n] of either sign. *)
Definition slice_to {A : Type} (xs : list A) (n : Z) : list A :=
  if (0 <=? n)%Z then firstn (Z.to_nat n) xs
  else firstn (Z.to_nat (Z.of_nat (length xs) + n)) xs.

(** [deque(maxlen=n).append(x)]: the oldest element leaves a full deque. *)
Definition deque_append {A : Type} (maxlen : nat) (d : list A) (x : A) : list A :=
  let d' := d ++ [x] in
  skipn (length d' - maxlen) d'.

(** Insertion of [x], which comes from before every element of [l], into
    the ascending [l]: in front of the first element not below it.
    [sorted] on floats is the fold of it, and is stable. *)
Fixpoint insert_sorted (x : Q) (l : list Q) : list Q :=
  match l with
  | [] => [x]
  | y :: l' => if ltb y x then y :: insert_sorted x l' else x :: y :: l'
  end.

Definition sorted (l : list Q) : list Q := fold_right insert_sorted [] l.

End Py.

Notation "x <- m ;; k" := (Py.bind m (fun x => k))
  (at level 61, m at next level, right associativity).

Import Py.

(* ================================================================== *)
(** * models.py *)

Module Models.

Record OrderBookLevel : Type := mkLevel { price : Q; size : Q }.

Record Trade : Type := mkTrade {
  trade_timestamp : Q;
  trade_price : Q;
  trade_size : Q;
  trade_side : string
}.

Record SpreadMetrics : Type := mkSpreadMetrics {
  avg_spread : Q;
  med_spread : Q;
  min_spread : Q;
  max_spread : Q
}.

End Models.

Import Models.

(* ================================================================== *)
(** * spread.py *)

Module Spread.

(** The [for level in levels] loop of [calculate_spread_for_size], with its
    [break]: the state is (remaining_size, total_cost). *)
Fixpoint walk_levels (levels : list OrderBookLevel)
    (remaining_size total_cost : Q) : Q * Q :=
  match levels with
  | [] => (remaining_size, total_cost)
  | l :: rest =>
      if leb remaining_size 0 then (remaining_size, total_cost)
      else
        let size_to_take := Qmin remaining_size (size l) in
        walk_levels rest (remaining_size - size_to_take)
                    (total_cost + size_to_take * price l)
  end.

(** One side of [calculate_spread_for_size]: the walk, the padding at
    [levels[-1]] and the guarded division. *)
Definition avg_side_price (levels : list OrderBookLevel) (target_size : Q)
  : result Q :=
  let '(remaining_size, total_cost) := walk_levels levels target_size 0 in
  let total_cost :=
    if gtb remaining_size 0 then
      match levels with
      | [] => total_cost
      | l0 :: _ => total_cost + remaining_size * price (last levels l0)
      end
    else total_cost in
  if gtb target_size 0 then truediv total_cost target_size else Ok 0.

Definition calculate_spread_for_size (bids asks : list OrderBookLevel)
    (target_size : Q) : result Q :=
  match bids, asks with
  | [], _ | _, [] => Ok 0
  | _, _ =>
      avg_bid_price <- avg_side_price bids target_size ;;
      avg_ask_price <- avg_side_price asks target_size ;;
      Ok (avg_ask_price - avg_bid_price)
  end.

Definition _ratio (bid_vol ask_vol : Q) : result Q :=
  let denom := bid_vol + ask_vol in
  if leb denom 0 then Ok 0 else truediv (bid_vol - ask_vol) denom.

Definition calc_imbalance_levels (bids asks : list OrderBookLevel)
    (levels : Z) : result Q :=
  match bids, asks with
  | [], _ | _, [] => Ok 0
  | _, _ =>
      let bid_vol := Py.sum (map size (slice_to bids levels)) in
      let ask_vol := Py.sum (map size (slice_to asks levels)) in
      _ratio bid_vol ask_vol
  end.

(** The cumulative-volume loop of [calc_imbalance_volume]: (rem, vol). *)
Fixpoint walk_volume (levels : list OrderBookLevel) (rem vol : Q) : Q * Q :=
  match levels with
  | [] => (rem, vol)
  | l :: rest =>
      if leb rem 0 then (rem, vol)
      else
        let take := Qmin rem (size l) in
        walk_volume rest (rem - take) (vol + take)
  end.

Definition calc_imbalance_volume (bids asks : list OrderBookLevel)
    (target_btc : Q) : result Q :=
  match bids, asks with
  | [], _ | _, [] => Ok 0
  | _, _ =>
      if leb target_btc 0 then Ok 0
      else
        let bid_vol := snd (walk_volume bids target_btc 0) in
        let ask_vol := snd (walk_volume asks target_btc 0) in
        _ratio bid_vol ask_vol
  end.

(** [statistics.mean] of a float list: the exact sum over the count; an
    empty list raises [StatisticsError]. *)
Definition mean (xs : list Q) : result Q :=
  match xs with
  | [] => Raise StatisticsError
  | _ => Ok (Py.sum xs / inject_Z (Z.of_nat (length xs)))
  end.

(** [statistics.median]: the middle of the sorted data, or the mean of the
    two middle values. *)

Definition median (xs : list Q) : Q :=
  let data := Py.sorted xs in
  let n := length data in
  if Nat.odd n then nth (n / 2) data 0
  else (nth (n / 2 - 1) data 0 + nth (n / 2) data 0) / 2.

Definition list_min (x : Q) (xs : list Q) : Q := fold_left Qmin xs x.
Definition list_max (x : Q) (xs : list Q) : Q := fold_left Qmax xs x.

(** [get_spread_metrics] over the rolling window [spreads] of one size. *)
Definition get_spread_metrics (spreads : list Q) : result SpreadMetrics :=
  match spreads with
  | [] => Ok (mkSpreadMetrics 0 0 0 0)
  | x :: xs =>
      m <- mean spreads ;;
      Ok (mkSpreadMetrics m (median spreads) (list_min x xs) (list_max x xs))
  end.

(** The spec's words for one side, on any list of levels: from the front,
    take from each level what is still wanted, at most its size, until the
    target is filled; the result is (cost, unfilled remainder). *)
Fixpoint fill_from_front (levels : list OrderBookLevel) (target : Q) : Q * Q :=
  match levels with
  | [] => (0, target)
  | l :: rest =>
      if leb target 0 then (0, target)
      else
        let take := Qmin target (size l) in
        let '(cost, unfilled) := fill_from_front rest (target - take) in
        (take * price l + cost, unfilled)
  end.

(** The average price of one side in the spec's words: the cost of the
    walk, the unfilled remainder priced at the last level, over the
    target. *)
Definition avg_price_spec (levels : list OrderBookLevel) (target : Q) : Q :=
  match levels with
  | [] => 0
  | l0 :: _ =>
      let '(cost, unfilled) := fill_from_front levels target in
      (cost + Qmax 0 unfilled * price (last levels l0)) / target
  end.

(** The same in closed form, for level sizes that are not negative: level
    [i] contributes the part of the target not yet covered by the levels
    before it, at most its own size; what the whole side cannot cover is
    priced at the last level. *)
Fixpoint filled_cost (levels : list OrderBookLevel) (target : Q) : Q :=
  match levels with
  | [] => 0
  | l :: rest =>
      Qmin (size l) target * price l
      + filled_cost rest (target - Qmin (size l) target)
  end.

Definition depth (levels : list OrderBookLevel) : Q :=
  fold_right (fun l acc => size l + acc) 0 levels.

(** Filled cost plus the shortfall at the worst (last) level, over the
    target. *)
Definition vwap_spec (levels : list OrderBookLevel) (target : Q) : Q :=
  match levels with
  | [] => 0
  | l0 :: _ =>
      (filled_cost levels target
       + Qmax 0 (target - depth levels) * price (last levels l0)) / target
  end.

(** Level sizes of a book side are not negative (the feed keeps only
    positive ones). *)
Definition sizes_nonneg (levels : list OrderBookLevel) : Prop :=
  Forall (fun l => 0 <= size l) levels.

End Spread.

(* ================================================================== *)
(** * strategy.py *)

Module Strategy.

Record Quote : Type := mkQuote {
  quote_side : string;
  quote_price : Q;
  quote_size : Q;
  quote_timestamp : Q
}.

Record MarketMakingConfig : Type := mkConfig {
  base_spread_bps : Q;
  min_spread_bps : Q;
  max_spread_bps : Q;
  base_order_size : Q;
  max_order_size : Q;
  max_notional_exposure : Q;
  max_loss_allowed : Q;
  quote_refresh_interval : Q;
  tick_size : Q;
  asym_deadband_pct : Q;
  asym_bps_step : Q
}.

(** The dataclass defaults. *)
Definition default_config : MarketMakingConfig :=
  mkConfig 10.0 5.0 50.0 0.05 1.0 1000000 100000 0.1 0.01 0.20 2.0.

Record SimpleMarketMaker : Type := mkMaker {
  config : MarketMakingConfig;
  is_active : bool;
  last_quote_time : Q;
  current_bid : option Quote;
  current_ask : option Quote;
  quotes_posted : Z;
  quotes_updated : Z
}.

Definition init (cfg : MarketMakingConfig) : SimpleMarketMaker :=
  mkMaker cfg false 0 None None 0 0.

Definition calculate_fair_price (bids asks : list OrderBookLevel) : option Q :=
  match bids, asks with
  | [], _ | _, [] => None
  | b0 :: _, a0 :: _ =>
      let best_bid := price b0 in
      let best_ask := price a0 in
      if leb best_ask best_bid then None
      else Some ((best_bid + best_ask) / 2.0)
  end.

Definition calculate_order_size (cfg : MarketMakingConfig)
    (current_position : Q) (side : string) : Q :=
  let base := base_order_size cfg in
  Qmax 0.01 (Qmin base (max_order_size cfg)).

Definition _check_risk_limits (cfg : MarketMakingConfig)
    (current_position total_pnl current_price : Q) : bool :=
  let notional_exposure := Qabs current_position * current_price in
  if gtb notional_exposure (max_notional_exposure cfg) then true
  else if ltb total_pnl (- max_loss_allowed cfg) then true
  else false.

(** [bids[0]]: an empty list raises [IndexError]. *)
Definition item0 (levels : list OrderBookLevel) : result OrderBookLevel :=
  match levels with
  | [] => Raise IndexError
  | l :: _ => Ok l
  end.

(** The tier table of [generate_quotes]. *)
Definition off_bps_of (expo_abs deadband step_bps : Q) : Q :=
  if leb expo_abs deadband then 0.0
  else if leb expo_abs 0.40 then 1 * step_bps
  else if leb expo_abs 0.60 then 2 * step_bps
  else 3 * step_bps.

(** [now] is the reading of [time.time()] that stamps both quotes. *)
Definition generate_quotes (cfg : MarketMakingConfig)
    (bids asks : list OrderBookLevel)
    (current_position total_pnl unrealized_pnl : Q) (now : Q)
  : result (option Quote * option Quote) :=
  match calculate_fair_price bids asks with
  | None => Ok (None, None)
  | Some fair_price =>
      b0 <- item0 bids ;;
      a0 <- item0 asks ;;
      let best_bid := price b0 in
      let best_ask := price a0 in
      if leb best_ask best_bid then Ok (None, None)
      else if _check_risk_limits cfg current_position total_pnl fair_price
      then Ok (None, None)
      else
        let notional_exposure := Qabs current_position * fair_price in
        expo <- truediv notional_exposure (max_notional_exposure cfg) ;;
        let expo_abs := Qabs expo in
        let deadband := asym_deadband_pct cfg in
        let step_bps := asym_bps_step cfg in
        let off_bps := off_bps_of expo_abs deadband step_bps in
        let '(bid_price, ask_price) :=
          if gtb off_bps 0.0 then
            let off_usd := fair_price * off_bps / 10000.0 in
            if gtb expo 0 then
              (best_bid, Qmax (best_bid + tick_size cfg) (best_ask - off_usd))
            else if ltb expo 0 then
              (Qmin (best_ask - tick_size cfg) (best_bid + off_usd), best_ask)
            else (best_bid, best_ask)
          else (best_bid, best_ask) in
        let bid_size := calculate_order_size cfg current_position "bid" in
        let ask_size := calculate_order_size cfg current_position "ask" in
        let bid_quote :=
          if gtb bid_size 0.01 then Some (mkQuote "bid" bid_price bid_size now)
          else None in
        let ask_quote :=
          if gtb ask_size 0.01 then Some (mkQuote "ask" ask_price ask_size now)
          else None in
        Ok (bid_quote, ask_quote)
  end.

Definition should_update_quotes (mm : SimpleMarketMaker) (current_time : Q)
  : bool :=
  if gtb (current_time - last_quote_time mm) (quote_refresh_interval (config mm))
  then true else false.

Definition _quote_changed (old_quote new_quote : option Quote) : bool :=
  match old_quote, new_quote with
  | None, None => false
  | None, Some _ | Some _, None => true
  | Some o, Some n =>
      let price_changed := gtb (Qabs (quote_price o - quote_price n)) 0.01 in
      let size_changed := gtb (Qabs (quote_size o - quote_size n)) 0.01 in
      price_changed || size_changed
  end.

(** The three readings of the clock one call takes: in
    [should_update_quotes], in [generate_quotes], and when the new pair is
    stored. *)
Record Clock : Type := mkClock { t_check : Q; t_generate : Q; t_store : Q }.

Definition update_quotes (mm : SimpleMarketMaker)
    (bids asks : list OrderBookLevel)
    (current_position total_pnl unrealized_pnl : Q) (clk : Clock)
  : result (SimpleMarketMaker * (option Quote * option Quote)) :=
  if negb (should_update_quotes mm (t_check clk)) then Ok (mm, (None, None))
  else
    new <- generate_quotes (config mm) bids asks current_position total_pnl
             unrealized_pnl (t_generate clk) ;;
    let '(new_bid, new_ask) := new in
    let bid_changed := _quote_changed (current_bid mm) new_bid in
    let ask_changed := _quote_changed (current_ask mm) new_ask in
    if bid_changed || ask_changed then
      Ok (mkMaker (config mm) (is_active mm) (t_store clk) new_bid new_ask
                  (quotes_posted mm) (quotes_updated mm + 1),
          (new_bid, new_ask))
    else Ok (mm, (None, None)).

Definition start (mm : SimpleMarketMaker) : SimpleMarketMaker :=
  mkMaker (config mm) true (last_quote_time mm) (current_bid mm)
          (current_ask mm) 0 0.

Definition stop (mm : SimpleMarketMaker) : SimpleMarketMaker :=
  mkMaker (config mm) false (last_quote_time mm) None None
          (quotes_posted mm) (quotes_updated mm).

End Strategy.

(* ================================================================== *)
(** * portfolio.py *)

Module Portfolio.

Record Fill : Type := mkFill {
  fill_timestamp : Q;
  fill_side : string;
  fill_price : Q;
  fill_size : Q;
  fill_trade_id : string
}.

Record PortfolioState : Type := mkState {
  q : Q;
  cash : Q;
  nav : Q;
  pnl : Q;
  btc_balance : Q;
  usd_balance : Q;
  total_btc_bought : Q;
  total_btc_sold : Q;
  total_usd_spent : Q;
  total_usd_received : Q;
  realized_pnl : Q;
  unrealized_pnl : Q;
  avg_entry_price : Q;
  total_trades : Z
}.

Record PortfolioManager : Type := mkManager {
  state : PortfolioState;
  max_inventory : Q;
  min_inventory : Q;
  fills_history : list Fill;
  recent_fills : list Fill;
  pnl_history : list Q
}.

(** [PortfolioManager.__init__]. *)
Definition init (initial_usd max_inv : Q) : PortfolioManager :=
  mkManager (mkState 0 0 0 0 0 initial_usd 0 0 0 0 0 0 0 0%Z)
            max_inv (- max_inv) [] [] [].

Definition with_state (pm : PortfolioManager) (s : PortfolioState)
  : PortfolioManager :=
  mkManager s (max_inventory pm) (min_inventory pm) (fills_history pm)
            (recent_fills pm) (pnl_history pm).

Definition set_q_cash (s : PortfolioState) (q' cash' : Q) : PortfolioState :=
  mkState q' cash' (nav s) (pnl s) (btc_balance s) (usd_balance s)
          (total_btc_bought s) (total_btc_sold s) (total_usd_spent s)
          (total_usd_received s) (realized_pnl s) (unrealized_pnl s)
          (avg_entry_price s) (total_trades s).

Definition set_avg_entry_price (s : PortfolioState) (a : Q) : PortfolioState :=
  mkState (q s) (cash s) (nav s) (pnl s) (btc_balance s) (usd_balance s)
          (total_btc_bought s) (total_btc_sold s) (total_usd_spent s)
          (total_usd_received s) (realized_pnl s) (unrealized_pnl s)
          a (total_trades s).

(** The new value of [avg_entry_price], or [None] where the source returns
    without assigning it. *)
Definition _update_avg_entry_price_on_fill (avg : Q) (side : string)
    (price executed q_before q_after : Q) : result (option Q) :=
  if leb executed 0 then Ok None
  else if String.eqb side "buy" then
    if geb q_before 0 then
      let base := q_before in
      let add := executed in
      if gtb (base + add) 0
      then v <- truediv (avg * base + price * add) (base + add) ;; Ok (Some v)
      else Ok (Some 0.0)
    else
      if ltb q_after 0 then Ok None
      else if eqb q_after 0 then Ok (Some 0.0)
      else Ok (Some price)
  else
    if leb q_before 0 then
      let base := - q_before in
      let add := executed in
      if gtb (base + add) 0
      then v <- truediv (avg * base + price * add) (base + add) ;; Ok (Some v)
      else Ok (Some 0.0)
    else
      if gtb q_after 0 then Ok None
      else if eqb q_after 0 then Ok (Some 0.0)
      else Ok (Some price).

(** The counters and histories written after the position and cash. *)
Definition record_fill (pm : PortfolioManager) (fill : Fill)
    (actual_fill_size : Q) : PortfolioManager :=
  let s := state pm in
  let is_buy := String.eqb (fill_side fill) "buy" in
  let s' :=
    mkState (q s) (cash s) (nav s) (pnl s)
            (q s) (usd_balance s)
            (if is_buy then total_btc_bought s + actual_fill_size
             else total_btc_bought s)
            (if is_buy then total_btc_sold s
             else total_btc_sold s + actual_fill_size)
            (if is_buy then total_usd_spent s + actual_fill_size * fill_price fill
             else total_usd_spent s)
            (if is_buy then total_usd_received s
             else total_usd_received s + actual_fill_size * fill_price fill)
            (realized_pnl s) (unrealized_pnl s) (avg_entry_price s)
            (total_trades s + 1)%Z in
  mkManager s' (max_inventory pm) (min_inventory pm)
            (deque_append 1000 (fills_history pm) fill)
            (deque_append 10 (recent_fills pm) fill)
            (pnl_history pm).

Definition process_fill_market_making (pm : PortfolioManager) (fill : Fill)
  : result PortfolioManager :=
  let s := state pm in
  let old_q := q s in
  let is_buy := String.eqb (fill_side fill) "buy" in
  let new_q :=
    if is_buy then Qmin (old_q + fill_size fill) (max_inventory pm)
    else Qmax (old_q - fill_size fill) (min_inventory pm) in
  let actual_fill_size := if is_buy then new_q - old_q else old_q - new_q in
  if leb actual_fill_size 0 then Ok pm
  else
    let cash' :=
      if is_buy then cash s - actual_fill_size * fill_price fill
      else cash s + actual_fill_size * fill_price fill in
    let s1 := set_q_cash s new_q cash' in
    upd <- _update_avg_entry_price_on_fill (avg_entry_price s1)
             (fill_side fill) (fill_price fill) actual_fill_size old_q new_q ;;
    let s2 :=
      match upd with
      | Some a => set_avg_entry_price s1 a
      | None => s1
      end in
    Ok (record_fill (with_state pm s2) fill actual_fill_size).

(** The condition of the [if]: our bid is hit.  A quote price that is [None]
    or [0.0] is false in Python. *)
Definition bid_executed (market_trade : Trade) (our_bid_price : option Q)
    (our_bid_size : Q) : bool :=
  match our_bid_price with
  | None => false
  | Some b =>
      truthy (Some b) && gtb our_bid_size 0
      && String.eqb (trade_side market_trade) "sell"
      && leb (trade_price market_trade) b
  end.

(** The condition of the [elif]: our ask is lifted. *)
Definition ask_executed (market_trade : Trade) (our_ask_price : option Q)
    (our_ask_size : Q) : bool :=
  match our_ask_price with
  | None => false
  | Some a =>
      truthy (Some a) && gtb our_ask_size 0
      && String.eqb (trade_side market_trade) "buy"
      && geb (trade_price market_trade) a
  end.

(** The body of the [if]: the fill our bid receives, if any. *)
Definition bid_fill (pm : PortfolioManager) (market_trade : Trade)
    (our_bid_price our_bid_size t_stamp t_id : Q) : option Fill :=
  let fill_size := Qmin our_bid_size (trade_size market_trade) in
  let max_buy_size := max_inventory pm - q (state pm) in
  if leb max_buy_size 0 then None
  else
    let fill_size := Qmin fill_size max_buy_size in
    if leb fill_size 0 then None
    else Some (mkFill t_stamp "buy" our_bid_price fill_size
                 ("fill_bid_" ++ str_of_int (int (t_id * 1000000)))).

(** The body of the [elif]: the fill our ask receives, if any. *)
Definition ask_fill (pm : PortfolioManager) (market_trade : Trade)
    (our_ask_price our_ask_size t_stamp t_id : Q) : option Fill :=
  let fill_size := Qmin our_ask_size (trade_size market_trade) in
  let max_sell_size := q (state pm) - min_inventory pm in
  if leb max_sell_size 0 then None
  else
    let fill_size := Qmin fill_size max_sell_size in
    if leb fill_size 0 then None
    else Some (mkFill t_stamp "sell" our_ask_price fill_size
                 ("fill_ask_" ++ str_of_int (int (t_id * 1000000)))).

(** The value of [fill] when the two branches are done ([None] also where
    a branch returns early).  [t_stamp] and [t_id] are the two readings of
    [time.time()] taken when a fill is built. *)
Definition candidate_fill (pm : PortfolioManager)
    (market_trade : Trade) (our_bid_price our_ask_price : option Q)
    (our_bid_size our_ask_size : Q) (t_stamp t_id : Q) : option Fill :=
  if bid_executed market_trade our_bid_price our_bid_size then
    match our_bid_price with
    | Some b => bid_fill pm market_trade b our_bid_size t_stamp t_id
    | None => None
    end
  else if ask_executed market_trade our_ask_price our_ask_size then
    match our_ask_price with
    | Some a => ask_fill pm market_trade a our_ask_size t_stamp t_id
    | None => None
    end
  else None.

Definition simulate_fill_from_trade (pm : PortfolioManager)
    (market_trade : Trade) (our_bid_price our_ask_price : option Q)
    (our_bid_size our_ask_size : Q) (t_stamp t_id : Q)
  : result (PortfolioManager * option Fill) :=
  match candidate_fill pm market_trade our_bid_price our_ask_price
          our_bid_size our_ask_size t_stamp t_id with
  | Some f => pm' <- process_fill_market_making pm f ;; Ok (pm', Some f)
  | None => Ok (pm, None)
  end.

(** The specification's words for the fill simulator: a quote is hit when
    it is present with a non-zero price and the trade comes from the other
    side at a price that reaches it; the size is the smaller of the quote
    and the trade, clipped to the room the inventory bound leaves. *)
Definition bid_hit (market_trade : Trade) (our_bid_price : option Q) : Prop :=
  exists b, our_bid_price = Some b /\ ~ b == 0
            /\ trade_side market_trade = "sell"%string
            /\ trade_price market_trade <= b.

Definition ask_hit (market_trade : Trade) (our_ask_price : option Q) : Prop :=
  exists a, our_ask_price = Some a /\ ~ a == 0
            /\ trade_side market_trade = "buy"%string
            /\ a <= trade_price market_trade.

Definition clipped_buy_size (pm : PortfolioManager) (market_trade : Trade)
    (our_bid_size : Q) : Q :=
  Qmin (Qmin our_bid_size (trade_size market_trade))
       (max_inventory pm - q (state pm)).

Definition clipped_sell_size (pm : PortfolioManager) (market_trade : Trade)
    (our_ask_size : Q) : Q :=
  Qmin (Qmin our_ask_size (trade_size market_trade))
       (q (state pm) - min_inventory pm).

Definition update_nav_and_pnl (pm : PortfolioManager) (fair_price : Q)
  : PortfolioManager :=
  let s := state pm in
  let nav' := q s * fair_price in
  let pnl' := cash s + nav' in
  let s' :=
    mkState (q s) (cash s) nav' pnl' (btc_balance s) (usd_balance s)
            (total_btc_bought s) (total_btc_sold s) (total_usd_spent s)
            (total_usd_received s) (cash s) nav'
            (avg_entry_price s) (total_trades s) in
  let hist := pnl_history pm ++ [pnl'] in
  let hist := if (1000 <? length hist)%nat then tl hist else hist in
  mkManager s' (max_inventory pm) (min_inventory pm) (fills_history pm)
            (recent_fills pm) hist.

Definition update_unrealized_pnl (pm : PortfolioManager)
    (current_btc_price : Q) : PortfolioManager :=
  update_nav_and_pnl pm current_btc_price.

(** The numeric entries of the dictionary [get_portfolio_summary] builds. *)
Record Summary : Type := mkSummary {
  sum_btc_balance : Q;
  sum_usd_balance : Q;
  sum_avg_entry_price : Q;
  sum_realized_pnl : Q;
  sum_unrealized_pnl : Q;
  sum_total_pnl : Q;
  sum_total_trades : Z;
  sum_recent_fills : list Fill;
  sum_total_btc_bought : Q;
  sum_total_btc_sold : Q;
  sum_total_usd_spent : Q;
  sum_total_usd_received : Q;
  sum_notional_exposure : Q;
  sum_cash : Q;
  sum_position_q : Q;
  sum_nav : Q;
  sum_inventory_utilization : Q
}.

Definition get_portfolio_summary (pm : PortfolioManager) : result Summary :=
  let s := state pm in
  ratio <- truediv (Qabs (q s)) (max_inventory pm) ;;
  Ok (mkSummary (q s) (usd_balance s) (avg_entry_price s)
                (cash s) (nav s) (pnl s) (total_trades s) (recent_fills pm)
                (total_btc_bought s) (total_btc_sold s) (total_usd_spent s)
                (total_usd_received s) (Qabs (nav s))
                (cash s) (q s) (nav s) (ratio * 100)).

(** The states the ledger reaches from [init] by fills, trades and marks. *)
Inductive reachable (initial_usd max_inv : Q) : PortfolioManager -> Prop :=
| reach_init : reachable initial_usd max_inv (init initial_usd max_inv)
| reach_fill pm fill pm' :
    reachable initial_usd max_inv pm ->
    process_fill_market_making pm fill = Ok pm' ->
    reachable initial_usd max_inv pm'
| reach_trade pm tr bid ask bid_size ask_size t1 t2 pm' fill :
    reachable initial_usd max_inv pm ->
    simulate_fill_from_trade pm tr bid ask bid_size ask_size t1 t2
      = Ok (pm', fill) ->
    reachable initial_usd max_inv pm'
| reach_mark pm fair_price :
    reachable initial_usd max_inv pm ->
    reachable initial_usd max_inv (update_nav_and_pnl pm fair_price).

(** The invariant of the ledger: the bounds are the ones it was built with
    and the position lies between them. *)
Definition within_cap (max_inv : Q) (pm : PortfolioManager) : Prop :=
  max_inventory pm = max_inv /\ min_inventory pm = - max_inv
  /\ - max_inv <= q (state pm) <= max_inv.

End Portfolio.

(* ================================================================== *)
(** * analyze.py *)

Module Analyze.

(** What [parse_time_any] returns for a row's time cell: a naive datetime,
    an aware one (both as seconds on their own axis), or the text itself.
    Python orders two keys of one kind and raises [TypeError] across
    kinds. *)
Inductive TimeKey : Type :=
| KNaive (t : Q)
| KAware (t : Q)
| KText (s : string).

(** The cell of the mark column in one row: the column is missing from the
    row, holds [None], the empty text, text [float] refuses, or a number. *)
Inductive MarkCell : Type :=
| MMissing
| MNone
| MEmpty
| MText
| MNum (v : Q).

(** One row of trades.csv as the reconstructor reads it: [r_price] and
    [r_size] are [parse_float] of the cells, [None] when the cell does not
    parse to a finite float. *)
Record Row : Type := mkRow {
  r_time : TimeKey;
  r_side : string;
  r_price : option Q;
  r_size : option Q;
  r_mark : MarkCell;
  r_trade_id : string
}.

Record OutRow : Type := mkOut {
  o_timestamp : TimeKey;
  o_side : string;
  o_price : Q;
  o_size : Q;
  o_position : Q;
  o_avg_entry_price : Q;
  o_cash : Q;
  o_realized_pnl : Q;
  o_unrealized_pnl : Q;
  o_total_pnl : Q;
  o_mark_price : Q;
  o_trade_id : string
}.

(** The loop variables [q], [ac], [cash], [realized]. *)
Record Acc : Type := mkAcc { q : Q; ac : Q; cash : Q; realized : Q }.

Definition acc0 : Acc := mkAcc 0 0 0 0.

Definition same_kind (a b : TimeKey) : bool :=
  match a, b with
  | KNaive _, KNaive _ | KAware _, KAware _ | KText _, KText _ => true
  | _, _ => false
  end.

(** [a < b] on two keys of one kind. *)
Definition key_ltb (a b : TimeKey) : bool :=
  match a, b with
  | KNaive x, KNaive y | KAware x, KAware y => ltb x y
  | KText x, KText y => String.ltb x y
  | _, _ => false
  end.

(** Stable insertion: [r] comes from before every row of [l] in the input,
    so it goes in front of the first row that is not below it. *)
Fixpoint insert_row (r : Row) (l : list Row) : list Row :=
  match l with
  | [] => [r]
  | y :: l' =>
      if key_ltb (r_time y) (r_time r) then y :: insert_row r l'
      else r :: y :: l'
  end.

(** [sorted(rows, key=parse_time_any ...)]: stable; keys of two kinds in one
    list cannot be ordered. *)
Definition sorted_rows (rows : list Row) : result (list Row) :=
  match rows with
  | [] => Ok []
  | r0 :: rest =>
      if forallb (fun r => same_kind (r_time r0) (r_time r)) rest
      then Ok (fold_right insert_row [] rows)
      else Raise TypeError
  end.

(** [str(side).lower().startswith("b")]. *)
Definition is_buy_side (side : string) : bool :=
  match side with
  | String c _ => Ascii.eqb c "b" || Ascii.eqb c "B"
  | EmptyString => false
  end.

(** The mark of a row that moves the position. *)
Definition mark_of (mark_col : option string) (r : Row) (price : Q) : Q :=
  match mark_col, r_mark r with
  | Some _, MNum v => v
  | _, _ => price
  end.

(** The mark of a row whose delta is absorbed: [parse_float] falls back to
    the price on [None] and on text it refuses. *)
Definition mark_of_absorbed (mark_col : option string) (r : Row) (price : Q)
  : Q :=
  match mark_col with
  | None => price
  | Some _ =>
      match r_mark r with
      | MMissing => price
      | MNum v => v
      | MNone | MEmpty | MText => price
      end
  end.

Definition clip_position (max_inventory : option Q) (desired_q : Q) : Q :=
  match max_inventory with
  | Some m =>
      if gtb m 0 then Qmax (- m) (Qmin desired_q m) else desired_q
  | None => desired_q
  end.

(** The net-buy branch: (q, ac, realized, dq) after it. *)
Definition apply_buy (q ac realized dq price : Q) : result (Q * Q * Q * Q) :=
  let '(q, ac, realized, dq) :=
    if ltb q 0 then
      let close := Qmin (- q) dq in
      let realized := realized + (ac - price) * close in
      let q := q + close in
      let dq := dq - close in
      (q, (if eqb q 0 then 0.0 else ac), realized, dq)
    else (q, ac, realized, dq) in
  if gtb dq 0 then
    let new_long := q + dq in
    ac' <- (if negb (eqb new_long 0)
            then truediv (q * ac + dq * price) new_long else Ok 0.0) ;;
    Ok (new_long, ac', realized, dq)
  else Ok (q, ac, realized, dq).

(** The net-sell branch: (q, ac, realized) after it. *)
Definition apply_sell (q ac realized dq price : Q) : result (Q * Q * Q) :=
  let sell_qty := - dq in
  let '(q, ac, realized, sell_qty) :=
    if gtb q 0 then
      let close := Qmin q sell_qty in
      let realized := realized + (price - ac) * close in
      let q := q - close in
      let sell_qty := sell_qty - close in
      (q, (if eqb q 0 then 0.0 else ac), realized, sell_qty)
    else (q, ac, realized, sell_qty) in
  if gtb sell_qty 0 then
    let new_short := - q + sell_qty in
    ac' <- (if negb (eqb new_short 0)
            then truediv ((- q) * ac + sell_qty * price) new_short else Ok 0.0) ;;
    Ok (q - sell_qty, ac', realized)
  else Ok (q, ac, realized).

(** [+1.0 if side.startswith("b") else -1.0]. *)
Definition side_sign (r : Row) : Q :=
  if is_buy_side (r_side r) then 1 else - (1).

(** One iteration of the loop over the sorted rows: the new loop variables
    and the row appended to [out], [None] for a row the loop skips. *)
Definition step (mark_col : option string) (max_inventory : option Q)
    (st : Acc) (r : Row) : result (Acc * option OutRow) :=
  match r_price r, r_size r with
  | Some price, Some parsed_size =>
      let size := Qabs parsed_size in
      let s := side_sign r in
      let desired_q := q st + s * size in
      let new_q := clip_position max_inventory desired_q in
      let dq := new_q - q st in
      if ltb (Qabs dq) 1e-15 then
        let mark := mark_of_absorbed mark_col r price in
        let unrealized := (mark - ac st) * q st in
        let total := realized st + unrealized in
        Ok (st, Some (mkOut (r_time r) (r_side r) price 0.0 (q st) (ac st)
                            (cash st) (realized st) unrealized total mark
                            (r_trade_id r)))
      else
        let cash := cash st - dq * price in
        res <- (if gtb dq 0 then apply_buy (q st) (ac st) (realized st) dq price
                else
                  r3 <- apply_sell (q st) (ac st) (realized st) dq price ;;
                  let '(q, ac, realized) := r3 in Ok (q, ac, realized, dq)) ;;
        let '(q, ac, realized, dq) := res in
        let mark := mark_of mark_col r price in
        let unrealized := (mark - ac) * q in
        let total := realized + unrealized in
        Ok (mkAcc q ac cash realized,
            Some (mkOut (r_time r) (r_side r) price (Qabs dq) q ac cash
                        realized unrealized total mark (r_trade_id r)))
  | _, _ => Ok (st, None)
  end.

(** The loop: [out] in the order the rows are read. *)
Fixpoint run (mark_col : option string) (max_inventory : option Q)
    (st : Acc) (rows : list Row) : result (list OutRow) :=
  match rows with
  | [] => Ok []
  | r :: rest =>
      sr <- step mark_col max_inventory st r ;;
      let '(st', o) := sr in
      out <- run mark_col max_inventory st' rest ;;
      Ok (match o with Some row => row :: out | None => out end)
  end.

Definition compute_pnl_from_trades (trades_rows : list Row)
    (mark_col : option string) (max_inventory : option Q)
  : result (list OutRow) :=
  match trades_rows with
  | [] => Ok []
  | _ =>
      rows <- sorted_rows trades_rows ;;
      run mark_col max_inventory acc0 rows
  end.

(** A row the loop does not skip: both numeric cells parse. *)
Definition parseable (r : Row) : bool :=
  match r_price r, r_size r with
  | Some _, Some _ => true
  | _, _ => false
  end.

(** The accounting identity the loop keeps: cash plus position at average
    cost is the realized P&L. *)
Definition balanced (st : Acc) : Prop :=
  cash st + ac st * q st == realized st.

(** The identity of one output row. *)
Definition row_consistent (row : OutRow) : Prop :=
  o_total_pnl row = o_realized_pnl row + o_unrealized_pnl row
  /\ o_unrealized_pnl row
     = (o_mark_price row - o_avg_entry_price row) * o_position row
  /\ o_realized_pnl row + o_unrealized_pnl row
     == o_cash row + o_position row * o_mark_price row.

End Analyze.

(* ================================================================== *)
(** * spread.py: the analyzer's rolling windows and full logs *)

Module SpreadWindow.

(** What a method of the analyzer does: return, raise [KeyError] on a size
    that is not a key of the dictionary, or raise another exception. *)
Inductive outcome (A : Type) : Type :=
| Returns (a : A)
| KeyError
| Raises (e : exn).

Arguments Returns {A} a.
Arguments KeyError {A}.
Arguments Raises {A} e.

(** A dictionary from sizes to histories, in insertion order. *)
Definition history_dict : Type := list (Q * list Q).

(** [d[k]]: float keys compare by value. *)
Fixpoint dict_get (k : Q) (d : history_dict) : option (list Q) :=
  match d with
  | [] => None
  | (k', v) :: rest => if eqb k' k then Some v else dict_get k rest
  end.

(** The dictionary after the history under the key [k] became [v]. *)
Fixpoint dict_set (k : Q) (v : list Q) (d : history_dict) : history_dict :=
  match d with
  | [] => []
  | (k', v') :: rest =>
      if eqb k' k then (k', v) :: rest else (k', v') :: dict_set k v rest
  end.

Record SpreadAnalyzer : Type := mkAnalyzer {
  window_size : nat;
  timestamps : list Q;
  spread_history : history_dict;
  timestamps_full : list Q;
  spread_history_full : history_dict
}.

(** The four sizes [__init__] configures. *)
Definition configured_sizes : list Q := [0.1; 1.0; 5.0; 10.0].

(** [SpreadAnalyzer.__init__]. *)
Definition init (window_size : nat) : SpreadAnalyzer :=
  mkAnalyzer window_size []
             (map (fun k => (k, [])) configured_sizes)
             []
             (map (fun k => (k, [])) configured_sizes).

(** The [for size in self.spread_history.keys()] loop of [update_spreads]
    over the keys still to visit. *)
Fixpoint append_spreads (sizes : list Q) (w : nat)
    (hist full : history_dict) (bids asks : list OrderBookLevel)
  : outcome (history_dict * history_dict) :=
  match sizes with
  | [] => Returns (hist, full)
  | size :: rest =>
      match Spread.calculate_spread_for_size bids asks size with
      | Raise e => Raises e
      | Ok spread =>
          match dict_get size hist with
          | None => KeyError
          | Some d =>
              let hist' := dict_set size (deque_append w d spread) hist in
              match dict_get size full with
              | None => KeyError
              | Some f =>
                  let full' := dict_set size (f ++ [spread]) full in
                  append_spreads rest w hist' full' bids asks
              end
          end
      end
  end.

(** [update_spreads]; [t1] and [t2] are its two readings of the clock. *)
Definition update_spreads (a : SpreadAnalyzer)
    (bids asks : list OrderBookLevel) (t1 t2 : Q) : outcome SpreadAnalyzer :=
  let ts := deque_append (window_size a) (timestamps a) t1 in
  let ts_full := timestamps_full a ++ [t2] in
  match append_spreads (map fst (spread_history a)) (window_size a)
          (spread_history a) (spread_history_full a) bids asks with
  | Returns (hist, full) =>
      Returns (mkAnalyzer (window_size a) ts hist ts_full full)
  | KeyError => KeyError
  | Raises e => Raises e
  end.

(** [get_spread_metrics(size)] on the analyzer. *)
Definition get_spread_metrics (a : SpreadAnalyzer) (size : Q)
  : outcome SpreadMetrics :=
  match dict_get size (spread_history a) with
  | None => KeyError
  | Some spreads =>
      match Spread.get_spread_metrics spreads with
      | Ok m => Returns m
      | Raise e => Raises e
      end
  end.

(** The analyzers reached from [init] by book updates. *)
Inductive reachable (w : nat) : SpreadAnalyzer -> Prop :=
| reach_init : reachable w (init w)
| reach_update a bids asks t1 t2 a' :
    reachable w a ->
    update_spreads a bids asks t1 t2 = Returns a' ->
    reachable w a'.

(** The last [w] elements of a log. *)
Definition last_n {A : Type} (w : nat) (l : list A) : list A :=
  skipn (length l - w) l.

(** The shape every reached analyzer has: under each configured size the
    rolling window is the tail of the full log, and all logs are as long as
    the log of time stamps. *)
Definition shaped (w : nat) (a : SpreadAnalyzer) : Prop :=
  exists f1 f2 f3 f4,
    window_size a = w
    /\ length (timestamps a) = Nat.min w (length (timestamps_full a))
    /\ spread_history_full a = [(0.1, f1); (1.0, f2); (5.0, f3); (10.0, f4)]
    /\ spread_history a
       = [(0.1, last_n w f1); (1.0, last_n w f2);
          (5.0, last_n w f3); (10.0, last_n w f4)]
    /\ length f1 = length (timestamps_full a)
    /\ length f2 = length (timestamps_full a)
    /\ length f3 = length (timestamps_full a)
    /\ length f4 = length (timestamps_full a).

End SpreadWindow.

(* ================================================================== *)
(** * portfolio.py: risk metrics, health check, recommendations *)

Module Reports.

Import Portfolio.

(** [abs(self.state.q) / self.max_inventory * 100], as every report
    computes it. *)
Definition inventory_utilization (pm : PortfolioManager) : result Q :=
  ratio <- truediv (Qabs (q (state pm))) (max_inventory pm) ;;
  Ok (ratio * 100).

(** The dictionary of [get_risk_metrics]. *)
Record RiskMetrics : Type := mkRiskMetrics {
  rm_notional_exposure : Q;
  rm_total_pnl : Q;
  rm_position_size : Q;
  rm_avg_entry : Q;
  rm_max_exposure_pct : Q;
  rm_loss_pct : Q;
  rm_inventory_utilization : Q;
  rm_cash_generated : Q;
  rm_inventory_value : Q
}.

Definition get_risk_metrics (pm : PortfolioManager) (current_price : Q)
  : result RiskMetrics :=
  let s := state pm in
  let notional_exposure := Qabs (q s) * current_price in
  let max_exposure_pct := notional_exposure / 1000000 * 100 in
  let loss_pct := if ltb (pnl s) 0 then pnl s / 1000000 * 100 else 0 in
  util <- inventory_utilization pm ;;
  Ok (mkRiskMetrics notional_exposure (pnl s) (q s) (avg_entry_price s)
                    max_exposure_pct loss_pct util (cash s) (nav s)).

(** [max(xs) if xs else 0] and [min(xs) if xs else 0]. *)
Definition max_or_zero (xs : list Q) : Q :=
  match xs with
  | [] => 0
  | x :: rest => Spread.list_max x rest
  end.

Definition min_or_zero (xs : list Q) : Q :=
  match xs with
  | [] => 0
  | x :: rest => Spread.list_min x rest
  end.

(** The numeric entries of the dictionary of [get_market_making_metrics]. *)
Record MMMetrics : Type := mkMMMetrics {
  mm_total_cash_generated : Q;
  mm_current_inventory : Q;
  mm_inventory_utilization_pct : Q;
  mm_nav : Q;
  mm_total_pnl : Q;
  mm_pnl_history_length : nat;
  mm_max_pnl : Q;
  mm_min_pnl : Q
}.

Definition get_market_making_metrics (pm : PortfolioManager)
  : result MMMetrics :=
  let s := state pm in
  util <- inventory_utilization pm ;;
  Ok (mkMMMetrics (cash s) (q s) util (nav s) (pnl s)
                  (length (pnl_history pm))
                  (max_or_zero (pnl_history pm))
                  (min_or_zero (pnl_history pm))).

Definition _calculate_mm_health_score (pm : PortfolioManager) : result Q :=
  let s := state pm in
  let score := 100 in
  inventory_util <- inventory_utilization pm ;;
  let score :=
    if gtb inventory_util 80 then score - 30
    else if gtb inventory_util 60 then score - 15
    else score in
  let score :=
    if ltb (pnl s) (- (50000)) then score - 25
    else if ltb (pnl s) (- (10000)) then score - 10
    else score in
  let score :=
    if gtb (pnl s) 0 then score + Qmin 10 (pnl s / 10000) else score in
  Ok (Qmax 0 (Qmin 100 score)).

(** [list(self.fills_history)[-20:]]. *)
Definition last20 (fills : list Fill) : list Fill :=
  skipn (length fills - 20) fills.

Definition count_side (side : string) (fills : list Fill) : nat :=
  length (filter (fun f => String.eqb (fill_side f) side) fills).

Definition of_nat (n : nat) : Q := inject_Z (Z.of_nat n).

Definition _get_mm_recommendations (pm : PortfolioManager)
  : result (list string) :=
  let s := state pm in
  inventory_util <- inventory_utilization pm ;;
  let r1 :=
    if gtb inventory_util 70
    then ["Reduce inventory exposure - adjust skew"%string] else [] in
  let r2 :=
    if gtb (Qabs (q s)) (max_inventory pm * 0.8)
    then ["Near inventory limits - consider position reduction"%string]
    else [] in
  let r3 :=
    if ltb (pnl s) (- (20000))
    then ["Large drawdown - review strategy parameters"%string] else [] in
  let r4 :=
    if (20 <? length (fills_history pm))%nat then
      let recent_fills := last20 (fills_history pm) in
      let buy_fills := count_side "buy" recent_fills in
      let sell_fills := count_side "sell" recent_fills in
      if gtb (of_nat buy_fills) (of_nat sell_fills * 1.5)
      then ["Buying bias detected - consider tightening bid"%string]
      else if gtb (of_nat sell_fills) (of_nat buy_fills * 1.5)
      then ["Selling bias detected - consider tightening ask"%string]
      else []
    else [] in
  Ok (r1 ++ r2 ++ r3 ++ r4).

Record HealthCheck : Type := mkHealthCheck {
  risk_level : string;
  alerts : list string;
  health_score : Q;
  recommendations : list string
}.

(** The ledger is marked first; the report is built on the marked ledger,
    which is returned with it. *)
Definition get_portfolio_health_check (pm : PortfolioManager)
    (current_btc_price : Q) : result (PortfolioManager * HealthCheck) :=
  let pm := update_nav_and_pnl pm current_btc_price in
  let s := state pm in
  inventory_util <- inventory_utilization pm ;;
  let '(alerts, risk_level) :=
    if gtb inventory_util 80
    then (["⚠️ High inventory utilization (>80%)"%string], "HIGH"%string)
    else if gtb inventory_util 60
    then (["⚡ Medium inventory utilization (>60%)"%string], "MEDIUM"%string)
    else ([], "LOW"%string) in
  let '(alerts, risk_level) :=
    if ltb (pnl s) (- (50000))
    then (alerts ++ ["🚨 Large loss (>$50k)"%string], "HIGH"%string)
    else if ltb (pnl s) (- (10000))
    then (alerts ++ ["📉 Moderate loss (>$10k)"%string],
          if String.eqb risk_level "LOW" then "MEDIUM"%string else risk_level)
    else (alerts, risk_level) in
  score <- _calculate_mm_health_score pm ;;
  recs <- _get_mm_recommendations pm ;;
  Ok (pm, mkHealthCheck risk_level alerts score recs).

(** [get_detailed_portfolio_summary]: the optional mark, then the summary
    and the market-making metrics that are merged into it. *)
Definition get_detailed_portfolio_summary (pm : PortfolioManager)
    (current_btc_price : option Q)
  : result (PortfolioManager * (Summary * MMMetrics)) :=
  let pm :=
    match current_btc_price with
    | Some p => update_nav_and_pnl pm p
    | None => pm
    end in
  summary <- get_portfolio_summary pm ;;
  metrics <- get_market_making_metrics pm ;;
  Ok (pm, (summary, metrics)).

(** The books of the ledger balance: cash is what the fills received minus
    what they spent, the position is what was bought minus what was sold,
    and the displayed balance is the position. *)
Definition books_balance (pm : PortfolioManager) : Prop :=
  let s := state pm in
  cash s == total_usd_received s - total_usd_spent s
  /\ q s == total_btc_bought s - total_btc_sold s
  /\ btc_balance s = q s
  /\ 0 <= total_btc_bought s /\ 0 <= total_btc_sold s
  /\ (0 <= total_trades s)%Z.

(** The histories stay within their capacities and the recent fills are the
    last ten of the fill history. *)
Definition histories_bounded (pm : PortfolioManager) : Prop :=
  (length (fills_history pm) <= 1000)%nat
  /\ (length (recent_fills pm) <= 10)%nat
  /\ (length (pnl_history pm) <= 1000)%nat
  /\ recent_fills pm
     = skipn (length (fills_history pm) - 10) (fills_history pm)
  /\ length (fills_history pm)
     = Nat.min 1000 (Z.to_nat (total_trades (state pm))).

(** The marked total is the latest entry of the history of totals (zero
    with an empty history, before the first mark). *)
Definition pnl_is_latest (pm : PortfolioManager) : Prop :=
  (pnl_history pm = [] /\ pnl (state pm) = 0)
  \/ exists h, pnl_history pm = h ++ [pnl (state pm)].

End Reports.

(* ================================================================== *)
(** * binance_client.py: the depth message handler *)

Module Feed.

Import Py Models.











End Feed.

(* ================================================================== *)
(** * dashboard.py: the two event handlers *)

Module Dashboard.

Import Py Models.

Record Position : Type := mkPosition {
  pos_btc_balance : Q;
  pos_usd_exposure : Q;
  pos_avg_entry : Q;
  pos_realized_pnl : Q;
  pos_unrealized_pnl : Q
}.

(** The data and the trading components of [TradingDashboard]. *)
Record TradingDashboard : Type := mkDashboard {
  bids : list OrderBookLevel;
  asks : list OrderBookLevel;
  recent_trades : list Trade;
  position : Position;
  spread_analyzer : SpreadWindow.SpreadAnalyzer;
  portfolio : Portfolio.PortfolioManager;
  market_maker : Strategy.SimpleMarketMaker
}.

(** [__init__]: every component with its defaults, the strategy started. *)
Definition init : TradingDashboard :=
  mkDashboard [] [] [] (mkPosition 0 0 0 0 0)
              (SpreadWindow.init 100)
              (Portfolio.init 1000000 5)
              (Strategy.start (Strategy.init Strategy.default_config)).

(** [update_unrealized_pnl]; [clk] holds the readings of the clock that
    [update_quotes] takes. *)
Definition update_unrealized_pnl (d : TradingDashboard) (clk : Strategy.Clock)
  : SpreadWindow.outcome TradingDashboard :=
  match bids d, asks d with
  | b0 :: _, a0 :: _ =>
      let current_price := (price a0 + price b0) / 2 in
      let pf := Portfolio.update_unrealized_pnl (portfolio d) current_price in
      match Portfolio.get_portfolio_summary pf with
      | Raise e => SpreadWindow.Raises e
      | Ok portfolio_state =>
          match Strategy.update_quotes (market_maker d) (bids d) (asks d)
                  (Portfolio.sum_btc_balance portfolio_state)
                  (Portfolio.sum_total_pnl portfolio_state)
                  (Portfolio.sum_unrealized_pnl portfolio_state) clk with
          | Raise e => SpreadWindow.Raises e
          | Ok (mm, _) =>
              let pos := position d in
              let pos' :=
                if negb (eqb (pos_btc_balance pos) 0)
                   && gtb (pos_avg_entry pos) 0
                then mkPosition (pos_btc_balance pos) (pos_usd_exposure pos)
                                (pos_avg_entry pos) (pos_realized_pnl pos)
                                ((current_price - pos_avg_entry pos)
                                 * pos_btc_balance pos)
                else pos in
              SpreadWindow.Returns
                (mkDashboard (bids d) (asks d) (recent_trades d) pos'
                             (spread_analyzer d) pf mm)
          end
      end
  | _, _ => SpreadWindow.Returns d
  end.

(** [on_orderbook_update]; [t1] and [t2] are the readings of the clock in
    [update_spreads]. *)
Definition on_orderbook_update (d : TradingDashboard)
    (new_bids new_asks : list OrderBookLevel) (t1 t2 : Q)
    (clk : Strategy.Clock) : SpreadWindow.outcome TradingDashboard :=
  let bids10 := firstn 10 new_bids in
  let asks10 := firstn 10 new_asks in
  match SpreadWindow.update_spreads (spread_analyzer d) new_bids new_asks
          t1 t2 with
  | SpreadWindow.Returns a =>
      update_unrealized_pnl
        (mkDashboard bids10 asks10 (recent_trades d) (position d) a
                     (portfolio d) (market_maker d)) clk
  | SpreadWindow.KeyError => SpreadWindow.KeyError
  | SpreadWindow.Raises e => SpreadWindow.Raises e
  end.

(** [x.price if x else None] and [x.size if x else 0.0] on a quote. *)
Definition price_of (o : option Strategy.Quote) : option Q :=
  match o with
  | Some x => Some (Strategy.quote_price x)
  | None => None
  end.

Definition size_of (o : option Strategy.Quote) : Q :=
  match o with
  | Some x => Strategy.quote_size x
  | None => 0.0
  end.

(** [on_trade_update]; [t_stamp] and [t_id] are the readings of the clock
    taken when a fill is built. *)
Definition on_trade_update (d : TradingDashboard) (trade : Trade)
    (t_stamp t_id : Q) : SpreadWindow.outcome TradingDashboard :=
  let trades := deque_append 10 (recent_trades d) trade in
  let mm := market_maker d in
  if Strategy.is_active mm then
    let our_bid_price := price_of (Strategy.current_bid mm) in
    let our_ask_price := price_of (Strategy.current_ask mm) in
    let our_bid_size := size_of (Strategy.current_bid mm) in
    let our_ask_size := size_of (Strategy.current_ask mm) in
    match Portfolio.simulate_fill_from_trade (portfolio d) trade
            our_bid_price our_ask_price our_bid_size our_ask_size
            t_stamp t_id with
    | Raise e => SpreadWindow.Raises e
    | Ok (pf, _) =>
        SpreadWindow.Returns
          (mkDashboard (bids d) (asks d) trades (position d)
                       (spread_analyzer d) pf mm)
    end
  else
    SpreadWindow.Returns
      (mkDashboard (bids d) (asks d) trades (position d)
                   (spread_analyzer d) (portfolio d) mm).

(** What the feed delivers: a book or a trade, with the readings of the
    clock its handler takes. *)
Inductive event : Type :=
| BookEvent (new_bids new_asks : list OrderBookLevel) (t1 t2 : Q)
            (clk : Strategy.Clock)
| TradeEvent (trade : Trade) (t_stamp t_id : Q).

Definition handle (d : TradingDashboard) (ev : event)
  : SpreadWindow.outcome TradingDashboard :=
  match ev with
  | BookEvent new_bids new_asks t1 t2 clk =>
      on_orderbook_update d new_bids new_asks t1 t2 clk
  | TradeEvent trade t_stamp t_id => on_trade_update d trade t_stamp t_id
  end.

(** The dashboards reached from [init] by events whose handler returned. *)
Inductive reachable : TradingDashboard -> Prop :=
| reach_init : reachable init
| reach_event d ev d' :
    reachable d -> handle d ev = SpreadWindow.Returns d' -> reachable d'.

(** What every reached dashboard keeps: the components are the default
    ones, each in a state its own operations reach; the strategy is
    active; and the two quotes are present together, the bid below the
    ask. *)
Definition sound (d : TradingDashboard) : Prop :=
  Portfolio.reachable 1000000 5 (portfolio d)
  /\ SpreadWindow.reachable 100 (spread_analyzer d)
  /\ Strategy.config (market_maker d) = Strategy.default_config
  /\ Strategy.is_active (market_maker d) = true
  /\ position d = mkPosition 0 0 0 0 0
  /\ (length (bids d) <= 10)%nat /\ (length (asks d) <= 10)%nat
  /\ (length (recent_trades d) <= 10)%nat
  /\ ((Strategy.current_bid (market_maker d) = None
       /\ Strategy.current_ask (market_maker d) = None)
      \/ exists b a,
           Strategy.current_bid (market_maker d) = Some b
           /\ Strategy.current_ask (market_maker d) = Some a
           /\ Strategy.quote_price b < Strategy.quote_price a
           /\ Strategy.quote_size b == 0.05
           /\ Strategy.quote_size a == 0.05).

End Dashboard.

(* ================================================================== *)
(** * analyze.py: the close-then-open convention, in the specification's
    words *)

Module CloseThenOpen.

Import Py Models Analyze.

(** Modelled from the spec: the quantity a fill closes, when it moves the
    position from [q0] to [q1] against the sign of [q0]: as much of the
    existing exposure as the move covers. *)
Definition closed_quantity (q0 q1 : Q) : Q :=
  if gtb q0 0 && ltb q1 q0 then Qmin q0 (q0 - q1)
  else if ltb q0 0 && gtb q1 q0 then Qmin (- q0) (q1 - q0)
  else 0.

(** Modelled from the spec: the P&L a fill at [price] crystallizes, the
    price difference to the average cost [ac0] times the quantity
    closed. *)
Definition crystallized (q0 ac0 q1 price : Q) : Q :=
  (if gtb q0 0 then price - ac0 else ac0 - price) * closed_quantity q0 q1.

(** Modelled from the spec: the average cost after the fill: zero when
    the position is flattened, the fill price when the remainder opens
    exposure on the other side, unchanged when the position is only
    reduced, and the weighted average when exposure is opened or
    extended. *)
Definition average_cost_after (q0 ac0 q1 price : Q) : Q :=
  if eqb q1 0 then 0
  else if (gtb q0 0 && ltb q1 0) || (ltb q0 0 && gtb q1 0) then price
  else if ltb (Qabs q1) (Qabs q0) then ac0
  else (ac0 * q0 + price * (q1 - q0)) / q1.

(** One output row follows the state ([q0], [ac0], [cash0], [realized0])
    before it by the convention. *)
Definition row_follows (q0 ac0 cash0 realized0 : Q) (row : OutRow) : Prop :=
  o_cash row == cash0 - (o_position row - q0) * o_price row
  /\ o_realized_pnl row
     == realized0 + crystallized q0 ac0 (o_position row) (o_price row)
  /\ o_avg_entry_price row
     == average_cost_after q0 ac0 (o_position row) (o_price row).

(** Every row of the output follows the one before it, the first one the
    given start. *)
Fixpoint rows_follow (q0 ac0 cash0 realized0 : Q) (out : list OutRow)
  : Prop :=
  match out with
  | [] => True
  | row :: rest =>
      row_follows q0 ac0 cash0 realized0 row
      /\ rows_follow (o_position row) (o_avg_entry_price row) (o_cash row)
                     (o_realized_pnl row) rest
  end.

End CloseThenOpen.

(* ================================================================== *)
(** * Comparisons and division: the facts every proof below uses *)

Module PyFacts.

Lemma leb_true (x y : Q) : leb x y = true <-> x <= y.
Proof. unfold leb. apply Qle_bool_iff. Qed.

Lemma leb_false (x y : Q) : leb x y = false <-> y < x.
Proof.
  unfold leb. split; intro H.
  - apply Qnot_le_lt. intro L. apply Qle_bool_iff in L. congruence.
  - destruct (Qle_bool x y) eqn:E; [|reflexivity].
    apply Qle_bool_iff in E. lra.
Qed.

Lemma ltb_true (x y : Q) : ltb x y = true <-> x < y.
Proof.
  unfold ltb. rewrite negb_true_iff. apply (leb_false y x).
Qed.

Lemma ltb_false (x y : Q) : ltb x y = false <-> y <= x.
Proof.
  unfold ltb. rewrite negb_false_iff. apply (leb_true y x).
Qed.

Lemma gtb_true (x y : Q) : gtb x y = true <-> y < x.
Proof. apply ltb_true. Qed.

Lemma gtb_false (x y : Q) : gtb x y = false <-> x <= y.
Proof. apply ltb_false. Qed.

Lemma geb_true (x y : Q) : geb x y = true <-> y <= x.
Proof. apply leb_true. Qed.

Lemma geb_false (x y : Q) : geb x y = false <-> x < y.
Proof. apply leb_false. Qed.

Lemma eqb_true (x y : Q) : eqb x y = true <-> x == y.
Proof. apply Qeq_bool_iff. Qed.

Lemma eqb_false (x y : Q) : eqb x y = false <-> ~ x == y.
Proof.
  unfold eqb. split; intro H.
  - intro E. apply Qeq_bool_iff in E. congruence.
  - destruct (Qeq_bool x y) eqn:E; [|reflexivity].
    apply Qeq_bool_iff in E. contradiction.
Qed.

(** A non-zero divisor: the quotient is returned. *)
Lemma truediv_ok (x y : Q) : ~ y == 0 -> truediv x y = Ok (x / y).
Proof.
  intro H. unfold truediv.
  destruct (Qeq_bool y 0) eqn:E; [|reflexivity].
  apply Qeq_bool_iff in E. contradiction.
Qed.

(** A zero divisor: the division raises. *)
Lemma truediv_zero (x y : Q) : y == 0 -> truediv x y = Raise ZeroDivisionError.
Proof.
  intro H. unfold truediv. apply Qeq_bool_iff in H. rewrite H. reflexivity.
Qed.

Lemma div_mul_cancel (x y : Q) : ~ y == 0 -> x / y * y == x.
Proof. intro H. field. exact H. Qed.

Lemma abs_spec (x : Q) : (0 <= x /\ Qabs x == x) \/ (x <= 0 /\ Qabs x == - x).
Proof.
  apply Qabs_case; intro H; [left | right]; split; auto; reflexivity.
Qed.

Lemma div_mul_cancel_opp (x y : Q) : ~ y == 0 -> x / y * (- y) == - x.
Proof. intro H. field. exact H. Qed.

(** Equal amounts differ by less than any tolerance. *)
Lemma abs_diff_le (x y e : Q) : x == y -> 0 <= e -> Qabs (x - y) <= e.
Proof.
  intros H He. apply Qabs_Qle_condition. split; lra.
Qed.

End PyFacts.

Import PyFacts.

(** Comparisons in the context become propositions. *)
Ltac cmp_props :=
  repeat match goal with
  | H : leb _ _ = true |- _ => apply leb_true in H
  | H : leb _ _ = false |- _ => apply leb_false in H
  | H : ltb _ _ = true |- _ => apply ltb_true in H
  | H : ltb _ _ = false |- _ => apply ltb_false in H
  | H : gtb _ _ = true |- _ => apply gtb_true in H
  | H : gtb _ _ = false |- _ => apply gtb_false in H
  | H : geb _ _ = true |- _ => apply geb_true in H
  | H : geb _ _ = false |- _ => apply geb_false in H
  | H : eqb _ _ = true |- _ => apply eqb_true in H
  | H : eqb _ _ = false |- _ => apply eqb_false in H
  end.

(** Every [Qmin], [Qmax] and [Qabs] is replaced by a variable with its
    defining cases, for linear arithmetic to split on. *)
Ltac name_minmax :=
  repeat match goal with
  | |- context [Qmin ?a ?b] =>
      let m := fresh "m" in
      pose proof (Q.min_spec a b); set (m := Qmin a b) in *; clearbody m
  | |- context [Qmax ?a ?b] =>
      let m := fresh "m" in
      pose proof (Q.max_spec a b); set (m := Qmax a b) in *; clearbody m
  | |- context [Qabs ?a] =>
      let m := fresh "m" in
      pose proof (abs_spec a); set (m := Qabs a) in *; clearbody m
  | H : context [Qmin ?a ?b] |- _ =>
      let m := fresh "m" in
      pose proof (Q.min_spec a b); set (m := Qmin a b) in *; clearbody m
  | H : context [Qmax ?a ?b] |- _ =>
      let m := fresh "m" in
      pose proof (Q.max_spec a b); set (m := Qmax a b) in *; clearbody m
  | H : context [Qabs ?a] |- _ =>
      let m := fresh "m" in
      pose proof (abs_spec a); set (m := Qabs a) in *; clearbody m
  end.

Ltac qarith := cmp_props; name_minmax; lra.

(* ================================================================== *)
(** * Spread analytics *)

Module SpreadProps.

Import Spread.

Lemma depth_nonneg levels : sizes_nonneg levels -> 0 <= depth levels.
Proof.
  induction 1 as [|l rest Hl _ IH]; simpl; lra.
Qed.

Lemma filled_cost_zero levels (t : Q) :
  sizes_nonneg levels -> t == 0 -> filled_cost levels t == 0.
Proof.
  intros Hs. revert t.
  induction Hs as [|l rest Hl _ IH]; intros t Ht; simpl; [reflexivity|].
  assert (Hm : Qmin (size l) t == 0) by qarith.
  rewrite (IH (t - Qmin (size l) t)) by lra.
  rewrite Hm. lra.
Qed.

Lemma filled_cost_ext levels (s t : Q) :
  s == t -> filled_cost levels s == filled_cost levels t.
Proof.
  revert s t. induction levels as [|l r IHr]; intros s t Hst; simpl; [reflexivity|].
  assert (Hq : Qmin (size l) s == Qmin (size l) t) by (rewrite Hst; reflexivity).
  rewrite (IHr (s - Qmin (size l) s) (t - Qmin (size l) t))
    by (rewrite Hq, Hst; reflexivity).
  rewrite Hq. reflexivity.
Qed.

(** The loop computes the filled cost and leaves what the side cannot
    cover. *)
Lemma walk_levels_spec levels : sizes_nonneg levels ->
  forall rem cost, 0 <= rem ->
  fst (walk_levels levels rem cost) == Qmax 0 (rem - depth levels) /\
  snd (walk_levels levels rem cost) == cost + filled_cost levels rem.
Proof.
  induction 1 as [|l rest Hl Hrest IH]; intros rem cost Hrem; simpl.
  - split; qarith.
  - pose proof (depth_nonneg _ Hrest) as Hd.
    destruct (leb rem 0) eqn:E; simpl.
    + cmp_props.
      assert (Hz : rem == 0) by lra.
      pose proof (filled_cost_zero rest (rem - Qmin (size l) rem) Hrest) as Hf.
      assert (Hm : Qmin (size l) rem == 0) by qarith.
      rewrite Hf by lra. rewrite Hm. split; qarith.
    + cmp_props.
      assert (Hm : Qmin rem (size l) == Qmin (size l) rem) by apply Q.min_comm.
      assert (Hr : 0 <= rem - Qmin rem (size l)) by qarith.
      destruct (IH (rem - Qmin rem (size l))
                   (cost + Qmin rem (size l) * price l) Hr) as [IH1 IH2].
      split.
      * rewrite IH1. qarith.
      * rewrite IH2.
        rewrite (filled_cost_ext rest (rem - Qmin rem (size l))
                   (rem - Qmin (size l) rem)) by (rewrite Hm; reflexivity).
        rewrite Hm. lra.
Qed.

(** The loop with its accumulator is the walk of the specification. *)
Lemma walk_levels_fill levels :
  forall rem cost,
  fst (walk_levels levels rem cost) = snd (fill_from_front levels rem)
  /\ snd (walk_levels levels rem cost)
     == cost + fst (fill_from_front levels rem).
Proof.
  induction levels as [|l rest IH]; intros rem cost; simpl.
  - split; [reflexivity|]. lra.
  - destruct (leb rem 0); simpl.
    + split; [reflexivity|]. lra.
    + destruct (IH (rem - Qmin rem (size l))
                   (cost + Qmin rem (size l) * price l)) as [IH1 IH2].
      destruct (fill_from_front rest (rem - Qmin rem (size l))) as [c u].
      simpl in *. split; [exact IH1|]. rewrite IH2. lra.
Qed.

(** One side, any levels: the code's average is the specification's. *)
Lemma avg_side_price_walk levels (target_size : Q) :
  levels <> [] -> 0 < target_size ->
  exists v, avg_side_price levels target_size = Ok v
            /\ v == avg_price_spec levels target_size.
Proof.
  intros Hne Ht.
  destruct levels as [|l0 rest]; [congruence|].
  unfold avg_side_price, avg_price_spec.
  destruct (walk_levels_fill (l0 :: rest) target_size 0) as [W1 W2].
  destruct (walk_levels (l0 :: rest) target_size 0) as [r c].
  destruct (fill_from_front (l0 :: rest) target_size) as [c' u].
  simpl fst in *. simpl snd in *. subst u.
  assert (G : gtb target_size 0 = true) by (apply gtb_true; exact Ht).
  rewrite G. rewrite truediv_ok by lra.
  eexists. split; [reflexivity|].
  apply Qmult_inj_r with (z := target_size); [lra|].
  rewrite !div_mul_cancel by lra.
  destruct (gtb r 0) eqn:E; cmp_props; rewrite W2.
  - assert (Hm : Qmax 0 r == r) by qarith. rewrite Hm. lra.
  - assert (Hm : Qmax 0 r == 0) by qarith. rewrite Hm. lra.
Qed.

(** One side, sizes not negative: the code's average in closed form. *)
Lemma avg_side_price_spec levels (target_size : Q) :
  levels <> [] -> sizes_nonneg levels -> 0 < target_size ->
  exists v, avg_side_price levels target_size = Ok v
            /\ v == vwap_spec levels target_size.
Proof.
  intros Hne Hs Ht.
  destruct levels as [|l0 rest]; [congruence|].
  unfold avg_side_price, vwap_spec.
  assert (Ht0 : 0 <= target_size) by lra.
  destruct (walk_levels_spec (l0 :: rest) Hs target_size 0 Ht0) as [W1 W2].
  destruct (walk_levels (l0 :: rest) target_size 0) as [r c]. simpl fst in *. simpl snd in *.
  assert (G : gtb target_size 0 = true) by (apply gtb_true; exact Ht).
  rewrite G. rewrite truediv_ok by lra.
  eexists. split; [reflexivity|].
  apply Qmult_inj_r with (z := target_size); [lra|].
  rewrite !div_mul_cancel by lra.
  destruct (gtb r 0) eqn:E; cmp_props.
  - rewrite W1, W2. lra.
  - rewrite W2.
    assert (Hz : Qmax 0 (target_size - depth (l0 :: rest)) == 0)
      by (rewrite <- W1; revert W1; qarith).
    rewrite Hz. lra.
Qed.

(** A target that is not positive: the walk does not start, the average
    is 0. *)
Lemma avg_side_price_nonpos levels (target_size : Q) :
  levels <> [] -> target_size <= 0 -> avg_side_price levels target_size = Ok 0.
Proof.
  intros Hne Ht. destruct levels as [|l0 rest]; [congruence|].
  unfold avg_side_price. simpl.
  assert (L : leb target_size 0 = true) by (apply leb_true; exact Ht).
  assert (G : gtb target_size 0 = false) by (apply gtb_false; exact Ht).
  rewrite L, G. reflexivity.
Qed.

(** The division of [avg_side_price] never raises. *)
Lemma avg_side_price_total levels (target_size : Q) :
  exists v, avg_side_price levels target_size = Ok v.
Proof.
  unfold avg_side_price.
  destruct (walk_levels levels target_size 0) as [r c].
  destruct (gtb target_size 0) eqn:G; [|eauto].
  cmp_props. rewrite truediv_ok by lra. eauto.
Qed.

(** C6.  [calculate_spread_for_size] returns 0 for an empty side or a target
    that is not positive.  On any non-empty book with a positive target it
    returns the average ask minus the average bid, where each average walks
    the levels from the front accumulating volume-weighted cost until the
    target is filled and prices what the side cannot cover at its last
    level, over the target; for level sizes that are not negative this is
    (filled cost + max(0, target - depth) * last price) / target.  Bids 100
    at 0.5 then 99 at 10 average 99.5 at target 1. *)
Theorem calculate_spread_for_size_spec
    (bids asks : list OrderBookLevel) (target_size : Q) :
  (bids = [] \/ asks = [] \/ target_size <= 0 ->
   calculate_spread_for_size bids asks target_size = Ok 0)
  /\ (bids <> [] -> asks <> [] -> 0 < target_size ->
      exists v, calculate_spread_for_size bids asks target_size = Ok v
                /\ v == avg_price_spec asks target_size
                        - avg_price_spec bids target_size)
  /\ (bids <> [] -> asks <> [] -> sizes_nonneg bids -> sizes_nonneg asks ->
      0 < target_size ->
      exists v, calculate_spread_for_size bids asks target_size = Ok v
                /\ v == vwap_spec asks target_size - vwap_spec bids target_size)
  /\ (exists v, avg_side_price [mkLevel 100 0.5; mkLevel 99 10] 1 = Ok v
                /\ v == 99.5).
Proof.
  split; [|split; [|split]].
  - intros [Hb | [Ha | Ht]].
    + subst bids. reflexivity.
    + subst asks. destruct bids; reflexivity.
    + destruct bids as [|b0 bs]; [reflexivity|].
      destruct asks as [|a0 az]; [reflexivity|].
      unfold calculate_spread_for_size.
      rewrite !avg_side_price_nonpos by (congruence || exact Ht).
      reflexivity.
  - intros Hb Ha Ht.
    destruct (avg_side_price_walk bids target_size Hb Ht) as [vb [Eb Vb]].
    destruct (avg_side_price_walk asks target_size Ha Ht) as [va [Ea Va]].
    destruct bids as [|b0 bs]; [congruence|].
    destruct asks as [|a0 az]; [congruence|].
    unfold calculate_spread_for_size. rewrite Eb, Ea. simpl.
    eexists. split; [reflexivity|]. rewrite Va, Vb. reflexivity.
  - intros Hb Ha Sb Sa Ht.
    destruct (avg_side_price_spec bids target_size Hb Sb Ht) as [vb [Eb Vb]].
    destruct (avg_side_price_spec asks target_size Ha Sa Ht) as [va [Ea Va]].
    destruct bids as [|b0 bs]; [congruence|].
    destruct asks as [|a0 az]; [congruence|].
    unfold calculate_spread_for_size. rewrite Eb, Ea. simpl.
    eexists. split; [reflexivity|]. rewrite Va, Vb. reflexivity.
  - eexists. split; [vm_compute; reflexivity|]. reflexivity.
Qed.

(** Scenario B of the specification on the general statement: bid 100 at 1,
    ask 101 at 1, target 1 give the spread 1. *)
Lemma calculate_spread_for_size_spec_witness :
  exists v, calculate_spread_for_size [mkLevel 100 1] [mkLevel 101 1] 1 = Ok v
            /\ v == vwap_spec [mkLevel 101 1] 1 - vwap_spec [mkLevel 100 1] 1
            /\ v == 1.
Proof.
  destruct (proj1 (proj2 (proj2 (calculate_spread_for_size_spec
                         [mkLevel 100 1] [mkLevel 101 1] 1))))
    as [v [E V]].
  - discriminate.
  - discriminate.
  - repeat constructor. simpl. lra.
  - repeat constructor. simpl. lra.
  - lra.
  - exists v. split; [exact E|]. split; [exact V|].
    rewrite V. vm_compute. reflexivity.
Defined.

(** The guarded divisions of the analyzer never raise. *)
Lemma calculate_spread_for_size_total bids asks (target_size : Q) :
  exists v, calculate_spread_for_size bids asks target_size = Ok v.
Proof.
  unfold calculate_spread_for_size.
  destruct bids as [|b0 bs]; [eauto|].
  destruct asks as [|a0 az]; [eauto|].
  destruct (avg_side_price_total (b0 :: bs) target_size) as [vb Eb].
  destruct (avg_side_price_total (a0 :: az) target_size) as [va Ea].
  rewrite Eb, Ea. simpl. eauto.
Qed.

Lemma ratio_total (bid_vol ask_vol : Q) :
  exists v, _ratio bid_vol ask_vol = Ok v
            /\ (bid_vol + ask_vol <= 0 -> v = 0).
Proof.
  unfold _ratio. destruct (leb (bid_vol + ask_vol) 0) eqn:E.
  - eauto.
  - cmp_props. rewrite truediv_ok by lra. eexists. split; [reflexivity|]. lra.
Qed.

Lemma calc_imbalance_levels_total bids asks (levels : Z) :
  exists v, calc_imbalance_levels bids asks levels = Ok v.
Proof.
  unfold calc_imbalance_levels.
  destruct bids as [|b0 bs]; [eauto|]. destruct asks as [|a0 az]; [eauto|].
  destruct (ratio_total (Py.sum (map size (slice_to (b0 :: bs) levels)))
                        (Py.sum (map size (slice_to (a0 :: az) levels))))
    as [v [E _]].
  eauto.
Qed.

Lemma calc_imbalance_volume_total bids asks (target_btc : Q) :
  exists v, calc_imbalance_volume bids asks target_btc = Ok v.
Proof.
  unfold calc_imbalance_volume.
  destruct bids as [|b0 bs]; [eauto|]. destruct asks as [|a0 az]; [eauto|].
  destruct (leb target_btc 0); [eauto|].
  destruct (ratio_total (snd (walk_volume (b0 :: bs) target_btc 0))
                        (snd (walk_volume (a0 :: az) target_btc 0)))
    as [v [E _]].
  eauto.
Qed.

Lemma get_spread_metrics_total (spreads : list Q) :
  exists m, get_spread_metrics spreads = Ok m.
Proof.
  destruct spreads as [|x xs]; simpl; eauto.
Qed.

End SpreadProps.

(* ================================================================== *)
(** * Quote engine *)

Module StrategyProps.

Import Strategy.

Lemma abs_opp_eq (x : Q) : Qabs (- x) = Qabs x.
Proof. destruct x as [n d]. simpl. rewrite Z.abs_opp. reflexivity. Qed.

(** The skew reads the position through [abs] only: a short position
    is quoted exactly like the long one of the same size. *)
Lemma generate_quotes_sign_blind cfg bids asks (position total_pnl upnl now : Q) :
  generate_quotes cfg bids asks (- position) total_pnl upnl now
  = generate_quotes cfg bids asks position total_pnl upnl now.
Proof.
  unfold generate_quotes, _check_risk_limits, calculate_order_size.
  rewrite abs_opp_eq. reflexivity.
Qed.

(** C1 (the code departs from the claim).  Default configuration, book
    100 / 101, short 3000: the exposure ratio 0.3015 is above the deadband
    and the risk gate passes, yet the bid stays at the best bid 100 and the
    ask is tightened to 100.9799; the claim's bid 100.0201 and ask 101 are
    not what is quoted. *)
Theorem generate_quotes_short_tightens_ask :
  exists b a,
    generate_quotes default_config [mkLevel 100 1] [mkLevel 101 1]
                    (- 3000) 0 0 0
    = Ok (Some b, Some a)
    /\ _check_risk_limits default_config (- 3000) 0 100.5 = false
    /\ quote_price b == 100
    /\ quote_price a == 100.9799
    /\ ~ quote_price b == Qmin (101 - 0.01) (100 + 100.5 * 2.0 / 10000.0)
    /\ ~ quote_price a == 101.
Proof.
  eexists. eexists. split; [vm_compute; reflexivity|].
  split; [reflexivity|].
  cbn [quote_price].
  repeat split; try (intro H; revert H); unfold Qeq; vm_compute;
    congruence.
Qed.

Lemma should_update_quotes_iff mm (t : Q) :
  should_update_quotes mm t = true
  <-> quote_refresh_interval (config mm) < t - last_quote_time mm.
Proof.
  unfold should_update_quotes.
  destruct (gtb (t - last_quote_time mm) (quote_refresh_interval (config mm)))
    eqn:E; cmp_props; split; intro H; try discriminate; try reflexivity; lra.
Qed.

(** The time stamp of a quote plays no part in the comparison. *)
Lemma quote_changed_stamp old side (p s t t' : Q) :
  _quote_changed old (Some (mkQuote side p s t'))
  = _quote_changed old (Some (mkQuote side p s t)).
Proof. destruct old; reflexivity. Qed.

(** Generating at another time gives the same prices and sizes. *)
Lemma generate_quotes_restamp cfg bids asks (pos pnl upnl now now' : Q) b a :
  generate_quotes cfg bids asks pos pnl upnl now = Ok (b, a) ->
  exists b' a',
    generate_quotes cfg bids asks pos pnl upnl now' = Ok (b', a')
    /\ (forall old, _quote_changed old b' = _quote_changed old b)
    /\ (forall old, _quote_changed old a' = _quote_changed old a).
Proof.
  unfold generate_quotes.
  destruct (calculate_fair_price bids asks) as [fair|].
  2:{ intros H; inversion H; subst. eauto. }
  destruct (item0 bids) as [b0|e]; simpl; [|discriminate].
  destruct (item0 asks) as [a0|e]; simpl; [|discriminate].
  destruct (leb (price a0) (price b0)).
  { intros H; inversion H; subst. eauto. }
  destruct (_check_risk_limits cfg pos pnl fair).
  { intros H; inversion H; subst. eauto. }
  destruct (truediv (Qabs pos * fair) (max_notional_exposure cfg)) as [expo|e];
    simpl; [|discriminate].
  match goal with
  | |- context [let '(x, y) := ?scrut in _] => destruct scrut as [bp ap]
  end.
  destruct (gtb (calculate_order_size cfg pos "bid") 0.01);
    destruct (gtb (calculate_order_size cfg pos "ask") 0.01);
    intros H; inversion H; subst; eexists; eexists;
    (split; [reflexivity|]); split; intros old;
    try reflexivity; apply quote_changed_stamp.
Qed.

(** A call inside the refresh interval is the identity. *)
Lemma update_quotes_inside_interval mm bids asks (pos pnl upnl : Q) clk :
  t_check clk - last_quote_time mm <= quote_refresh_interval (config mm) ->
  update_quotes mm bids asks pos pnl upnl clk = Ok (mm, (None, None)).
Proof.
  intro H. unfold update_quotes.
  destruct (should_update_quotes mm (t_check clk)) eqn:E; [|reflexivity].
  apply should_update_quotes_iff in E. lra.
Qed.

(** The two ways a call returns: nothing stored (and, if it refreshed, the
    generated pair compared equal to the current one), or both quotes
    stored with the time of storing and one more counted update. *)
Lemma update_quotes_cases mm bids asks (pos pnl upnl : Q) clk mm1 r1 :
  update_quotes mm bids asks pos pnl upnl clk = Ok (mm1, r1) ->
  (mm1 = mm
   /\ (should_update_quotes mm (t_check clk) = true ->
       exists nb na,
         generate_quotes (config mm) bids asks pos pnl upnl (t_generate clk)
           = Ok (nb, na)
         /\ _quote_changed (current_bid mm) nb
             || _quote_changed (current_ask mm) na = false))
  \/ (config mm1 = config mm
      /\ last_quote_time mm1 = t_store clk
      /\ quotes_updated mm1 = (quotes_updated mm + 1)%Z).
Proof.
  unfold update_quotes.
  destruct (should_update_quotes mm (t_check clk)); simpl.
  - destruct (generate_quotes (config mm) bids asks pos pnl upnl (t_generate clk))
      as [[nb na]|e]; simpl; [|discriminate].
    destruct (_quote_changed (current_bid mm) nb
              || _quote_changed (current_ask mm) na) eqn:C;
      intro H; inversion H; subst; clear H.
    + right. simpl. auto.
    + left. split; [reflexivity|]. intros _. eauto.
  - intro H; inversion H; subst. left. split; [reflexivity|]. discriminate.
Qed.

(** C9.  [should_update_quotes] holds exactly when the time since the last
    quote update exceeds the refresh interval.  A call made inside the
    interval returns the no-change result and leaves the maker, and so its
    current bid and ask, as it was.  After a call that replaced the quotes,
    any call that starts within one interval of that replacement changes
    nothing, whatever it is given; after a refreshing call on some book,
    position and P&L, a second call within one interval on the same book,
    position and P&L changes nothing.  A refresh that finds either side
    changed stores both new quotes together and reports them. *)
Theorem update_quotes_throttled
    (mm : SimpleMarketMaker) (bids asks : list OrderBookLevel)
    (pos pnl upnl : Q) (c1 c2 : Clock) :
  (forall t, should_update_quotes mm t = true
             <-> quote_refresh_interval (config mm) < t - last_quote_time mm)
  /\ (t_check c1 - last_quote_time mm <= quote_refresh_interval (config mm) ->
      update_quotes mm bids asks pos pnl upnl c1 = Ok (mm, (None, None)))
  /\ (forall mm1 r1 bids2 asks2 pos2 pnl2 upnl2,
        update_quotes mm bids asks pos pnl upnl c1 = Ok (mm1, r1) ->
        quotes_updated mm1 = (quotes_updated mm + 1)%Z ->
        t_check c2 - t_store c1 <= quote_refresh_interval (config mm) ->
        update_quotes mm1 bids2 asks2 pos2 pnl2 upnl2 c2
          = Ok (mm1, (None, None)))
  /\ (forall mm1 r1,
        should_update_quotes mm (t_check c1) = true ->
        update_quotes mm bids asks pos pnl upnl c1 = Ok (mm1, r1) ->
        t_check c2 - t_store c1 <= quote_refresh_interval (config mm) ->
        update_quotes mm1 bids asks pos pnl upnl c2 = Ok (mm1, (None, None)))
  /\ (forall new_bid new_ask,
        should_update_quotes mm (t_check c1) = true ->
        generate_quotes (config mm) bids asks pos pnl upnl (t_generate c1)
          = Ok (new_bid, new_ask) ->
        _quote_changed (current_bid mm) new_bid
          || _quote_changed (current_ask mm) new_ask = true ->
        exists mm1,
          update_quotes mm bids asks pos pnl upnl c1
            = Ok (mm1, (new_bid, new_ask))
          /\ current_bid mm1 = new_bid /\ current_ask mm1 = new_ask
          /\ last_quote_time mm1 = t_store c1).
Proof.
  split; [|split; [|split; [|split]]].
  - intro t. apply should_update_quotes_iff.
  - intro H. apply update_quotes_inside_interval. exact H.
  - intros mm1 r1 bids2 asks2 pos2 pnl2 upnl2 H1 Hn Ht.
    destruct (update_quotes_cases _ _ _ _ _ _ _ _ _ H1)
      as [[-> _] | (Ec & El & _)].
    + lia.
    + apply update_quotes_inside_interval. rewrite Ec, El. exact Ht.
  - intros mm1 r1 Hs H1 Ht.
    destruct (update_quotes_cases _ _ _ _ _ _ _ _ _ H1)
      as [[-> Hno] | (Ec & El & _)].
    + unfold update_quotes.
      destruct (should_update_quotes mm (t_check c2)); [|reflexivity].
      simpl. destruct (Hno Hs) as (nb & na & G & C).
      destruct (generate_quotes_restamp _ _ _ _ _ _ _ (t_generate c2) _ _ G)
        as [b' [a' [G' [Hb Ha]]]].
      rewrite G'. simpl. rewrite Hb, Ha, C. reflexivity.
    + apply update_quotes_inside_interval. rewrite Ec, El. exact Ht.
  - intros nb na Hs G C. unfold update_quotes. rewrite Hs, G. simpl.
    rewrite C. eexists. split; [reflexivity|]. simpl. auto.
Qed.

(** Book 100 / 101 from the initial maker: the call at time 1 posts both
    quotes, the call at time 1.05 (interval 0.1) changes nothing. *)
Lemma update_quotes_throttled_witness :
  exists mm1 r1,
    update_quotes (init default_config) [mkLevel 100 1] [mkLevel 101 1] 0 0 0
                  (mkClock 1 1 1) = Ok (mm1, r1)
    /\ update_quotes mm1 [mkLevel 100 1] [mkLevel 101 1] 0 0 0
                     (mkClock 1.05 1.05 1.05) = Ok (mm1, (None, None)).
Proof.
  eexists. eexists. split.
  - vm_compute. reflexivity.
  - eapply (proj1 (proj2 (proj2 (proj2 (update_quotes_throttled
             (init default_config) [mkLevel 100 1] [mkLevel 101 1] 0 0 0
             (mkClock 1 1 1) (mkClock 1.05 1.05 1.05)))))).
    + reflexivity.
    + vm_compute. reflexivity.
    + vm_compute. discriminate.
Defined.

(** Past the deadband with a positive step the offset is positive. *)
Lemma off_bps_pos (expo_abs deadband step_bps : Q) :
  deadband < expo_abs -> 0 < step_bps ->
  0 < off_bps_of expo_abs deadband step_bps.
Proof.
  intros Hd Hs. unfold off_bps_of.
  assert (L : leb expo_abs deadband = false) by (apply leb_false; exact Hd).
  rewrite L.
  destruct (leb expo_abs 0.40); [lra|].
  destruct (leb expo_abs 0.60); lra.
Qed.

(** X1.  Whenever a skew applies, it is the ask that is tightened, to
    max(best_bid + tick, best_ask - off_usd), and the bid stays at the best
    bid, for a long and for a short position alike: uncrossed book with a
    positive mid, risk gate passing, positive notional cap, position not
    flat, exposure ratio above the deadband, positive step, order size above
    0.01. *)
Theorem generate_quotes_skews_ask cfg b0 bs a0 az (pos pnl upnl now : Q) :
  price b0 < price a0 ->
  0 < price b0 + price a0 ->
  _check_risk_limits cfg pos pnl ((price b0 + price a0) / 2.0) = false ->
  0 < max_notional_exposure cfg ->
  ~ pos == 0 ->
  asym_deadband_pct cfg * max_notional_exposure cfg
    < Qabs pos * ((price b0 + price a0) / 2.0) ->
  0 < asym_bps_step cfg ->
  0.01 < calculate_order_size cfg pos "bid" ->
  exists bq aq off_bps,
    generate_quotes cfg (b0 :: bs) (a0 :: az) pos pnl upnl now
      = Ok (Some bq, Some aq)
    /\ 0 < off_bps
    /\ quote_price bq = price b0
    /\ quote_price aq
       = Qmax (price b0 + tick_size cfg)
              (price a0 - (price b0 + price a0) / 2.0 * off_bps / 10000.0).
Proof.
  intros Hx Hf Hr Hm Hp Hd Hs Hsz.
  unfold generate_quotes, calculate_fair_price.
  assert (L : leb (price a0) (price b0) = false) by (apply leb_false; exact Hx).
  rewrite L. cbn [item0 bind]. rewrite L, Hr.
  rewrite truediv_ok by lra. cbn [bind]. cbv beta zeta.
  set (fair := (price b0 + price a0) / 2.0) in *.
  set (expo := Qabs pos * fair / max_notional_exposure cfg).
  assert (Hfair : 0 < fair).
  { unfold fair. apply Qlt_shift_div_l; lra. }
  assert (Hn : 0 < Qabs pos * fair).
  { apply Qmult_lt_0_compat; [|exact Hfair].
    destruct (abs_spec pos) as [[H1 H2]|[H1 H2]]; rewrite H2; lra. }
  assert (He : asym_deadband_pct cfg < expo).
  { unfold expo. apply Qlt_shift_div_l; [exact Hm|exact Hd]. }
  assert (Hexpo : 0 < expo).
  { unfold expo. apply Qlt_shift_div_l; [exact Hm|lra]. }
  assert (Ha : Qabs expo == expo) by (apply Qabs_pos; lra).
  assert (Ho : 0 < off_bps_of (Qabs expo) (asym_deadband_pct cfg) (asym_bps_step cfg)).
  { apply off_bps_pos; [rewrite Ha; exact He|exact Hs]. }
  assert (G1 : gtb (off_bps_of (Qabs expo) (asym_deadband_pct cfg) (asym_bps_step cfg)) 0.0 = true)
    by (apply gtb_true; lra).
  assert (G2 : gtb expo 0 = true) by (apply gtb_true; lra).
  rewrite G1, G2.
  assert (G3 : gtb (calculate_order_size cfg pos "bid") 0.01 = true)
    by (apply gtb_true; exact Hsz).
  change (calculate_order_size cfg pos "ask") with (calculate_order_size cfg pos "bid").
  rewrite G3.
  do 3 eexists. split; [reflexivity|]. split; [exact Ho|]. split; reflexivity.
Qed.

(** Default configuration, book 100 / 101, long 3000. *)
Lemma generate_quotes_skews_ask_witness :
  exists bq aq off_bps,
    generate_quotes default_config [mkLevel 100 1] [mkLevel 101 1]
                    3000 0 0 0
      = Ok (Some bq, Some aq)
    /\ 0 < off_bps
    /\ quote_price bq = 100
    /\ quote_price aq
       = Qmax (100 + 0.01) (101 - (100 + 101) / 2.0 * off_bps / 10000.0).
Proof.
  apply (generate_quotes_skews_ask default_config (mkLevel 100 1) []
           (mkLevel 101 1) [] 3000 0 0 0).
  - vm_compute. reflexivity.
  - vm_compute. reflexivity.
  - reflexivity.
  - vm_compute. reflexivity.
  - vm_compute. discriminate.
  - vm_compute. reflexivity.
  - vm_compute. reflexivity.
  - vm_compute. reflexivity.
Defined.

(** No quotes without a fair price or past the risk gate: an empty or
    crossed book has no fair price; without one, or when the gate trips,
    [generate_quotes] returns (None, None); the gate trips exactly when the
    notional exceeds its cap or the total P&L is below minus the allowed
    loss, whatever happened on earlier calls. *)
Theorem generate_quotes_suspended cfg bids asks (pos pnl upnl now : Q) :
  (bids = [] \/ asks = [] -> calculate_fair_price bids asks = None)
  /\ (forall b0 bs a0 az, bids = b0 :: bs -> asks = a0 :: az ->
        price a0 <= price b0 -> calculate_fair_price bids asks = None)
  /\ (calculate_fair_price bids asks = None ->
      generate_quotes cfg bids asks pos pnl upnl now = Ok (None, None))
  /\ (forall fair, calculate_fair_price bids asks = Some fair ->
        _check_risk_limits cfg pos pnl fair = true ->
        generate_quotes cfg bids asks pos pnl upnl now = Ok (None, None))
  /\ (forall p, _check_risk_limits cfg pos pnl p = true
                <-> (max_notional_exposure cfg < Qabs pos * p
                     \/ pnl < - max_loss_allowed cfg)).
Proof.
  split; [|split; [|split; [|split]]].
  - intros [-> | ->]; [reflexivity|]. destruct bids; reflexivity.
  - intros b0 bs a0 az -> -> H. unfold calculate_fair_price.
    apply leb_true in H. rewrite H. reflexivity.
  - intro H. unfold generate_quotes. rewrite H. reflexivity.
  - intros fair H G. unfold generate_quotes. rewrite H.
    destruct bids as [|b0 bs]; [discriminate|].
    destruct asks as [|a0 az]; [discriminate|].
    cbn [item0 bind]. rewrite G.
    destruct (leb (price a0) (price b0)); reflexivity.
  - intro p. unfold _check_risk_limits.
    destruct (gtb (Qabs pos * p) (max_notional_exposure cfg)) eqn:A;
      destruct (ltb pnl (- max_loss_allowed cfg)) eqn:B; cmp_props;
      split; auto; try discriminate; intros [H|H]; lra.
Qed.

(** Scenario A of the specification, and a breach of the notional cap. *)
Lemma generate_quotes_suspended_witness :
  calculate_fair_price [] [mkLevel 101 1] = None
  /\ generate_quotes default_config [] [mkLevel 101 1] 0 0 0 0
     = Ok (None, None)
  /\ generate_quotes default_config [mkLevel 100 1] [mkLevel 101 1]
                     20000 0 0 0
     = Ok (None, None).
Proof.
  split; [|split].
  - apply (proj1 (generate_quotes_suspended default_config []
                    [mkLevel 101 1] 0 0 0 0)).
    left. reflexivity.
  - apply (proj1 (proj2 (proj2 (generate_quotes_suspended default_config []
                    [mkLevel 101 1] 0 0 0 0)))).
    reflexivity.
  - apply (proj1 (proj2 (proj2 (proj2 (generate_quotes_suspended
             default_config [mkLevel 100 1] [mkLevel 101 1] 20000 0 0 0)))))
      with (fair := (100 + 101) / 2.0).
    + reflexivity.
    + vm_compute. reflexivity.
Defined.

End StrategyProps.

(* ================================================================== *)
(** * Fill simulator and live ledger *)

Module PortfolioProps.

Import Portfolio.

(** The average-entry update divides only under its guard. *)
Lemma update_avg_entry_total (avg : Q) side (price executed q_before q_after : Q) :
  exists o, _update_avg_entry_price_on_fill avg side price executed
              q_before q_after = Ok o.
Proof.
  unfold _update_avg_entry_price_on_fill.
  destruct (leb executed 0); [eauto|].
  destruct (String.eqb side "buy").
  - destruct (geb q_before 0).
    + destruct (gtb (q_before + executed) 0) eqn:G; [|eauto].
      cmp_props. rewrite truediv_ok by lra. simpl. eauto.
    + destruct (ltb q_after 0); [eauto|]. destruct (eqb q_after 0); eauto.
  - destruct (leb q_before 0).
    + destruct (gtb (- q_before + executed) 0) eqn:G; [|eauto].
      cmp_props. rewrite truediv_ok by lra. simpl. eauto.
    + destruct (gtb q_after 0); [eauto|]. destruct (eqb q_after 0); eauto.
Qed.

(** What one processed fill does to the position and the cash; the bounds
    are kept as they are. *)
Lemma process_fill_cases pm fill pm' :
  process_fill_market_making pm fill = Ok pm' ->
  pm' = pm
  \/ (max_inventory pm' = max_inventory pm
      /\ min_inventory pm' = min_inventory pm
      /\ ((fill_side fill = "buy"%string
           /\ q (state pm')
              = Qmin (q (state pm) + fill_size fill) (max_inventory pm)
           /\ q (state pm) < q (state pm')
           /\ cash (state pm')
              = cash (state pm)
                - (q (state pm') - q (state pm)) * fill_price fill)
          \/ (fill_side fill <> "buy"%string
              /\ q (state pm')
                 = Qmax (q (state pm) - fill_size fill) (min_inventory pm)
              /\ q (state pm') < q (state pm)
              /\ cash (state pm')
                 = cash (state pm)
                   + (q (state pm) - q (state pm')) * fill_price fill))).
Proof.
  unfold process_fill_market_making.
  destruct (String.eqb (fill_side fill) "buy") eqn:S.
  - apply String.eqb_eq in S.
    destruct (leb (Qmin (q (state pm) + fill_size fill) (max_inventory pm)
                   - q (state pm)) 0) eqn:L.
    + intro H; inversion H; auto.
    + match goal with
      | |- context [_update_avg_entry_price_on_fill ?a ?b ?c ?d ?e ?f] =>
          destruct (update_avg_entry_total a b c d e f) as [o Eo]; rewrite Eo
      end.
      simpl. intro H; inversion H; subst; clear H. right.
      cmp_props.
      destruct o; simpl; (split; [reflexivity|split; [reflexivity|]]);
        left; (split; [exact S|]); (split; [reflexivity|]);
        (split; [lra|reflexivity]).
  - apply String.eqb_neq in S.
    destruct (leb (q (state pm)
                   - Qmax (q (state pm) - fill_size fill) (min_inventory pm)) 0)
      eqn:L.
    + intro H; inversion H; auto.
    + match goal with
      | |- context [_update_avg_entry_price_on_fill ?a ?b ?c ?d ?e ?f] =>
          destruct (update_avg_entry_total a b c d e f) as [o Eo]; rewrite Eo
      end.
      simpl. intro H; inversion H; subst; clear H. right.
      cmp_props.
      destruct o; simpl; (split; [reflexivity|split; [reflexivity|]]);
        right; (split; [exact S|]); (split; [reflexivity|]);
        (split; [lra|reflexivity]).
Qed.

(** Processing a fill never raises. *)
Lemma process_fill_total pm fill :
  exists pm', process_fill_market_making pm fill = Ok pm'.
Proof.
  unfold process_fill_market_making.
  match goal with
  | |- context [if leb ?x 0 then _ else _] => destruct (leb x 0)
  end; [eauto|].
  match goal with
  | |- context [_update_avg_entry_price_on_fill ?a ?b ?c ?d ?e ?f] =>
      destruct (update_avg_entry_total a b c d e f) as [o Eo]; rewrite Eo
  end.
  simpl. eauto.
Qed.

Lemma process_fill_within_cap (max_inv : Q) pm fill pm' :
  within_cap max_inv pm ->
  process_fill_market_making pm fill = Ok pm' ->
  within_cap max_inv pm'.
Proof.
  intros (Hmax & Hmin & Hq) H.
  destruct (process_fill_cases _ _ _ H)
    as [-> | (Emax & Emin & [(_ & Eq & Hlt & _) | (_ & Eq & Hlt & _)])].
  - repeat split; tauto.
  - unfold within_cap. rewrite Emax, Emin, Hmax, Hmin.
    rewrite Eq in *. rewrite Hmax in *.
    repeat split; revert Hlt; qarith.
  - unfold within_cap. rewrite Emax, Emin, Hmax, Hmin.
    rewrite Eq in *. rewrite Hmin in *.
    repeat split; revert Hlt; qarith.
Qed.

Lemma simulate_fill_within_cap (max_inv : Q) pm tr bid ask
    (bid_size ask_size t1 t2 : Q) pm' o :
  within_cap max_inv pm ->
  simulate_fill_from_trade pm tr bid ask bid_size ask_size t1 t2 = Ok (pm', o) ->
  within_cap max_inv pm'.
Proof.
  intros Hinv. unfold simulate_fill_from_trade.
  destruct (candidate_fill pm tr bid ask bid_size ask_size t1 t2) as [f|].
  - destruct (process_fill_market_making pm f) as [pm1|e] eqn:E; simpl;
      [|discriminate].
    intro H; inversion H; subst. eapply process_fill_within_cap; eauto.
  - intro H; inversion H; subst. exact Hinv.
Qed.

(** C2.  From the initial ledger (q = 0) with a cap that is not negative,
    every state reached by processed fills, simulated trades and marks holds
    a position between -max_inventory and +max_inventory: no buy takes it
    above the cap and no sell below its negative. *)
Theorem inventory_within_cap (initial_usd max_inv : Q) pm :
  0 <= max_inv ->
  reachable initial_usd max_inv pm ->
  - max_inv <= q (state pm) <= max_inv /\ Qabs (q (state pm)) <= max_inv.
Proof.
  intros Hcap Hr.
  assert (Hinv : within_cap max_inv pm).
  { induction Hr.
    - unfold within_cap, init. simpl. repeat split; lra.
    - eapply process_fill_within_cap; eauto.
    - eapply simulate_fill_within_cap; eauto.
    - destruct IHHr as (A & B & C). repeat split; simpl; tauto. }
  destruct Hinv as (_ & _ & Hq). split; [exact Hq|].
  apply Qabs_Qle_condition. exact Hq.
Qed.

(** Scenario D then E of the specification with cap 1: a buy of 1 at 100 and
    a sell of 2 at 120 leave the position at -1, inside the cap. *)
Lemma inventory_within_cap_witness :
  exists pm1 pm2,
    process_fill_market_making (init 1000000 1) (mkFill 0 "buy" 100 1 "d")
      = Ok pm1
    /\ process_fill_market_making pm1 (mkFill 1 "sell" 120 2 "e") = Ok pm2
    /\ q (state pm2) == - (1)
    /\ (- (1) <= q (state pm2) <= 1 /\ Qabs (q (state pm2)) <= 1).
Proof.
  eexists. eexists.
  split; [vm_compute; reflexivity|].
  split; [vm_compute; reflexivity|].
  split; [vm_compute; reflexivity|].
  apply (inventory_within_cap 1000000 1).
  - lra.
  - eapply reach_fill with (fill := mkFill 1 "sell" 120 2 "e").
    + eapply reach_fill with (fill := mkFill 0 "buy" 100 1 "d").
      * apply reach_init.
      * vm_compute. reflexivity.
    + vm_compute. reflexivity.
Defined.

(** C3.  After a mark at [fair_price]: nav is q times the fair price, pnl is
    cash plus nav (so it equals cash + q * fair_price, within any
    tolerance), the exposed realized P&L is the cash and the exposed
    unrealized P&L is the nav; position and cash are not touched. *)
Theorem update_nav_and_pnl_spec pm (fair_price : Q) :
  nav (state (update_nav_and_pnl pm fair_price)) = q (state pm) * fair_price
  /\ pnl (state (update_nav_and_pnl pm fair_price))
     = cash (state (update_nav_and_pnl pm fair_price))
       + nav (state (update_nav_and_pnl pm fair_price))
  /\ Qabs (pnl (state (update_nav_and_pnl pm fair_price))
           - (cash (state (update_nav_and_pnl pm fair_price))
              + q (state (update_nav_and_pnl pm fair_price)) * fair_price))
     <= 1e-6
  /\ realized_pnl (state (update_nav_and_pnl pm fair_price))
     = cash (state (update_nav_and_pnl pm fair_price))
  /\ unrealized_pnl (state (update_nav_and_pnl pm fair_price))
     = nav (state (update_nav_and_pnl pm fair_price))
  /\ q (state (update_nav_and_pnl pm fair_price)) = q (state pm)
  /\ cash (state (update_nav_and_pnl pm fair_price)) = cash (state pm).
Proof.
  unfold update_nav_and_pnl.
  cbn [state nav pnl cash q realized_pnl unrealized_pnl].
  split; [reflexivity|]. split; [reflexivity|].
  split; [|repeat split].
  apply abs_diff_le; [reflexivity|]. vm_compute. discriminate.
Qed.

Lemma bid_executed_iff tr bid (bid_size : Q) :
  bid_executed tr bid bid_size = true <-> bid_hit tr bid /\ 0 < bid_size.
Proof.
  unfold bid_executed, bid_hit. destruct bid as [b|].
  - simpl. rewrite !andb_true_iff, negb_true_iff.
    rewrite String.eqb_eq, leb_true, gtb_true.
    change (Qeq_bool b 0) with (eqb b 0). rewrite eqb_false.
    split.
    + intros (((Hb & Hs) & Hside) & Hp). split; [|exact Hs].
      exists b. auto.
    + intros ((b' & E & Hb & Hside & Hp) & Hs). inversion E; subst. auto.
  - split; [discriminate|]. intros ((b & E & _) & _). discriminate.
Qed.

Lemma ask_executed_iff tr ask (ask_size : Q) :
  ask_executed tr ask ask_size = true <-> ask_hit tr ask /\ 0 < ask_size.
Proof.
  unfold ask_executed, ask_hit. destruct ask as [a|].
  - simpl. rewrite !andb_true_iff, negb_true_iff.
    rewrite String.eqb_eq, geb_true, gtb_true.
    change (Qeq_bool a 0) with (eqb a 0). rewrite eqb_false.
    split.
    + intros (((Ha & Hs) & Hside) & Hp). split; [|exact Hs].
      exists a. auto.
    + intros ((a' & E & Ha & Hside & Hp) & Hs). inversion E; subst. auto.
  - split; [discriminate|]. intros ((a & E & _) & _). discriminate.
Qed.

Lemma hits_exclusive tr bid ask : bid_hit tr bid -> ask_hit tr ask -> False.
Proof.
  intros (b & _ & _ & Hs & _) (a & _ & _ & Hb & _). congruence.
Qed.

Lemma bid_fill_spec pm tr (b bid_size t1 t2 : Q) :
  match bid_fill pm tr b bid_size t1 t2 with
  | Some f => fill_side f = "buy"%string /\ fill_price f = b
              /\ fill_size f = clipped_buy_size pm tr bid_size
              /\ 0 < clipped_buy_size pm tr bid_size
  | None => clipped_buy_size pm tr bid_size <= 0
  end.
Proof.
  unfold bid_fill, clipped_buy_size.
  destruct (leb (max_inventory pm - q (state pm)) 0) eqn:L.
  - qarith.
  - destruct (leb (Qmin (Qmin bid_size (trade_size tr))
                        (max_inventory pm - q (state pm))) 0) eqn:L2;
      cmp_props; simpl; auto.
Qed.

Lemma ask_fill_spec pm tr (a ask_size t1 t2 : Q) :
  match ask_fill pm tr a ask_size t1 t2 with
  | Some f => fill_side f = "sell"%string /\ fill_price f = a
              /\ fill_size f = clipped_sell_size pm tr ask_size
              /\ 0 < clipped_sell_size pm tr ask_size
  | None => clipped_sell_size pm tr ask_size <= 0
  end.
Proof.
  unfold ask_fill, clipped_sell_size.
  destruct (leb (q (state pm) - min_inventory pm) 0) eqn:L.
  - qarith.
  - destruct (leb (Qmin (Qmin ask_size (trade_size tr))
                        (q (state pm) - min_inventory pm)) 0) eqn:L2;
      cmp_props; simpl; auto.
Qed.

Lemma clipped_buy_le pm tr (bid_size : Q) :
  0 < clipped_buy_size pm tr bid_size -> 0 < bid_size.
Proof. unfold clipped_buy_size. qarith. Qed.

Lemma clipped_sell_le pm tr (ask_size : Q) :
  0 < clipped_sell_size pm tr ask_size -> 0 < ask_size.
Proof. unfold clipped_sell_size. qarith. Qed.

(** The fill the two branches build, side by side with the conditions of
    the specification. *)
Lemma candidate_fill_spec pm tr bid ask (bid_size ask_size t1 t2 : Q) :
  match candidate_fill pm tr bid ask bid_size ask_size t1 t2 with
  | Some f =>
      (fill_side f = "buy"%string /\ bid = Some (fill_price f)
       /\ bid_hit tr bid
       /\ fill_size f = clipped_buy_size pm tr bid_size
       /\ 0 < clipped_buy_size pm tr bid_size)
      \/ (fill_side f = "sell"%string /\ ask = Some (fill_price f)
          /\ ask_hit tr ask
          /\ fill_size f = clipped_sell_size pm tr ask_size
          /\ 0 < clipped_sell_size pm tr ask_size)
  | None =>
      ~ (bid_hit tr bid /\ 0 < clipped_buy_size pm tr bid_size)
      /\ ~ (ask_hit tr ask /\ 0 < clipped_sell_size pm tr ask_size)
  end.
Proof.
  unfold candidate_fill.
  destruct (bid_executed tr bid bid_size) eqn:B.
  - apply bid_executed_iff in B. destruct B as [Hhit Hs].
    pose proof Hhit as (b & -> & Hb).
    pose proof (bid_fill_spec pm tr b bid_size t1 t2) as F.
    destruct (bid_fill pm tr b bid_size t1 t2) as [f|].
    + destruct F as (F1 & F2 & F3 & F4). left. subst b. auto.
    + split.
      * intros [_ H]. lra.
      * intros [H _]. eapply hits_exclusive; eauto.
  - assert (NB : ~ (bid_hit tr bid /\ 0 < clipped_buy_size pm tr bid_size)).
    { intros [H1 H2]. apply clipped_buy_le in H2.
      assert (X : bid_executed tr bid bid_size = true)
        by (apply bid_executed_iff; auto).
      congruence. }
    destruct (ask_executed tr ask ask_size) eqn:A.
    + apply ask_executed_iff in A. destruct A as [Hhit Hs].
      pose proof Hhit as (a & -> & Ha).
      pose proof (ask_fill_spec pm tr a ask_size t1 t2) as F.
      destruct (ask_fill pm tr a ask_size t1 t2) as [f|].
      * destruct F as (F1 & F2 & F3 & F4). right. subst a. auto.
      * split; [exact NB|]. intros [_ H]. lra.
    + split; [exact NB|].
      intros [H1 H2]. apply clipped_sell_le in H2.
      assert (X : ask_executed tr ask ask_size = true)
        by (apply ask_executed_iff; auto).
      congruence.
Qed.

(** C5 as stated fails on a bid resting at price 0.0: a sell prints at 0,
    which is at or below the bid, and the clipped size is 1, yet nothing
    fills and the ledger is as it was. *)
Lemma zero_priced_bid_never_fills :
  simulate_fill_from_trade (init 1000000 5) (mkTrade 0 0 1 "sell")
                           (Some 0) (Some 1) 1 1 0 0
  = Ok (init 1000000 5, None)
  /\ trade_side (mkTrade 0 0 1 "sell") = "sell"%string
  /\ trade_price (mkTrade 0 0 1 "sell") <= 0
  /\ 0 < Qmin (Qmin 1 (trade_size (mkTrade 0 0 1 "sell")))
              (max_inventory (init 1000000 5) - q (state (init 1000000 5))).
Proof.
  split; [reflexivity|]. split; [reflexivity|].
  split; vm_compute; congruence.
Qed.

(** C5, amended.  The simulator never raises.  It returns a buy fill exactly
    when our bid price is present and not zero, the trade is a sell at or
    below it, and the clipped size min(min(bid size, trade size),
    max_inventory - q) is positive; a sell fill exactly when our ask price
    is present and not zero, the trade is a buy at or above it, and
    min(min(ask size, trade size), q - min_inventory) is positive; never
    both; the fill carries the clipped size; and with no fill the ledger is
    unchanged. *)
Theorem simulate_fill_from_trade_spec pm tr bid ask
    (bid_size ask_size t1 t2 : Q) :
  exists pm' o,
    simulate_fill_from_trade pm tr bid ask bid_size ask_size t1 t2
      = Ok (pm', o)
    /\ ((exists f, o = Some f /\ fill_side f = "buy"%string)
        <-> (bid_hit tr bid /\ 0 < clipped_buy_size pm tr bid_size))
    /\ ((exists f, o = Some f /\ fill_side f = "sell"%string)
        <-> (ask_hit tr ask /\ 0 < clipped_sell_size pm tr ask_size))
    /\ ~ (bid_hit tr bid /\ ask_hit tr ask)
    /\ (forall f, o = Some f ->
          (fill_side f = "buy"%string
           /\ fill_size f = clipped_buy_size pm tr bid_size)
          \/ (fill_side f = "sell"%string
              /\ fill_size f = clipped_sell_size pm tr ask_size))
    /\ (o = None -> pm' = pm).
Proof.
  unfold simulate_fill_from_trade.
  pose proof (candidate_fill_spec pm tr bid ask bid_size ask_size t1 t2) as C.
  assert (X : ~ (bid_hit tr bid /\ ask_hit tr ask))
    by (intros [H1 H2]; eapply hits_exclusive; eauto).
  destruct (candidate_fill pm tr bid ask bid_size ask_size t1 t2) as [f|].
  - destruct (process_fill_total pm f) as [pm' E]. rewrite E. simpl.
    exists pm', (Some f). split; [reflexivity|].
    destruct C as [(S & P & H & Z & L) | (S & P & H & Z & L)].
    + split; [|split; [|split; [exact X|split]]].
      * split; [auto|]. intros _. exists f. auto.
      * split.
        -- intros (f' & E' & S'). inversion E'; subst. congruence.
        -- intros [H' _]. exfalso. eapply hits_exclusive; eauto.
      * intros f' E'. inversion E'; subst. auto.
      * discriminate.
    + split; [|split; [|split; [exact X|split]]].
      * split.
        -- intros (f' & E' & S'). inversion E'; subst. congruence.
        -- intros [H' _]. exfalso. eapply hits_exclusive; eauto.
      * split; [auto|]. intros _. exists f. auto.
      * intros f' E'. inversion E'; subst. auto.
      * discriminate.
  - exists pm, None. split; [reflexivity|]. destruct C as [NB NA].
    split; [|split; [|split; [exact X|split]]].
    + split; [intros (f & E & _); discriminate | intro; contradiction].
    + split; [intros (f & E & _); discriminate | intro; contradiction].
    + discriminate.
    + reflexivity.
Qed.

(** Scenario E of the specification: long 1 with cap 1, our ask 120 for 2,
    a buy of 2 prints at 120; the ask fills. *)
Lemma simulate_fill_from_trade_spec_witness :
  exists pm' o,
    simulate_fill_from_trade
      (with_state (init 1000000 1)
                  (set_q_cash (state (init 1000000 1)) 1 (- (100))))
      (mkTrade 0 120 2 "buy") (Some 119) (Some 120) 2 2 0 0
    = Ok (pm', o)
    /\ exists f, o = Some f /\ fill_side f = "sell"%string.
Proof.
  destruct (simulate_fill_from_trade_spec
              (with_state (init 1000000 1)
                          (set_q_cash (state (init 1000000 1)) 1 (- (100))))
              (mkTrade 0 120 2 "buy") (Some 119) (Some 120) 2 2 0 0)
    as (pm' & o & E & _ & Hsell & _).
  exists pm', o. split; [exact E|].
  apply Hsell. split.
  - exists 120. repeat split; try reflexivity.
    + vm_compute. congruence.
    + vm_compute. congruence.
  - vm_compute. reflexivity.
Defined.

(** C10.  A fill the simulator emits carries the price of our own resting
    quote: the bid price for a buy, the ask price for a sell; the price of
    the market trade is not used. *)
Theorem fill_price_is_quote_price pm tr bid ask
    (bid_size ask_size t1 t2 : Q) pm' f :
  simulate_fill_from_trade pm tr bid ask bid_size ask_size t1 t2
    = Ok (pm', Some f) ->
  (fill_side f = "buy"%string /\ bid = Some (fill_price f))
  \/ (fill_side f = "sell"%string /\ ask = Some (fill_price f)).
Proof.
  unfold simulate_fill_from_trade.
  pose proof (candidate_fill_spec pm tr bid ask bid_size ask_size t1 t2) as C.
  destruct (candidate_fill pm tr bid ask bid_size ask_size t1 t2) as [f0|].
  - destruct (process_fill_market_making pm f0) as [pm1|e]; simpl;
      [|discriminate].
    intro H; inversion H; subst.
    destruct C as [(S & P & _) | (S & P & _)]; auto.
  - discriminate.
Qed.

(** Our bid rests at 100 and a sell prints at 99, strictly better for us:
    the fill is a buy at 100. *)
Lemma fill_price_is_quote_price_witness :
  exists pm' f,
    simulate_fill_from_trade (init 1000000 5) (mkTrade 0 99 1 "sell")
                             (Some 100) (Some 101) 1 1 0 0
    = Ok (pm', Some f)
    /\ ((fill_side f = "buy"%string /\ Some 100 = Some (fill_price f))
        \/ (fill_side f = "sell"%string /\ Some 101 = Some (fill_price f)))
    /\ fill_price f == 100
    /\ ~ fill_price f == trade_price (mkTrade 0 99 1 "sell").
Proof.
  eexists. eexists.
  split; [vm_compute; reflexivity|].
  split.
  - eapply (fill_price_is_quote_price (init 1000000 5)
              (mkTrade 0 99 1 "sell") (Some 100) (Some 101) 1 1 0 0).
    vm_compute. reflexivity.
  - split; vm_compute; congruence.
Defined.

(** The summary divides by the cap without a guard. *)
Lemma get_portfolio_summary_zero_cap pm :
  max_inventory pm == 0 -> get_portfolio_summary pm = Raise ZeroDivisionError.
Proof.
  intro H. unfold get_portfolio_summary. rewrite truediv_zero by exact H.
  reflexivity.
Qed.

(** C7 (the code departs from the claim).  With max_inventory = 0 the
    portfolio summary raises ZeroDivisionError instead of reporting a
    utilization of 0.0; with max_notional_exposure = 0 and a flat position
    the risk gate passes and quote generation raises on its exposure
    ratio. *)
Theorem zero_cap_divisions_raise :
  get_portfolio_summary (init 1000000 0) = Raise ZeroDivisionError
  /\ Strategy._check_risk_limits
       (Strategy.mkConfig 10.0 5.0 50.0 0.05 1.0 0 100000 0.1 0.01 0.20 2.0)
       0 0 100.5 = false
  /\ Strategy.generate_quotes
       (Strategy.mkConfig 10.0 5.0 50.0 0.05 1.0 0 100000 0.1 0.01 0.20 2.0)
       [mkLevel 100 1] [mkLevel 101 1] 0 0 0 0
     = Raise ZeroDivisionError.
Proof.
  split; [reflexivity|]. split; reflexivity.
Qed.

(** Scenarios D and E of the specification, cap 1: a buy of 1 at 100
    gives q = 1, cash = -100, average entry 100; the mark at 110 gives
    nav = 110 and pnl = 10; our ask at 120 for 2 lifted by a buy of 2 gives
    q = -1, cash = 140 and an average entry reset to 120. *)
Theorem ledger_scenarios_D_E :
  exists pm1 pm2 f,
    process_fill_market_making (init 1000000 1) (mkFill 0 "buy" 100 1 "d")
      = Ok pm1
    /\ q (state pm1) == 1 /\ cash (state pm1) == - (100)
    /\ avg_entry_price (state pm1) == 100
    /\ nav (state (update_nav_and_pnl pm1 110)) == 110
    /\ pnl (state (update_nav_and_pnl pm1 110)) == 10
    /\ simulate_fill_from_trade (update_nav_and_pnl pm1 110)
         (mkTrade 1 120 2 "buy") (Some 119) (Some 120) 2 2 1 1
       = Ok (pm2, Some f)
    /\ fill_size f == 2
    /\ q (state pm2) == - (1) /\ cash (state pm2) == 140
    /\ avg_entry_price (state pm2) == 120.
Proof.
  eexists. eexists. eexists.
  split; [vm_compute; reflexivity|].
  do 5 (split; [vm_compute; reflexivity|]).
  split; [vm_compute; reflexivity|].
  repeat split; vm_compute; reflexivity.
Qed.

(** The guarded division points never raise: imbalance ratio, imbalance by
    levels and by volume, spread for a size, window metrics, the ledger's
    fill processing with its average-entry update, and the fill
    simulator. *)
Theorem guarded_divisions_total :
  (forall bid_vol ask_vol, exists v, Spread._ratio bid_vol ask_vol = Ok v)
  /\ (forall bids asks levels,
        exists v, Spread.calc_imbalance_levels bids asks levels = Ok v)
  /\ (forall bids asks target,
        exists v, Spread.calc_imbalance_volume bids asks target = Ok v)
  /\ (forall bids asks target,
        exists v, Spread.calculate_spread_for_size bids asks target = Ok v)
  /\ (forall spreads, exists m, Spread.get_spread_metrics spreads = Ok m)
  /\ (forall pm fill, exists pm', process_fill_market_making pm fill = Ok pm')
  /\ (forall pm tr bid ask bid_size ask_size t1 t2,
        exists r, simulate_fill_from_trade pm tr bid ask bid_size ask_size
                    t1 t2 = Ok r).
Proof.
  repeat split.
  - intros b a. destruct (SpreadProps.ratio_total b a) as [v [E _]]. eauto.
  - intros. apply SpreadProps.calc_imbalance_levels_total.
  - intros. apply SpreadProps.calc_imbalance_volume_total.
  - intros. apply SpreadProps.calculate_spread_for_size_total.
  - intros. apply SpreadProps.get_spread_metrics_total.
  - intros. apply process_fill_total.
  - intros. unfold simulate_fill_from_trade.
    destruct (candidate_fill pm tr bid ask bid_size ask_size t1 t2) as [f|];
      [|eauto].
    destruct (process_fill_total pm f) as [pm' E]. rewrite E. simpl. eauto.
Qed.

End PortfolioProps.

(* ================================================================== *)
(** * Offline P&L reconstruction *)

Module AnalyzeProps.

Import Analyze.

(** A net buy of [dq]: the position moves by [dq] and the accounting
    identity carries over to the cash after the fill. *)
Lemma apply_buy_spec (q ac realized dq price : Q) :
  0 < dq ->
  exists q' ac' r' dq',
    apply_buy q ac realized dq price = Ok (q', ac', r', dq')
    /\ q' == q + dq
    /\ (forall cash, cash + ac * q == realized ->
                     cash - dq * price + ac' * q' == r').
Proof.
  intros Hdq. unfold apply_buy.
  destruct (ltb q 0) eqn:Hq.
  - set (c := Qmin (- q) dq).
    assert (Hc : (- q < dq /\ c == - q) \/ (dq <= - q /\ c == dq))
      by apply Q.min_spec.
    clearbody c.
    destruct (eqb (q + c) 0) eqn:Hz;
    destruct (gtb (dq - c) 0) eqn:Hg; cmp_props.
    + assert (Hn : ~ q + c + (dq - c) == 0) by lra.
      assert (Hn' : eqb (q + c + (dq - c)) 0 = false) by (apply eqb_false; exact Hn).
      rewrite Hn'. simpl negb. cbv iota. rewrite truediv_ok by exact Hn. simpl bind.
      do 4 eexists. split; [reflexivity|]. split; [lra|].
      intros cash Hcash.
      rewrite div_mul_cancel by exact Hn.
      assert (Ec : c == - q) by lra. rewrite Ec. lra.
    + do 4 eexists. split; [reflexivity|]. split; [lra|].
      intros cash Hcash.
      assert (Ec : c == - q) by lra. assert (Ed : dq == - q) by lra.
      rewrite Ec, Ed. lra.
    + exfalso. lra.
    + do 4 eexists. split; [reflexivity|]. split; [lra|].
      intros cash Hcash.
      assert (Ec : c == dq) by lra. rewrite Ec. lra.
  - cmp_props. assert (G : gtb dq 0 = true) by (apply gtb_true; exact Hdq).
    rewrite G.
    assert (Hn : ~ q + dq == 0) by lra.
    assert (Hn' : eqb (q + dq) 0 = false) by (apply eqb_false; exact Hn).
    rewrite Hn'. simpl negb. cbv iota. rewrite truediv_ok by exact Hn. simpl bind.
    do 4 eexists. split; [reflexivity|]. split; [lra|].
    intros cash Hcash.
    rewrite div_mul_cancel by exact Hn. lra.
Qed.

Lemma apply_sell_spec (q ac realized dq price : Q) :
  dq < 0 ->
  exists q' ac' r',
    apply_sell q ac realized dq price = Ok (q', ac', r')
    /\ q' == q + dq
    /\ (forall cash, cash + ac * q == realized ->
                     cash - dq * price + ac' * q' == r').
Proof.
  intros Hdq. unfold apply_sell.
  destruct (gtb q 0) eqn:Hq.
  - set (c := Qmin q (- dq)).
    assert (Hc : (q < - dq /\ c == q) \/ (- dq <= q /\ c == - dq))
      by apply Q.min_spec.
    clearbody c.
    destruct (eqb (q - c) 0) eqn:Hz;
    destruct (gtb (- dq - c) 0) eqn:Hg; cmp_props.
    + assert (Hn : ~ - (q - c) + (- dq - c) == 0) by lra.
      assert (Hn' : eqb (- (q - c) + (- dq - c)) 0 = false) by (apply eqb_false; exact Hn).
      rewrite Hn'. simpl negb. cbv iota. rewrite truediv_ok by exact Hn. simpl bind.
      do 3 eexists. split; [reflexivity|]. split; [lra|].
      intros cash Hcash.
      setoid_replace (q - c - (- dq - c)) with (- (- (q - c) + (- dq - c))) by ring.
      rewrite div_mul_cancel_opp by exact Hn.
      assert (Ec : c == q) by lra. rewrite Ec. lra.
    + do 3 eexists. split; [reflexivity|]. split; [lra|].
      intros cash Hcash.
      assert (Ec : c == q) by lra. assert (Ed : dq == - q) by lra.
      rewrite Ec, Ed. lra.
    + exfalso. lra.
    + do 3 eexists. split; [reflexivity|]. split; [lra|].
      intros cash Hcash.
      assert (Ec : c == - dq) by lra. rewrite Ec. lra.
  - cmp_props. assert (G : gtb (- dq) 0 = true) by (apply gtb_true; lra).
    rewrite G.
    assert (Hn : ~ - q + - dq == 0) by lra.
    assert (Hn' : eqb (- q + - dq) 0 = false) by (apply eqb_false; exact Hn).
    rewrite Hn'. simpl negb. cbv iota. rewrite truediv_ok by exact Hn. simpl bind.
    do 3 eexists. split; [reflexivity|]. split; [lra|].
    intros cash Hcash.
    setoid_replace (q - - dq) with (- (- q + - dq)) by ring.
    rewrite div_mul_cancel_opp by exact Hn. lra.
Qed.

(** The absorption threshold is positive. *)
Lemma tiny_pos : 0 < 1e-15.
Proof. vm_compute. reflexivity. Qed.

(** One iteration never raises; it emits a row exactly for a parseable
    input row, changes nothing on a row it skips, and keeps the accounting
    identity, which makes the emitted row consistent. *)
Lemma step_spec mark_col max_inventory st r :
  exists st' o,
    step mark_col max_inventory st r = Ok (st', o)
    /\ (parseable r = true -> exists row, o = Some row)
    /\ (parseable r = false -> o = None /\ st' = st)
    /\ (balanced st ->
        balanced st' /\ forall row, o = Some row -> row_consistent row).
Proof.
  unfold step, parseable.
  destruct (r_price r) as [price|]; [|exists st, None; repeat split; auto; discriminate].
  destruct (r_size r) as [psize|]; [|exists st, None; repeat split; auto; discriminate].
  set (dq := clip_position max_inventory (q st + side_sign r * Qabs psize) - q st).
  destruct (ltb (Qabs dq) 1e-15) eqn:T.
  - eexists. eexists. split; [reflexivity|].
    split; [eauto|]. split; [discriminate|].
    intros B. split; [exact B|].
    intros row E. inversion E; subst; clear E.
    unfold row_consistent, balanced in *. simpl.
    split; [reflexivity|]. split; [reflexivity|]. lra.
  - cmp_props. pose proof tiny_pos as Tp.
    destruct (gtb dq 0) eqn:G; cmp_props.
    + destruct (apply_buy_spec (q st) (ac st) (realized st) dq price G)
        as (q' & ac' & r' & dq' & E & Hq & Hb).
      rewrite E. simpl.
      eexists. eexists. split; [reflexivity|].
      split; [eauto|]. split; [discriminate|].
      intros B. split.
      * unfold balanced in *. simpl. apply Hb. exact B.
      * intros row Er. inversion Er; subst; clear Er.
        unfold row_consistent, balanced in *. simpl.
        split; [reflexivity|]. split; [reflexivity|].
        specialize (Hb (cash st) B). lra.
    + assert (L : dq < 0).
      { destruct (abs_spec dq) as [[H1 H2]|[H1 H2]]; rewrite H2 in T; lra. }
      destruct (apply_sell_spec (q st) (ac st) (realized st) dq price L)
        as (q' & ac' & r' & E & Hq & Hb).
      rewrite E. simpl.
      eexists. eexists. split; [reflexivity|].
      split; [eauto|]. split; [discriminate|].
      intros B. split.
      * unfold balanced in *. simpl. apply Hb. exact B.
      * intros row Er. inversion Er; subst; clear Er.
        unfold row_consistent, balanced in *. simpl.
        split; [reflexivity|]. split; [reflexivity|].
        specialize (Hb (cash st) B). lra.
Qed.

(** The loop never raises, emits one row per parseable input row, and every
    row it emits from a balanced start is consistent. *)
Lemma run_spec mark_col max_inventory rows :
  forall st,
  exists out,
    run mark_col max_inventory st rows = Ok out
    /\ length out = length (filter parseable rows)
    /\ (balanced st -> Forall row_consistent out).
Proof.
  induction rows as [|r rest IH]; intros st; simpl.
  - exists []. auto.
  - destruct (step_spec mark_col max_inventory st r)
      as (st' & o & E & Hp & Hn & Hb).
    rewrite E. simpl.
    destruct (IH st') as (out & Eo & Hl & Hf).
    rewrite Eo. simpl.
    eexists. split; [reflexivity|].
    destruct (parseable r) eqn:P.
    + destruct (Hp eq_refl) as [row ->]. split; [simpl; lia|].
      intro B. destruct (Hb B) as [B' Hr]. constructor; auto.
    + destruct (Hn eq_refl) as [-> ->]. split; [exact Hl|].
      intro B. apply Hf. exact B.
Qed.









End AnalyzeProps.

(* ================================================================== *)
(** * Quote engine: what a generated pair looks like *)

Module QuoteProps.

Import Strategy.

(** What [generate_quotes] returns when it quotes: the prices it chose and
    the common size. *)
Lemma generate_quotes_shape cfg bids asks (pos pnl upnl now : Q) r :
  generate_quotes cfg bids asks pos pnl upnl now = Ok r ->
  r = (None, None)
  \/ exists b0 bs a0 az bp ap,
       bids = b0 :: bs /\ asks = a0 :: az /\ price b0 < price a0
       /\ r = (Some (mkQuote "bid" bp (calculate_order_size cfg pos "bid") now),
               Some (mkQuote "ask" ap (calculate_order_size cfg pos "bid") now))
       /\ 0.01 < calculate_order_size cfg pos "bid"
       /\ ((bp = price b0 /\ ap = price a0)
           \/ (bp = price b0
               /\ exists off, ap = Qmax (price b0 + tick_size cfg) (price a0 - off))
           \/ (ap = price a0
               /\ exists off, bp = Qmin (price a0 - tick_size cfg) (price b0 + off))).
Proof.
  unfold generate_quotes.
  destruct (calculate_fair_price bids asks) as [fair|] eqn:F.
  2:{ intro H; inversion H. auto. }
  destruct bids as [|b0 bs]; [discriminate|].
  destruct asks as [|a0 az]; [discriminate|].
  cbn [item0 bind].
  destruct (leb (price a0) (price b0)) eqn:L.
  { intro H; inversion H. auto. }
  destruct (_check_risk_limits cfg pos pnl fair).
  { intro H; inversion H. auto. }
  destruct (truediv (Qabs pos * fair) (max_notional_exposure cfg)) as [expo|e];
    cbn [bind]; [|discriminate].
  cbv zeta.
  change (calculate_order_size cfg pos "ask") with (calculate_order_size cfg pos "bid").
  destruct (gtb (calculate_order_size cfg pos "bid") 0.01) eqn:S.
  2:{ match goal with
      | |- context [let '(x, y) := ?scrut in _] => destruct scrut
      end. intro H; inversion H. auto. }
  cmp_props.
  destruct (gtb (off_bps_of (Qabs expo) (asym_deadband_pct cfg) (asym_bps_step cfg)) 0.0).
  - destruct (gtb expo 0).
    + intro H; inversion H; subst. right.
      do 6 eexists. repeat (split; [reflexivity || assumption|]).
      right. left. split; [reflexivity|]. eexists. reflexivity.
    + destruct (ltb expo 0).
      * intro H; inversion H; subst. right.
        do 6 eexists. repeat (split; [reflexivity || assumption|]).
        right. right. split; [reflexivity|]. eexists. reflexivity.
      * intro H; inversion H; subst. right.
        do 6 eexists. repeat (split; [reflexivity || assumption|]).
        left. split; reflexivity.
  - intro H; inversion H; subst. right.
    do 6 eexists. repeat (split; [reflexivity || assumption|]).
    left. split; reflexivity.
Qed.

(** X2.  With a positive tick the generated bid is strictly below the generated
    ask, skewed or not. *)
Theorem generated_quotes_never_cross cfg bids asks (pos pnl upnl now : Q) b a :
  0 < tick_size cfg ->
  generate_quotes cfg bids asks pos pnl upnl now = Ok (Some b, Some a) ->
  quote_price b < quote_price a.
Proof.
  intros Ht H.
  destruct (generate_quotes_shape _ _ _ _ _ _ _ _ H)
    as [E | (b0 & bs & a0 & az & bp & ap & _ & _ & Hx & E & _ & Hc)];
    [discriminate|].
  inversion E; subst; clear E. cbn [quote_price].
  destruct Hc as [[-> ->] | [[-> [off ->]] | [-> [off ->]]]].
  - exact Hx.
  - qarith.
  - qarith.
Qed.


(** Book 99 / 99.02, tick 0.01, long 5000: the offset 0.0396 is wider than
    the spread, the ask is held at best bid + tick. *)
Lemma generated_quotes_never_cross_witness :
  exists b a,
    generate_quotes default_config [mkLevel 99 1] [mkLevel 99.02 1]
                    5000 0 0 0 = Ok (Some b, Some a)
    /\ quote_price a == 99.01
    /\ quote_price b < quote_price a.
Proof.
  eexists. eexists. split; [vm_compute; reflexivity|].
  split; [vm_compute; reflexivity|].
  apply (generated_quotes_never_cross default_config [mkLevel 99 1]
           [mkLevel 99.02 1] 5000 0 0 0).
  - vm_compute. reflexivity.
  - vm_compute. reflexivity.
Defined.

(** X3.  [generate_quotes] never quotes one side alone: it returns no quote at
    all or a bid and an ask of one common size, above 0.01 and at most
    max(0.01, max_order_size), both stamped with the same reading of the
    clock. *)
Theorem generate_quotes_both_or_none cfg bids asks (pos pnl upnl now : Q) ob oa :
  generate_quotes cfg bids asks pos pnl upnl now = Ok (ob, oa) ->
  (ob = None /\ oa = None)
  \/ exists b a,
       ob = Some b /\ oa = Some a
       /\ quote_size b = quote_size a
       /\ 0.01 < quote_size b
       /\ quote_size b <= Qmax 0.01 (max_order_size cfg)
       /\ quote_timestamp b = now /\ quote_timestamp a = now.
Proof.
  intros H.
  destruct (generate_quotes_shape _ _ _ _ _ _ _ _ H)
    as [E | (b0 & bs & a0 & az & bp & ap & _ & _ & Hx & E & Hs & Hc)].
  - inversion E. auto.
  - inversion E; subst; clear E. right. do 2 eexists.
    repeat (split; [reflexivity|]). cbn [quote_size quote_timestamp].
    split; [exact Hs|]. split; [|split; reflexivity].
    unfold calculate_order_size. qarith.
Qed.

(** Default configuration, book 100 / 101, flat. *)
Lemma generate_quotes_both_or_none_witness :
  exists b a,
    generate_quotes default_config [mkLevel 100 1] [mkLevel 101 1] 0 0 0 7
      = Ok (Some b, Some a)
    /\ quote_size b = quote_size a /\ quote_size b == 0.05
    /\ quote_timestamp b = 7.
Proof.
  destruct (generate_quotes_both_or_none default_config [mkLevel 100 1]
              [mkLevel 101 1] 0 0 0 7 _ _ eq_refl)
    as [[E _] | (b & a & Eb & Ea & Hs & _ & _ & Tb & _)].
  - discriminate.
  - exists b, a. inversion Eb; inversion Ea; subst.
    split; [reflexivity|]. split; [reflexivity|].
    split; vm_compute; reflexivity.
Defined.

(** A fair price, when there is one, lies strictly between the best bid and
    the best ask, at equal distance from both. *)
Theorem fair_price_inside_spread bids asks (fair : Q) :
  calculate_fair_price bids asks = Some fair ->
  exists b0 bs a0 az,
    bids = b0 :: bs /\ asks = a0 :: az
    /\ price b0 < fair < price a0
    /\ fair - price b0 == price a0 - fair.
Proof.
  unfold calculate_fair_price.
  destruct bids as [|b0 bs]; [discriminate|].
  destruct asks as [|a0 az]; [discriminate|].
  destruct (leb (price a0) (price b0)) eqn:L; [discriminate|].
  intro H; inversion H; subst; clear H. cmp_props.
  exists b0, bs, a0, az. split; [reflexivity|]. split; [reflexivity|].
  assert (E : (price b0 + price a0) / 2.0 == (price b0 + price a0) * (1#2))
    by (field).
  rewrite E. split; [split|]; lra.
Qed.


(** Book 100 / 101. *)
Lemma fair_price_inside_spread_witness :
  exists b0 bs a0 az,
    [mkLevel 100 1] = b0 :: bs /\ [mkLevel 101 1] = a0 :: az
    /\ price b0 < (100 + 101) / 2.0 < price a0
    /\ (100 + 101) / 2.0 - price b0 == price a0 - (100 + 101) / 2.0.
Proof.
  apply (fair_price_inside_spread [mkLevel 100 1] [mkLevel 101 1]).
  reflexivity.
Defined.

(** The size clamp has floor 0.01 but a quote needs a size above 0.01: when
    min(base_order_size, max_order_size) is at most 0.01 the maker never
    quotes, on any book. *)
Theorem order_size_floor_silences cfg bids asks (pos pnl upnl now : Q) r :
  Qmin (base_order_size cfg) (max_order_size cfg) <= 0.01 ->
  generate_quotes cfg bids asks pos pnl upnl now = Ok r ->
  r = (None, None).
Proof.
  intros Hs H.
  destruct (generate_quotes_shape _ _ _ _ _ _ _ _ H)
    as [E | (b0 & bs & a0 & az & bp & ap & _ & _ & _ & _ & Hz & _)];
    [exact E|].
  exfalso. unfold calculate_order_size in Hz. revert Hs Hz. qarith.
Qed.

(** Base order size 0.01 on the book 100 / 101. *)
Lemma order_size_floor_silences_witness :
  exists r,
    generate_quotes
      (mkConfig 10.0 5.0 50.0 0.01 1.0 1000000 100000 0.1 0.01 0.20 2.0)
      [mkLevel 100 1] [mkLevel 101 1] 0 0 0 0
    = Ok r
    /\ r = (None, None).
Proof.
  eexists. split; [vm_compute; reflexivity|].
  apply (order_size_floor_silences
    (mkConfig 10.0 5.0 50.0 0.01 1.0 1000000 100000 0.1 0.01 0.20 2.0)
    [mkLevel 100 1] [mkLevel 101 1] 0 0 0 0).
  - vm_compute. discriminate.
  - vm_compute. reflexivity.
Defined.

End QuoteProps.

(* ================================================================== *)
(** * Spread analytics: bounds *)

Module SpreadBounds.

Import Spread SpreadProps.

Lemma ratio_in_unit (a b : Q) :
  0 <= a -> 0 <= b ->
  exists v, _ratio a b = Ok v /\ - (1) <= v <= 1.
Proof.
  intros Ha Hb. unfold _ratio.
  destruct (leb (a + b) 0) eqn:L; cmp_props.
  - exists 0. split; [reflexivity|]. lra.
  - rewrite truediv_ok by lra. eexists. split; [reflexivity|].
    split.
    + apply Qle_shift_div_l; lra.
    + apply Qle_shift_div_r; lra.
Qed.

Lemma ratio_swap (a b : Q) v :
  _ratio a b = Ok v -> exists v', _ratio b a = Ok v' /\ v' == - v.
Proof.
  unfold _ratio.
  destruct (leb (a + b) 0) eqn:L; cmp_props.
  - intro H; inversion H; subst.
    assert (L' : leb (b + a) 0 = true) by (apply leb_true; lra).
    rewrite L'. exists 0. split; [reflexivity|]. lra.
  - assert (L' : leb (b + a) 0 = false) by (apply leb_false; lra).
    rewrite L'. rewrite !truediv_ok by lra.
    intro H; inversion H; subst. eexists. split; [reflexivity|].
    field. lra.
Qed.

Lemma fold_plus_nonneg (xs : list Q) :
  Forall (fun x => 0 <= x) xs -> forall acc, 0 <= acc -> 0 <= fold_left Qplus xs acc.
Proof.
  induction 1 as [|x xs Hx _ IH]; intros acc Ha; simpl; [exact Ha|].
  apply IH. lra.
Qed.

(** A prefix keeps what holds of every element. *)
Lemma Forall_firstn' {A} (P : A -> Prop) (n : nat) (l : list A) :
  Forall P l -> Forall P (firstn n l).
Proof.
  intro H. revert n. induction H as [|x l Hx _ IH]; intros [|n]; simpl;
    constructor; auto.
Qed.

Lemma sum_sizes_nonneg levels (n : Z) :
  sizes_nonneg levels -> 0 <= Py.sum (map size (slice_to levels n)).
Proof.
  intro H. unfold Py.sum. apply fold_plus_nonneg; [|lra].
  apply Forall_map. unfold slice_to.
  destruct (0 <=? n)%Z; apply Forall_firstn'; exact H.
Qed.

Lemma walk_volume_spec levels : sizes_nonneg levels ->
  forall rem vol, 0 <= rem ->
  snd (walk_volume levels rem vol) == vol + Qmin rem (depth levels).
Proof.
  induction 1 as [|l rest Hl Hrest IH]; intros rem vol Hrem; simpl.
  - qarith.
  - pose proof (depth_nonneg _ Hrest) as Hd.
    destruct (leb rem 0) eqn:E; simpl; cmp_props.
    + qarith.
    + rewrite IH by qarith.
      (* cases on the two minima *)
      destruct (Q.min_spec rem (size l)) as [[H1 H2]|[H1 H2]];
      destruct (Q.min_spec (rem - Qmin rem (size l)) (depth rest)) as [[H3 H4]|[H3 H4]];
      destruct (Q.min_spec rem (size l + depth rest)) as [[H5 H6]|[H5 H6]];
      rewrite H4, H6; rewrite H2 in *; lra.
Qed.

(** X4.  For level sizes that are not negative both imbalance measures lie
    between -1 and +1. *)
Theorem imbalance_within_unit bids asks :
  sizes_nonneg bids -> sizes_nonneg asks ->
  (forall levels, exists v,
      calc_imbalance_levels bids asks levels = Ok v /\ - (1) <= v <= 1)
  /\ (forall target, exists v,
      calc_imbalance_volume bids asks target = Ok v /\ - (1) <= v <= 1).
Proof.
  intros Sb Sa. split.
  - intro levels. unfold calc_imbalance_levels.
    destruct bids as [|b0 bs]; [exists 0; split; [reflexivity|lra]|].
    destruct asks as [|a0 az]; [exists 0; split; [reflexivity|lra]|].
    apply ratio_in_unit; apply sum_sizes_nonneg; assumption.
  - intro target. unfold calc_imbalance_volume.
    destruct bids as [|b0 bs]; [exists 0; split; [reflexivity|lra]|].
    destruct asks as [|a0 az]; [exists 0; split; [reflexivity|lra]|].
    destruct (leb target 0) eqn:L; [exists 0; split; [reflexivity|lra]|].
    cmp_props.
    pose proof (depth_nonneg _ Sb). pose proof (depth_nonneg _ Sa).
    apply ratio_in_unit.
    + rewrite walk_volume_spec by (assumption || lra). qarith.
    + rewrite walk_volume_spec by (assumption || lra). qarith.
Qed.

(** Bids 3 against asks 1 on one level, and target 2 against the depths 3
    and 1. *)
Lemma imbalance_within_unit_witness :
  (exists v, calc_imbalance_levels [mkLevel 100 3] [mkLevel 101 1] 1 = Ok v
             /\ - (1) <= v <= 1)
  /\ (exists v, calc_imbalance_volume [mkLevel 100 3] [mkLevel 101 1] 2 = Ok v
                /\ - (1) <= v <= 1).
Proof.
  assert (Sb : sizes_nonneg [mkLevel 100 3])
    by (repeat constructor; simpl; lra).
  assert (Sa : sizes_nonneg [mkLevel 101 1])
    by (repeat constructor; simpl; lra).
  destruct (imbalance_within_unit _ _ Sb Sa) as [H1 H2].
  split; [apply H1 | apply H2].
Defined.

(** Swapping the two sides of the book negates both imbalance measures. *)
Theorem imbalance_antisymmetric bids asks :
  (forall levels v,
      calc_imbalance_levels bids asks levels = Ok v ->
      exists v', calc_imbalance_levels asks bids levels = Ok v' /\ v' == - v)
  /\ (forall target v,
      calc_imbalance_volume bids asks target = Ok v ->
      exists v', calc_imbalance_volume asks bids target = Ok v' /\ v' == - v).
Proof.
  split.
  - intros levels v. unfold calc_imbalance_levels.
    destruct bids as [|b0 bs]; destruct asks as [|a0 az];
      try (intro H; inversion H; exists 0; split; [reflexivity|lra]).
    apply ratio_swap.
  - intros target v. unfold calc_imbalance_volume.
    destruct bids as [|b0 bs]; destruct asks as [|a0 az];
      try (intro H; inversion H; exists 0; split; [reflexivity|lra]).
    destruct (leb target 0);
      [intro H; inversion H; exists 0; split; [reflexivity|lra]|].
    apply ratio_swap.
Qed.

(** Bids 3 against asks 1 on one level: 1/2 one way, -1/2 the other. *)
Lemma imbalance_antisymmetric_witness :
  exists v v',
    calc_imbalance_levels [mkLevel 100 3] [mkLevel 101 1] 1 = Ok v
    /\ calc_imbalance_levels [mkLevel 101 1] [mkLevel 100 3] 1 = Ok v'
    /\ v == 1 # 2 /\ v' == - v.
Proof.
  destruct (proj1 (imbalance_antisymmetric [mkLevel 100 3] [mkLevel 101 1])
              1%Z (2 # 4)) as [v' [E V]].
  - vm_compute. reflexivity.
  - exists (2 # 4), v'.
    split; [vm_compute; reflexivity|]. split; [exact E|].
    split; [vm_compute; reflexivity|exact V].
Defined.

(** X5.  The volume imbalance only sees each side's depth capped at the target:
    it is (B - A) / (B + A) for B = min(target, bid depth) and
    A = min(target, ask depth), hence 0 whenever both sides are at least
    as deep as the target. *)
Theorem imbalance_volume_of_capped_depths bids asks (target : Q) :
  bids <> [] -> asks <> [] ->
  sizes_nonneg bids -> sizes_nonneg asks -> 0 < target ->
  exists v,
    calc_imbalance_volume bids asks target = Ok v
    /\ v * (Qmin target (depth bids) + Qmin target (depth asks))
       == Qmin target (depth bids) - Qmin target (depth asks)
    /\ (target <= depth bids -> target <= depth asks -> v == 0).
Proof.
  intros Nb Na Sb Sa Ht. unfold calc_imbalance_volume.
  destruct bids as [|b0 bs]; [congruence|].
  destruct asks as [|a0 az]; [congruence|].
  assert (L : leb target 0 = false) by (apply leb_false; exact Ht).
  rewrite L.
  pose proof (walk_volume_spec (b0 :: bs) Sb target 0) as Wb.
  pose proof (walk_volume_spec (a0 :: az) Sa target 0) as Wa.
  set (vb := snd (walk_volume (b0 :: bs) target 0)) in *.
  set (va := snd (walk_volume (a0 :: az) target 0)) in *.
  assert (Eb : vb == Qmin target (depth (b0 :: bs))) by (rewrite Wb; lra).
  assert (Ea : va == Qmin target (depth (a0 :: az))) by (rewrite Wa; lra).
  clearbody vb va.
  pose proof (depth_nonneg _ Sb) as Db. pose proof (depth_nonneg _ Sa) as Da.
  unfold _ratio.
  destruct (leb (vb + va) 0) eqn:Z; cmp_props.
  - exists 0. split; [reflexivity|].
    assert (vb == 0) by (revert Eb Ea Z; qarith).
    assert (va == 0) by (revert Eb Ea Z; qarith).
    split; [rewrite <- Eb, <- Ea; lra|]. intros; reflexivity.
  - rewrite truediv_ok by lra. eexists. split; [reflexivity|].
    split; [rewrite <- Eb, <- Ea; field; lra|].
    intros Hb Ha.
    assert (E1 : vb == target) by (revert Eb Hb; qarith).
    assert (E2 : va == target) by (revert Ea Ha; qarith).
    rewrite E1, E2. field. lra.
Qed.

(** Bid depth 3 and ask depth 5 against the target 2: no imbalance is
    reported. *)
Lemma imbalance_volume_of_capped_depths_witness :
  exists v,
    calc_imbalance_volume [mkLevel 100 3] [mkLevel 101 5] 2 = Ok v /\ v == 0.
Proof.
  destruct (imbalance_volume_of_capped_depths
              [mkLevel 100 3] [mkLevel 101 5] 2)
    as (v & E & _ & Z).
  - discriminate.
  - discriminate.
  - repeat constructor; simpl; lra.
  - repeat constructor; simpl; lra.
  - lra.
  - exists v. split; [exact E|]. apply Z; vm_compute; discriminate.
Defined.

Lemma min_depth_step (sz t d : Q) :
  0 <= sz -> 0 <= t -> 0 <= d ->
  Qmin sz t + Qmin (t - Qmin sz t) d == Qmin t (sz + d).
Proof.
  intros. qarith.
Qed.

(** The filled cost is the filled volume, min(target, depth), priced between
    any bounds of the level prices. *)
Lemma filled_cost_upper levels (hi : Q) :
  sizes_nonneg levels ->
  Forall (fun l => price l <= hi) levels ->
  forall t, 0 <= t ->
  filled_cost levels t <= hi * Qmin t (depth levels).
Proof.
  intros Hs Hp. induction Hs as [|l rest Hl Hrest IH]; intros t Ht; simpl.
  - assert (E : Qmin t 0 == 0) by qarith. rewrite E. lra.
  - inversion Hp as [|? ? Hpl Hprest]; subst.
    pose proof (depth_nonneg _ Hrest) as Hd.
    specialize (IH Hprest (t - Qmin (size l) t)).
    assert (Hw : 0 <= Qmin (size l) t) by qarith.
    assert (Ht' : 0 <= t - Qmin (size l) t) by qarith.
    specialize (IH Ht').
    rewrite <- (min_depth_step (size l) t (depth rest)) by assumption.
    set (w := Qmin (size l) t) in *.
    set (m := Qmin (t - w) (depth rest)) in *.
    set (f := filled_cost rest (t - w)) in *.
    clearbody w m f.
    assert (A2 : w * price l <= hi * w) by nra.
    lra.
Qed.

Lemma filled_cost_lower levels (lo : Q) :
  sizes_nonneg levels ->
  Forall (fun l => lo <= price l) levels ->
  forall t, 0 <= t ->
  lo * Qmin t (depth levels) <= filled_cost levels t.
Proof.
  intros Hs Hp. induction Hs as [|l rest Hl Hrest IH]; intros t Ht; simpl.
  - assert (E : Qmin t 0 == 0) by qarith. rewrite E. lra.
  - inversion Hp as [|? ? Hpl Hprest]; subst.
    pose proof (depth_nonneg _ Hrest) as Hd.
    specialize (IH Hprest (t - Qmin (size l) t)).
    assert (Hw : 0 <= Qmin (size l) t) by qarith.
    assert (Ht' : 0 <= t - Qmin (size l) t) by qarith.
    specialize (IH Ht').
    rewrite <- (min_depth_step (size l) t (depth rest)) by assumption.
    set (w := Qmin (size l) t) in *.
    set (m := Qmin (t - w) (depth rest)) in *.
    set (f := filled_cost rest (t - w)) in *.
    clearbody w m f.
    assert (A1 : lo * w <= w * price l) by nra.
    lra.
Qed.

Lemma last_in_Forall {A} (P : A -> Prop) (l : list A) (d : A) :
  l <> [] -> Forall P l -> P (last l d).
Proof.
  intros Hne H. induction H as [|x l Hx Hl IH]; [congruence|].
  destruct l as [|y l']; [exact Hx|]. apply IH. discriminate.
Qed.

Lemma vwap_spec_upper levels (hi t : Q) :
  levels <> [] -> sizes_nonneg levels ->
  Forall (fun l => price l <= hi) levels ->
  0 < t -> vwap_spec levels t <= hi.
Proof.
  intros Hne Hs Hp Ht.
  destruct levels as [|l0 rest]; [congruence|].
  unfold vwap_spec.
  assert (Ht0 : 0 <= t) by lra.
  pose proof (filled_cost_upper _ hi Hs Hp t Ht0) as F.
  pose proof (last_in_Forall _ (l0 :: rest) l0 Hne Hp) as L. cbv beta in L.
  pose proof (depth_nonneg _ Hs) as Hd.
  set (f := filled_cost (l0 :: rest) t) in *.
  set (d := depth (l0 :: rest)) in *.
  set (p := price (last (l0 :: rest) l0)) in *.
  assert (Hm : Qmin t d + Qmax 0 (t - d) == t) by qarith.
  assert (Hx : 0 <= Qmax 0 (t - d)) by qarith.
  set (m := Qmin t d) in *. set (x := Qmax 0 (t - d)) in *.
  clearbody f d p m x.
  assert (A2 : x * p <= hi * x) by nra.
  apply Qle_shift_div_r; [exact Ht|]. rewrite <- Hm. lra.
Qed.

Lemma vwap_spec_lower levels (lo t : Q) :
  levels <> [] -> sizes_nonneg levels ->
  Forall (fun l => lo <= price l) levels ->
  0 < t -> lo <= vwap_spec levels t.
Proof.
  intros Hne Hs Hp Ht.
  destruct levels as [|l0 rest]; [congruence|].
  unfold vwap_spec.
  assert (Ht0 : 0 <= t) by lra.
  pose proof (filled_cost_lower _ lo Hs Hp t Ht0) as F.
  pose proof (last_in_Forall _ (l0 :: rest) l0 Hne Hp) as L. cbv beta in L.
  pose proof (depth_nonneg _ Hs) as Hd.
  set (f := filled_cost (l0 :: rest) t) in *.
  set (d := depth (l0 :: rest)) in *.
  set (p := price (last (l0 :: rest) l0)) in *.
  assert (Hm : Qmin t d + Qmax 0 (t - d) == t) by qarith.
  assert (Hx : 0 <= Qmax 0 (t - d)) by qarith.
  set (m := Qmin t d) in *. set (x := Qmax 0 (t - d)) in *.
  clearbody f d p m x.
  assert (A1 : lo * x <= x * p) by nra.
  apply Qle_shift_div_l; [exact Ht|]. rewrite <- Hm. lra.
Qed.

(** X6.  On a book whose best bid is the highest bid and whose best ask is the
    lowest ask, with level sizes that are not negative, the spread for any
    positive size is at least the top-of-book spread. *)
Theorem spread_for_size_at_least_top b0 bs a0 az (target : Q) :
  sizes_nonneg (b0 :: bs) -> sizes_nonneg (a0 :: az) ->
  Forall (fun l => price l <= price b0) bs ->
  Forall (fun l => price a0 <= price l) az ->
  0 < target ->
  exists v,
    calculate_spread_for_size (b0 :: bs) (a0 :: az) target = Ok v
    /\ price a0 - price b0 <= v.
Proof.
  intros Sb Sa Pb Pa Ht.
  destruct (avg_side_price_spec (b0 :: bs) target) as [vb [Eb Vb]];
    try assumption; try discriminate.
  destruct (avg_side_price_spec (a0 :: az) target) as [va [Ea Va]];
    try assumption; try discriminate.
  unfold calculate_spread_for_size. rewrite Eb, Ea. cbn [bind].
  eexists. split; [reflexivity|].
  assert (Hb : vwap_spec (b0 :: bs) target <= price b0).
  { apply vwap_spec_upper; try assumption; try discriminate.
    constructor; [lra|exact Pb]. }
  assert (Ha : price a0 <= vwap_spec (a0 :: az) target).
  { apply vwap_spec_lower; try assumption; try discriminate.
    constructor; [lra|exact Pa]. }
  rewrite Va, Vb. lra.
Qed.

(** Bids 100 at 1 then 99 at 5, asks 101 at 1 then 103 at 5, size 2: the
    spread 2.5 is above the top-of-book spread 1. *)
Lemma spread_for_size_at_least_top_witness :
  exists v,
    calculate_spread_for_size [mkLevel 100 1; mkLevel 99 5]
                              [mkLevel 101 1; mkLevel 103 5] 2 = Ok v
    /\ 101 - 100 <= v /\ v == 2.5.
Proof.
  destruct (spread_for_size_at_least_top (mkLevel 100 1) [mkLevel 99 5]
              (mkLevel 101 1) [mkLevel 103 5] 2)
    as (v & E & V).
  - repeat constructor; simpl; lra.
  - repeat constructor; simpl; lra.
  - repeat constructor; simpl; lra.
  - repeat constructor; simpl; lra.
  - lra.
  - exists v. split; [exact E|]. split; [exact V|].
    vm_compute in E. inversion E. vm_compute. reflexivity.
Defined.

(** X7.  A size that the best level of each side can fill alone is quoted the
    top-of-book spread, whatever lies behind. *)
Theorem spread_for_small_size_is_top b0 bs a0 az (target : Q) :
  0 < target -> target <= size b0 -> target <= size a0 ->
  exists v,
    calculate_spread_for_size (b0 :: bs) (a0 :: az) target = Ok v
    /\ v == price a0 - price b0.
Proof.
  intros Ht Hb Ha.
  assert (S : forall l0 rest, target <= size l0 ->
            exists v, avg_side_price (l0 :: rest) target = Ok v /\ v == price l0).
  { intros l0 rest Hl. unfold avg_side_price. simpl walk_levels.
    assert (L : leb target 0 = false) by (apply leb_false; exact Ht).
    rewrite L.
    assert (Em : target - Qmin target (size l0) == 0) by qarith.
    assert (Et : Qmin target (size l0) == target) by qarith.
    assert (W : walk_levels rest (target - Qmin target (size l0))
                            (0 + Qmin target (size l0) * price l0)
                = (target - Qmin target (size l0),
                   0 + Qmin target (size l0) * price l0)).
    { destruct rest as [|l1 r]; [reflexivity|]. simpl.
      assert (L0 : leb (target - Qmin target (size l0)) 0 = true)
        by (apply leb_true; lra).
      rewrite L0. reflexivity. }
    rewrite W.
    assert (G : gtb (target - Qmin target (size l0)) 0 = false)
      by (apply gtb_false; lra).
    rewrite G.
    assert (G' : gtb target 0 = true) by (apply gtb_true; exact Ht).
    rewrite G'. rewrite truediv_ok by lra.
    eexists. split; [reflexivity|]. rewrite Et. field. lra. }
  destruct (S b0 bs Hb) as [vb [Eb Vb]].
  destruct (S a0 az Ha) as [va [Ea Va]].
  unfold calculate_spread_for_size. rewrite Eb, Ea. cbn [bind].
  eexists. split; [reflexivity|]. rewrite Va, Vb. reflexivity.
Qed.

(** Size 0.1 on bids 100 at 1 then 99 at 5 and asks 101 at 1 then 103
    at 5. *)
Lemma spread_for_small_size_is_top_witness :
  exists v,
    calculate_spread_for_size [mkLevel 100 1; mkLevel 99 5]
                              [mkLevel 101 1; mkLevel 103 5] 0.1 = Ok v
    /\ v == 101 - 100.
Proof.
  apply (spread_for_small_size_is_top (mkLevel 100 1) [mkLevel 99 5]
           (mkLevel 101 1) [mkLevel 103 5] 0.1).
  - vm_compute. reflexivity.
  - vm_compute. discriminate.
  - vm_compute. discriminate.
Defined.

Lemma fold_min_le (xs : list Q) : forall x,
  fold_left Qmin xs x <= x
  /\ Forall (fun y => fold_left Qmin xs x <= y) xs.
Proof.
  induction xs as [|y xs IH]; intros x; simpl.
  - split; [lra|constructor].
  - destruct (IH (Qmin x y)) as [H1 H2]. split; [|constructor; [|exact H2]].
    + revert H1. qarith.
    + revert H1. qarith.
Qed.

Lemma fold_max_ge (xs : list Q) : forall x,
  x <= fold_left Qmax xs x
  /\ Forall (fun y => y <= fold_left Qmax xs x) xs.
Proof.
  induction xs as [|y xs IH]; intros x; simpl.
  - split; [lra|constructor].
  - destruct (IH (Qmax x y)) as [H1 H2]. split; [|constructor; [|exact H2]].
    + revert H1. qarith.
    + revert H1. qarith.
Qed.

Lemma fold_plus_bounds (lo hi : Q) (xs : list Q) :
  Forall (fun y => lo <= y <= hi) xs ->
  forall acc,
  acc + lo * inject_Z (Z.of_nat (length xs)) <= fold_left Qplus xs acc
  /\ fold_left Qplus xs acc <= acc + hi * inject_Z (Z.of_nat (length xs)).
Proof.
  induction 1 as [|y xs Hy _ IH]; intros acc.
  - cbn [fold_left length]. change (inject_Z (Z.of_nat 0)) with 0. split; lra.
  - cbn [fold_left length]. destruct (IH (acc + y)) as [H1 H2].
    rewrite Nat2Z.inj_succ. unfold Z.succ. rewrite inject_Z_plus.
    change (inject_Z 1) with 1.
    set (n := inject_Z (Z.of_nat (length xs))) in *. clearbody n.
    split; lra.
Qed.

Lemma insert_sorted_Forall (P : Q -> Prop) x l :
  P x -> Forall P l -> Forall P (insert_sorted x l).
Proof.
  intros Hx H. induction H as [|y l Hy Hl IH]; simpl.
  - constructor; [exact Hx|constructor].
  - destruct (ltb y x).
    + constructor; [exact Hy|exact IH].
    + constructor; [exact Hx|]. constructor; assumption.
Qed.

Lemma sorted_Forall (P : Q -> Prop) l : Forall P l -> Forall P (Py.sorted l).
Proof.
  induction 1; simpl; [constructor|]. apply insert_sorted_Forall; assumption.
Qed.

Lemma insert_sorted_length x l : length (insert_sorted x l) = S (length l).
Proof.
  induction l as [|y l IH]; simpl; [reflexivity|].
  destruct (ltb y x); simpl; [rewrite IH|]; reflexivity.
Qed.

Lemma sorted_length l : length (Py.sorted l) = length l.
Proof.
  induction l as [|x l IH]; simpl; [reflexivity|].
  rewrite insert_sorted_length, IH. reflexivity.
Qed.

Lemma nth_Forall (P : Q -> Prop) l (i : nat) :
  Forall P l -> (i < length l)%nat -> P (nth i l 0).
Proof.
  intros H. revert i. induction H as [|y l Hy _ IH]; intros i Hi; simpl in *.
  - lia.
  - destruct i; [exact Hy|]. apply IH. lia.
Qed.

Lemma median_bounds (lo hi : Q) xs :
  xs <> [] -> Forall (fun y => lo <= y <= hi) xs -> lo <= median xs <= hi.
Proof.
  intros Hne H. unfold median.
  pose proof (sorted_Forall _ _ H) as Hs.
  pose proof (sorted_length xs) as Hl.
  assert (Hn : (0 < length (Py.sorted xs))%nat).
  { rewrite Hl. destruct xs; [congruence|simpl; lia]. }
  set (data := Py.sorted xs) in *. clearbody data.
  destruct (Nat.odd (length data)) eqn:O.
  - apply (nth_Forall _ _ _ Hs). apply Nat.div_lt; lia.
  - assert (H2 : (2 <= length data)%nat).
    { destruct (length data) as [|[|n]]; [lia|discriminate|lia]. }
    assert (I1 : (length data / 2 - 1 < length data)%nat).
    { pose proof (Nat.div_lt (length data) 2). lia. }
    assert (I2 : (length data / 2 < length data)%nat)
      by (apply Nat.div_lt; lia).
    pose proof (nth_Forall _ _ _ Hs I1) as [A1 A2].
    pose proof (nth_Forall _ _ _ Hs I2) as [B1 B2].
    split.
    + apply Qle_shift_div_l; lra.
    + apply Qle_shift_div_r; lra.
Qed.

(** X8.  Over a window that is not empty the metrics are ordered: the minimum
    is at most the mean and the median, which are at most the maximum, and
    every spread of the window lies between the minimum and the maximum. *)
Theorem spread_metrics_ordered (spreads : list Q) m :
  spreads <> [] ->
  get_spread_metrics spreads = Ok m ->
  min_spread m <= avg_spread m <= max_spread m
  /\ min_spread m <= med_spread m <= max_spread m
  /\ Forall (fun s => min_spread m <= s <= max_spread m) spreads.
Proof.
  intros Hne. destruct spreads as [|x xs]; [congruence|].
  unfold get_spread_metrics, mean. cbn [bind].
  intro H; inversion H; subst; clear H. cbn [min_spread max_spread avg_spread med_spread].
  destruct (fold_min_le xs x) as [M1 M2].
  destruct (fold_max_ge xs x) as [X1 X2].
  unfold list_min, list_max.
  set (lo := fold_left Qmin xs x) in *. set (hi := fold_left Qmax xs x) in *.
  assert (F : Forall (fun y => lo <= y <= hi) (x :: xs)).
  { constructor; [split; assumption|].
    rewrite Forall_forall in *. intros y Hy. split; auto. }
  split; [|split; [|exact F]].
  - destruct (fold_plus_bounds lo hi (x :: xs) F 0) as [S1 S2].
    unfold Py.sum.
    change (Z.pos (Pos.of_succ_nat (length xs)))
      with (Z.of_nat (length (x :: xs))).
    set (n := inject_Z (Z.of_nat (length (x :: xs)))) in *.
    assert (Hn : 0 < n).
    { unfold n. simpl length. rewrite Nat2Z.inj_succ. unfold Z.succ.
      rewrite inject_Z_plus. change (inject_Z 1) with 1.
      assert (0 <= inject_Z (Z.of_nat (length xs))).
      { change 0 with (inject_Z 0). rewrite <- Zle_Qle. lia. }
      lra. }
    clearbody n. split.
    + apply Qle_shift_div_l; lra.
    + apply Qle_shift_div_r; lra.
  - apply median_bounds; [discriminate|exact F].
Qed.

(** The window 3, 1, 2: minimum 1, mean 2, median 2, maximum 3. *)
Lemma spread_metrics_ordered_witness :
  exists m,
    get_spread_metrics [3; 1; 2] = Ok m
    /\ min_spread m == 1 /\ avg_spread m == 2 /\ med_spread m == 2
    /\ max_spread m == 3
    /\ min_spread m <= avg_spread m <= max_spread m.
Proof.
  eexists. split; [vm_compute; reflexivity|].
  do 4 (split; [vm_compute; reflexivity|]).
  eapply (spread_metrics_ordered [3; 1; 2]).
  - discriminate.
  - vm_compute. reflexivity.
Defined.

End SpreadBounds.

(* ================================================================== *)
(** * Spread analyzer: rolling windows and logs *)

Module SpreadWindowProps.

Import SpreadWindow.

Lemma deque_append_last_n {A} (w : nat) (d : list A) (x : A) :
  deque_append w d x = last_n w (d ++ [x]).
Proof. reflexivity. Qed.

Lemma last_n_snoc {A} (w : nat) (f : list A) (x : A) :
  last_n w (last_n w f ++ [x]) = last_n w (f ++ [x]).
Proof.
  unfold last_n.
  assert (E : skipn (length f - w) f ++ [x] = skipn (length f - w) (f ++ [x])).
  { rewrite skipn_app.
    replace (length f - w - length f)%nat with 0%nat by lia. reflexivity. }
  rewrite E. rewrite skipn_skipn. f_equal.
  rewrite length_skipn, !length_app. simpl. lia.
Qed.

Lemma last_n_length {A} (w : nat) (f : list A) :
  length (last_n w f) = Nat.min w (length f).
Proof. unfold last_n. rewrite length_skipn. lia. Qed.

(** An update keeps the shape and never raises. *)
Lemma update_spreads_shaped w a bids asks (t1 t2 : Q) :
  shaped w a ->
  exists a', update_spreads a bids asks t1 t2 = Returns a' /\ shaped w a'
             /\ timestamps_full a' = timestamps_full a ++ [t2].
Proof.
  intros (f1 & f2 & f3 & f4 & Hw & Ht & Hf & Hh & L1 & L2 & L3 & L4).
  unfold update_spreads. rewrite Hh, Hf, Hw. cbn [map fst].
  destruct (SpreadProps.calculate_spread_for_size_total bids asks 0.1) as [s1 E1].
  destruct (SpreadProps.calculate_spread_for_size_total bids asks 1.0) as [s2 E2].
  destruct (SpreadProps.calculate_spread_for_size_total bids asks 5.0) as [s3 E3].
  destruct (SpreadProps.calculate_spread_for_size_total bids asks 10.0) as [s4 E4].
  cbn [append_spreads]. rewrite E1. cbn. rewrite E2. cbn. rewrite E3. cbn.
  rewrite E4. cbn.
  eexists. split; [reflexivity|]. split; [|reflexivity].
  exists (f1 ++ [s1]), (f2 ++ [s2]), (f3 ++ [s3]), (f4 ++ [s4]).
  cbn [window_size timestamps timestamps_full spread_history spread_history_full].
  rewrite !deque_append_last_n, !last_n_snoc.
  rewrite last_n_length, !length_app, L1, L2, L3, L4, Ht. cbn [length].
  repeat split; try reflexivity. lia.
Qed.

Lemma init_shaped w : shaped w (init w).
Proof.
  exists [], [], [], []. cbn. repeat split; try reflexivity.
  destruct w; reflexivity.
Qed.

Lemma reachable_shaped w a : reachable w a -> shaped w a.
Proof.
  induction 1 as [|a bids asks t1 t2 a' _ IH E].
  - apply init_shaped.
  - destruct (update_spreads_shaped w a bids asks t1 t2 IH) as (a'' & E' & S & _).
    rewrite E in E'. inversion E'; subst. exact S.
Qed.

Lemma shaped_get w a (size : Q) d :
  shaped w a ->
  dict_get size (spread_history a) = Some d ->
  exists f, dict_get size (spread_history_full a) = Some f
            /\ d = last_n w f
            /\ length f = length (timestamps_full a).
Proof.
  intros (f1 & f2 & f3 & f4 & Hw & Ht & Hf & Hh & L1 & L2 & L3 & L4).
  rewrite Hh, Hf. cbn [dict_get].
  destruct (eqb 0.1 size); [intro H; inversion H; eauto|].
  destruct (eqb 1.0 size); [intro H; inversion H; eauto|].
  destruct (eqb 5.0 size); [intro H; inversion H; eauto|].
  destruct (eqb 10.0 size); [intro H; inversion H; eauto|].
  discriminate.
Qed.

(** X9.  After any sequence of updates, under every size the rolling window is
    the last [window_size] spreads of the full log, the full log has one
    entry per update, and the window is exactly as long as the rolling log
    of time stamps, at most [window_size]. *)
Theorem rolling_window_is_tail_of_log w a (size : Q) d :
  reachable w a ->
  dict_get size (spread_history a) = Some d ->
  exists f,
    dict_get size (spread_history_full a) = Some f
    /\ d = last_n w f
    /\ length f = length (timestamps_full a)
    /\ length d = length (timestamps a)
    /\ (length d <= w)%nat.
Proof.
  intros R G. pose proof (reachable_shaped _ _ R) as S.
  destruct (shaped_get _ _ _ _ S G) as (f & Gf & Ed & Lf).
  exists f. repeat split; try assumption.
  - destruct S as (f1 & f2 & f3 & f4 & Hw & Ht & _).
    rewrite Ed, last_n_length, Ht, Lf. reflexivity.
  - rewrite Ed, last_n_length. lia.
Qed.

(** Window 2, three updates: under size 1.0 the window holds the last two
    of the three logged spreads. *)
Lemma rolling_window_is_tail_of_log_witness :
  exists a1 a2 a3 d f,
    update_spreads (init 2) [mkLevel 100 1] [mkLevel 101 1] 1 1 = Returns a1
    /\ update_spreads a1 [mkLevel 100 1] [mkLevel 102 1] 2 2 = Returns a2
    /\ update_spreads a2 [mkLevel 100 1] [mkLevel 103 1] 3 3 = Returns a3
    /\ dict_get 1.0 (spread_history a3) = Some d
    /\ dict_get 1.0 (spread_history_full a3) = Some f
    /\ d = last_n 2 f
    /\ length f = 3%nat /\ length d = 2%nat.
Proof.
  do 5 eexists.
  split; [vm_compute; reflexivity|].
  split; [vm_compute; reflexivity|].
  split; [vm_compute; reflexivity|].
  split; [vm_compute; reflexivity|].
  match goal with
  | |- context [spread_history_full ?a3] => assert (R : reachable 2 a3)
  end.
  { eapply (reach_update 2 _ [mkLevel 100 1] [mkLevel 103 1] 3 3).
    - eapply (reach_update 2 _ [mkLevel 100 1] [mkLevel 102 1] 2 2).
      + eapply (reach_update 2 _ [mkLevel 100 1] [mkLevel 101 1] 1 1).
        * apply reach_init.
        * vm_compute. reflexivity.
      + vm_compute. reflexivity.
    - vm_compute. reflexivity. }
  split; [vm_compute; reflexivity|].
  destruct (rolling_window_is_tail_of_log 2 _ 1.0 _ R eq_refl)
    as (f & Gf & Ed & Lf & Ld & _).
  vm_compute in Gf. inversion Gf; subst f.
  split; [exact Ed|]. split; [exact Lf|exact Ld].
Defined.

(** An update of a reached analyzer never raises: every size it visits is a
    key of both dictionaries and the spread divisions are guarded.  It adds
    one time stamp to the full log and keeps the rolling one within the
    window. *)
Theorem update_spreads_returns w a bids asks (t1 t2 : Q) :
  reachable w a ->
  exists a',
    update_spreads a bids asks t1 t2 = Returns a'
    /\ length (timestamps_full a') = S (length (timestamps_full a))
    /\ length (timestamps a') = Nat.min w (S (length (timestamps_full a))).
Proof.
  intro R. pose proof (reachable_shaped _ _ R) as S.
  destruct (update_spreads_shaped w a bids asks t1 t2 S) as (a' & E & S' & Ef).
  exists a'. split; [exact E|].
  destruct S' as (f1 & f2 & f3 & f4 & Hw & Ht & _).
  rewrite Ht, Ef, length_app. cbn [length]. split; [lia|f_equal; lia].
Qed.

(** The first update of a fresh analyzer with window 2. *)
Lemma update_spreads_returns_witness :
  exists a',
    update_spreads (init 2) [mkLevel 100 1] [mkLevel 101 1] 1 1 = Returns a'
    /\ length (timestamps_full a') = 1%nat
    /\ length (timestamps a') = Nat.min 2 1.
Proof.
  apply (update_spreads_returns 2 (init 2) [mkLevel 100 1] [mkLevel 101 1] 1 1).
  apply reach_init.
Defined.

(** X10.  Metrics are kept for the four configured sizes only: asking for another
    size raises KeyError, asking for a configured one never raises, and
    before the first update every configured size reports all zeros. *)
Theorem metrics_of_unconfigured_size w a (size : Q) :
  reachable w a ->
  (get_spread_metrics a size = KeyError
   <-> (eqb 0.1 size = false /\ eqb 1.0 size = false
        /\ eqb 5.0 size = false /\ eqb 10.0 size = false))
  /\ (forall e, get_spread_metrics a size <> Raises e)
  /\ (length (timestamps_full a) = 0%nat ->
      get_spread_metrics a size = KeyError
      \/ get_spread_metrics a size = Returns (mkSpreadMetrics 0 0 0 0)).
Proof.
  intro R. pose proof (reachable_shaped _ _ R) as S.
  destruct S as (f1 & f2 & f3 & f4 & Hw & Ht & Hf & Hh & L1 & L2 & L3 & L4).
  unfold get_spread_metrics. rewrite Hh. cbn [dict_get].
  assert (T : forall d, exists m, Spread.get_spread_metrics d = Ok m)
    by apply SpreadProps.get_spread_metrics_total.
  split; [|split].
  - destruct (eqb 0.1 size);
      [destruct (T (last_n w f1)) as [m ->]; split; [discriminate|intros (X & _); discriminate]|].
    destruct (eqb 1.0 size);
      [destruct (T (last_n w f2)) as [m ->]; split; [discriminate|intros (_ & X & _); discriminate]|].
    destruct (eqb 5.0 size);
      [destruct (T (last_n w f3)) as [m ->]; split; [discriminate|intros (_ & _ & X & _); discriminate]|].
    destruct (eqb 10.0 size);
      [destruct (T (last_n w f4)) as [m ->]; split; [discriminate|intros (_ & _ & _ & X); discriminate]|].
    split; auto.
  - intro e.
    destruct (eqb 0.1 size); [destruct (T (last_n w f1)) as [m ->]; discriminate|].
    destruct (eqb 1.0 size); [destruct (T (last_n w f2)) as [m ->]; discriminate|].
    destruct (eqb 5.0 size); [destruct (T (last_n w f3)) as [m ->]; discriminate|].
    destruct (eqb 10.0 size); [destruct (T (last_n w f4)) as [m ->]; discriminate|].
    discriminate.
  - intro Z. rewrite Z in *.
    destruct f1; [|discriminate]. destruct f2; [|discriminate].
    destruct f3; [|discriminate]. destruct f4; [|discriminate].
    assert (E : @last_n Q w [] = []) by (unfold last_n; destruct (0 - w)%nat; reflexivity).
    rewrite E.
    destruct (eqb 0.1 size); [right; reflexivity|].
    destruct (eqb 1.0 size); [right; reflexivity|].
    destruct (eqb 5.0 size); [right; reflexivity|].
    destruct (eqb 10.0 size); [right; reflexivity|].
    left. reflexivity.
Qed.

(** A fresh analyzer asked for size 2.0, which is not configured. *)
Lemma metrics_of_unconfigured_size_witness :
  get_spread_metrics (init 100) 2.0 = KeyError.
Proof.
  apply (proj1 (metrics_of_unconfigured_size 100 (init 100) 2.0
                  (reach_init 100))).
  repeat split; reflexivity.
Defined.

End SpreadWindowProps.

(* ================================================================== *)
(** * portfolio.py: what the ledger keeps across fills, trades and marks *)

Module LedgerProps.

Import Py PyFacts Models Portfolio PortfolioProps Reports SpreadWindowProps.

(** Everything one processed fill writes, field by field. *)
Lemma process_fill_effect pm fill pm' :
  process_fill_market_making pm fill = Ok pm' ->
  (pm' = pm
   /\ (if String.eqb (fill_side fill) "buy"
       then Qmin (q (state pm) + fill_size fill) (max_inventory pm)
            - q (state pm)
       else q (state pm)
            - Qmax (q (state pm) - fill_size fill) (min_inventory pm)) <= 0)
  \/ exists e o,
       let s := state pm in
       let s' := state pm' in
       let buy := String.eqb (fill_side fill) "buy" in
       0 < e
       /\ q s' = (if buy then Qmin (q s + fill_size fill) (max_inventory pm)
                  else Qmax (q s - fill_size fill) (min_inventory pm))
       /\ e = (if buy then q s' - q s else q s - q s')
       /\ cash s' = (if buy then cash s - e * fill_price fill
                     else cash s + e * fill_price fill)
       /\ btc_balance s' = q s'
       /\ total_btc_bought s'
          = (if buy then total_btc_bought s + e else total_btc_bought s)
       /\ total_btc_sold s'
          = (if buy then total_btc_sold s else total_btc_sold s + e)
       /\ total_usd_spent s'
          = (if buy then total_usd_spent s + e * fill_price fill
             else total_usd_spent s)
       /\ total_usd_received s'
          = (if buy then total_usd_received s
             else total_usd_received s + e * fill_price fill)
       /\ total_trades s' = (total_trades s + 1)%Z
       /\ nav s' = nav s /\ pnl s' = pnl s
       /\ _update_avg_entry_price_on_fill (avg_entry_price s) (fill_side fill)
            (fill_price fill) e (q s) (q s') = Ok o
       /\ avg_entry_price s'
          = match o with Some a => a | None => avg_entry_price s end
       /\ max_inventory pm' = max_inventory pm
       /\ min_inventory pm' = min_inventory pm
       /\ fills_history pm' = deque_append 1000 (fills_history pm) fill
       /\ recent_fills pm' = deque_append 10 (recent_fills pm) fill
       /\ pnl_history pm' = pnl_history pm.
Proof.
  unfold process_fill_market_making.
  destruct (String.eqb (fill_side fill) "buy") eqn:S.
  - destruct (leb (Qmin (q (state pm) + fill_size fill) (max_inventory pm)
                   - q (state pm)) 0) eqn:L.
    + intro H; inversion H; subst; left; split; [reflexivity|]; cmp_props; exact L.
    + match goal with
      | |- context [_update_avg_entry_price_on_fill ?a ?b ?c ?d ?e ?f] =>
          destruct (update_avg_entry_total a b c d e f) as [o Eo]; rewrite Eo
      end.
      cbn [bind]. intro H; inversion H; subst; clear H. right.
      cmp_props. eexists. exists o. cbv zeta.
      unfold record_fill. rewrite S.
      destruct o; cbn; repeat split; try reflexivity; try exact L; exact Eo.
  - destruct (leb (q (state pm)
                   - Qmax (q (state pm) - fill_size fill) (min_inventory pm)) 0)
      eqn:L.
    + intro H; inversion H; subst; left; split; [reflexivity|]; cmp_props; exact L.
    + match goal with
      | |- context [_update_avg_entry_price_on_fill ?a ?b ?c ?d ?e ?f] =>
          destruct (update_avg_entry_total a b c d e f) as [o Eo]; rewrite Eo
      end.
      cbn [bind]. intro H; inversion H; subst; clear H. right.
      cmp_props. eexists. exists o. cbv zeta.
      unfold record_fill. rewrite S.
      destruct o; cbn; repeat split; try reflexivity; try exact L; exact Eo.
Qed.

(** A processed fill keeps the books balanced. *)
Lemma process_fill_books pm fill pm' :
  books_balance pm ->
  process_fill_market_making pm fill = Ok pm' ->
  books_balance pm'.
Proof.
  intros B H.
  destruct (process_fill_effect _ _ _ H) as [[-> _] | (e & o & E)]; [exact B|].
  cbv zeta in E.
  destruct E as (He & Hq & Ee & Hc & Hb & H1 & H2 & H3 & H4 & Ht & _).
  destruct B as (B1 & B2 & B3 & B4 & B5 & B6).
  unfold books_balance. cbv zeta.
  rewrite Hc, Hb, H1, H2, H3, H4, Ht.
  destruct (String.eqb (fill_side fill) "buy").
  - assert (Eq : q (state pm') == q (state pm) + e) by (rewrite Ee; lra).
    repeat split; try lra; try lia.
  - assert (Eq : q (state pm') == q (state pm) - e) by (rewrite Ee; lra).
    repeat split; try lra; try lia.
Qed.

(** What every processed fill keeps, a simulated trade keeps. *)
Lemma simulate_fill_keeps (P : PortfolioManager -> Prop) pm tr bid ask
    (bid_size ask_size t1 t2 : Q) pm' o :
  (forall f pm1, process_fill_market_making pm f = Ok pm1 -> P pm1) ->
  P pm ->
  simulate_fill_from_trade pm tr bid ask bid_size ask_size t1 t2 = Ok (pm', o) ->
  P pm'.
Proof.
  intros Hstep Hp. unfold simulate_fill_from_trade.
  destruct (candidate_fill pm tr bid ask bid_size ask_size t1 t2) as [f|].
  - destruct (process_fill_market_making pm f) as [pm1|e] eqn:E; cbn [bind];
      [|discriminate].
    intro H; inversion H; subst. eapply Hstep; eauto.
  - intro H; inversion H; subst. exact Hp.
Qed.

(** Every reached ledger has balanced books. *)
Lemma reachable_books (initial_usd max_inv : Q) pm :
  reachable initial_usd max_inv pm -> books_balance pm.
Proof.
  induction 1 as [|pm fill pm' _ IH E|pm tr bid ask bs az t1 t2 pm' f _ IH E
                  |pm fair _ IH].
  - unfold books_balance, init. cbn. repeat split; try lra; lia.
  - eapply process_fill_books; eauto.
  - eapply (simulate_fill_keeps books_balance); eauto.
    intros; eapply process_fill_books; eauto.
  - exact IH.
Qed.

(** X12.  In every ledger reached from [init] by fills, simulated trades
    and marks, the cash is the dollars received minus the dollars spent,
    the position is the coins bought minus the coins sold, the displayed
    coin balance is the position, and the two coin counters are not
    negative. *)
Theorem ledger_books_balance (initial_usd max_inv : Q) pm :
  reachable initial_usd max_inv pm ->
  cash (state pm)
    == total_usd_received (state pm) - total_usd_spent (state pm)
  /\ q (state pm)
     == total_btc_bought (state pm) - total_btc_sold (state pm)
  /\ btc_balance (state pm) = q (state pm)
  /\ 0 <= total_btc_bought (state pm) /\ 0 <= total_btc_sold (state pm).
Proof.
  intro R. destruct (reachable_books _ _ _ R) as (B1 & B2 & B3 & B4 & B5 & _).
  auto.
Qed.

(** A buy of 1 at 100 then a sell of 2 at 120 under cap 1: the sell is
    clipped to the cap and the counters follow the executed sizes. *)
Lemma ledger_books_balance_witness :
  exists pm1 pm2,
    process_fill_market_making (init 1000000 1) (mkFill 0 "buy" 100 1 "d")
      = Ok pm1
    /\ process_fill_market_making pm1 (mkFill 1 "sell" 120 2 "e") = Ok pm2
    /\ total_btc_sold (state pm2) == 2
    /\ cash (state pm2) == 140
    /\ (cash (state pm2)
          == total_usd_received (state pm2) - total_usd_spent (state pm2)
        /\ q (state pm2)
           == total_btc_bought (state pm2) - total_btc_sold (state pm2)
        /\ btc_balance (state pm2) = q (state pm2)
        /\ 0 <= total_btc_bought (state pm2)
        /\ 0 <= total_btc_sold (state pm2)).
Proof.
  eexists. eexists.
  split; [vm_compute; reflexivity|].
  split; [vm_compute; reflexivity|].
  split; [vm_compute; reflexivity|].
  split; [vm_compute; reflexivity|].
  apply (ledger_books_balance 1000000 1).
  eapply reach_fill with (fill := mkFill 1 "sell" 120 2 "e").
  - eapply reach_fill with (fill := mkFill 0 "buy" 100 1 "d").
    + apply reach_init.
    + vm_compute. reflexivity.
  - vm_compute. reflexivity.
Defined.

(** The tail of a tail. *)
Lemma last_n_last_n {A} (a b : nat) (l : list A) :
  (a <= b)%nat -> SpreadWindow.last_n a (SpreadWindow.last_n b l) = SpreadWindow.last_n a l.
Proof.
  intro H. unfold SpreadWindow.last_n. rewrite skipn_skipn, length_skipn. f_equal. lia.
Qed.

(** A processed fill keeps the histories within their capacities. *)
Lemma process_fill_histories pm fill pm' :
  histories_bounded pm -> (0 <= total_trades (state pm))%Z ->
  process_fill_market_making pm fill = Ok pm' ->
  histories_bounded pm'.
Proof.
  intros B T H.
  destruct (process_fill_effect _ _ _ H) as [[-> _] | (e & o & E)]; [exact B|].
  cbv zeta in E.
  destruct E as (_ & _ & _ & _ & _ & _ & _ & _ & _ & Ht & _ & _ & _ & _ & _ & _
                 & Hh & Hr & Hp).
  destruct B as (B1 & B2 & B3 & B4 & B5).
  unfold histories_bounded. rewrite Hh, Hr, Hp, Ht.
  rewrite !deque_append_last_n.
  split; [rewrite last_n_length; lia|].
  split; [rewrite last_n_length; lia|].
  split; [exact B3|].
  split.
  - rewrite B4.
    change (skipn (length (fills_history pm) - 10) (fills_history pm))
      with (SpreadWindow.last_n 10 (fills_history pm)).
    rewrite last_n_snoc.
    change (skipn (length (SpreadWindow.last_n 1000 (fills_history pm ++ [fill])) - 10)
                  (SpreadWindow.last_n 1000 (fills_history pm ++ [fill])))
      with (SpreadWindow.last_n 10 (SpreadWindow.last_n 1000 (fills_history pm ++ [fill]))).
    rewrite last_n_last_n by lia. reflexivity.
  - rewrite last_n_length, length_app, B5. cbn [length]. lia.
Qed.

(** A mark keeps the histories within their capacities. *)
Lemma mark_histories pm (fair : Q) :
  histories_bounded pm -> histories_bounded (update_nav_and_pnl pm fair).
Proof.
  intros (B1 & B2 & B3 & B4 & B5).
  unfold histories_bounded, update_nav_and_pnl.
  cbn [fills_history recent_fills pnl_history state total_trades].
  repeat split; try assumption.
  match goal with
  | |- context [if (1000 <? length ?l)%nat then _ else _] =>
      assert (X : length l = S (length (pnl_history pm)))
        by (rewrite length_app; cbn [length]; lia);
      destruct (1000 <? length l)%nat eqn:E;
      [destruct l; cbn [tl length] in *; lia|]
  end.
  apply Nat.ltb_ge in E. exact E.
Qed.

(** Every reached ledger has bounded histories. *)
Lemma reachable_histories (initial_usd max_inv : Q) pm :
  reachable initial_usd max_inv pm -> histories_bounded pm.
Proof.
  induction 1 as [|pm fill pm' R IH E|pm tr bid ask bs az t1 t2 pm' f R IH E
                  |pm fair R IH].
  - unfold histories_bounded, init. cbn. repeat split; lia.
  - pose proof (reachable_books _ _ _ R) as (_ & _ & _ & _ & _ & T).
    eapply process_fill_histories; eauto.
  - pose proof (reachable_books _ _ _ R) as (_ & _ & _ & _ & _ & T).
    eapply (simulate_fill_keeps histories_bounded); eauto.
    intros; eapply process_fill_histories; eauto.
  - apply mark_histories. exact IH.
Qed.

(** X13.  In every reached ledger the fill history holds at most 1000
    fills, the recent fills at most 10, the history of totals at most 1000
    entries; the recent fills are the last ten of the fill history; and the
    fill history holds min(1000, total_trades) fills. *)
Theorem ledger_histories_bounded (initial_usd max_inv : Q) pm :
  reachable initial_usd max_inv pm ->
  (length (fills_history pm) <= 1000)%nat
  /\ (length (recent_fills pm) <= 10)%nat
  /\ (length (pnl_history pm) <= 1000)%nat
  /\ recent_fills pm
     = skipn (length (fills_history pm) - 10) (fills_history pm)
  /\ length (fills_history pm)
     = Nat.min 1000 (Z.to_nat (total_trades (state pm))).
Proof.
  intro R. exact (reachable_histories _ _ _ R).
Qed.


(** Two fills and a mark: two fills in both histories, one total. *)
Lemma ledger_histories_bounded_witness :
  exists pm1 pm2,
    process_fill_market_making (init 1000000 1) (mkFill 0 "buy" 100 1 "d")
      = Ok pm1
    /\ process_fill_market_making pm1 (mkFill 1 "sell" 120 2 "e") = Ok pm2
    /\ length (fills_history (update_nav_and_pnl pm2 110)) = 2%nat
    /\ length (pnl_history (update_nav_and_pnl pm2 110)) = 1%nat
    /\ ((length (fills_history (update_nav_and_pnl pm2 110)) <= 1000)%nat
        /\ (length (recent_fills (update_nav_and_pnl pm2 110)) <= 10)%nat
        /\ (length (pnl_history (update_nav_and_pnl pm2 110)) <= 1000)%nat
        /\ recent_fills (update_nav_and_pnl pm2 110)
           = skipn (length (fills_history (update_nav_and_pnl pm2 110)) - 10)
                   (fills_history (update_nav_and_pnl pm2 110))
        /\ length (fills_history (update_nav_and_pnl pm2 110))
           = Nat.min 1000
               (Z.to_nat (total_trades (state (update_nav_and_pnl pm2 110))))).
Proof.
  eexists. eexists.
  split; [vm_compute; reflexivity|].
  split; [vm_compute; reflexivity|].
  split; [vm_compute; reflexivity|].
  split; [vm_compute; reflexivity|].
  apply (ledger_histories_bounded 1000000 1).
  apply reach_mark.
  eapply reach_fill with (fill := mkFill 1 "sell" 120 2 "e").
  - eapply reach_fill with (fill := mkFill 0 "buy" 100 1 "d").
    + apply reach_init.
    + vm_compute. reflexivity.
  - vm_compute. reflexivity.
Defined.

(** A fill that leaves the ledger flat resets the average entry price. *)
Lemma process_fill_flat pm fill pm' :
  (q (state pm) == 0 -> avg_entry_price (state pm) == 0) ->
  process_fill_market_making pm fill = Ok pm' ->
  q (state pm') == 0 -> avg_entry_price (state pm') == 0.
Proof.
  intros B H.
  destruct (process_fill_effect _ _ _ H) as [[-> _] | (e & o & E)]; [exact B|].
  cbv zeta in E.
  destruct E as (He & Hq & Ee & _ & _ & _ & _ & _ & _ & _ & _ & _ & Hu & Ha & _).
  intro Z. rewrite Ha. clear Ha.
  unfold _update_avg_entry_price_on_fill in Hu.
  assert (L : leb e 0 = false) by (apply leb_false; exact He).
  rewrite L in Hu.
  destruct (String.eqb (fill_side fill) "buy").
  - destruct (geb (q (state pm)) 0) eqn:G; cmp_props.
    + exfalso. rewrite Ee in He. lra.
    + destruct (ltb (q (state pm')) 0) eqn:G1; cmp_props; [lra|].
      destruct (eqb (q (state pm')) 0) eqn:G2; cmp_props.
      * inversion Hu; subst. reflexivity.
      * contradiction.
  - destruct (leb (q (state pm)) 0) eqn:G; cmp_props.
    + exfalso. rewrite Ee in He. lra.
    + destruct (gtb (q (state pm')) 0) eqn:G1; cmp_props; [lra|].
      destruct (eqb (q (state pm')) 0) eqn:G2; cmp_props.
      * inversion Hu; subst. reflexivity.
      * contradiction.
Qed.

(** A reached ledger with no position has average entry
    price zero. *)
Theorem flat_ledger_has_no_entry_price (initial_usd max_inv : Q) pm :
  reachable initial_usd max_inv pm ->
  q (state pm) == 0 -> avg_entry_price (state pm) == 0.
Proof.
  induction 1 as [|pm fill pm' R IH E|pm tr bid ask bs az t1 t2 pm' f R IH E
                  |pm fair R IH].
  - intros _. reflexivity.
  - eapply process_fill_flat; eauto.
  - eapply (simulate_fill_keeps
              (fun pm => q (state pm) == 0 -> avg_entry_price (state pm) == 0));
      eauto.
    intros; eapply process_fill_flat; eauto.
  - exact IH.
Qed.

(** A buy of 1 at 100 closed by a sell of 1 at 120: flat, no entry price. *)
Lemma flat_ledger_has_no_entry_price_witness :
  exists pm1 pm2,
    process_fill_market_making (init 1000000 5) (mkFill 0 "buy" 100 1 "d")
      = Ok pm1
    /\ avg_entry_price (state pm1) == 100
    /\ process_fill_market_making pm1 (mkFill 1 "sell" 120 1 "e") = Ok pm2
    /\ q (state pm2) == 0
    /\ avg_entry_price (state pm2) == 0.
Proof.
  eexists. eexists.
  split; [vm_compute; reflexivity|].
  split; [vm_compute; reflexivity|].
  split; [vm_compute; reflexivity|].
  split; [vm_compute; reflexivity|].
  apply (flat_ledger_has_no_entry_price 1000000 5).
  - eapply reach_fill with (fill := mkFill 1 "sell" 120 1 "e").
    + eapply reach_fill with (fill := mkFill 0 "buy" 100 1 "d").
      * apply reach_init.
      * vm_compute. reflexivity.
    + vm_compute. reflexivity.
  - vm_compute. reflexivity.
Defined.

(** A fill trades cash for coins at its own price: cash plus
    position valued at the fill price is the same before and after, also
    when the fill is clipped or refused. *)
Theorem fill_keeps_value_at_fill_price pm fill pm' :
  process_fill_market_making pm fill = Ok pm' ->
  cash (state pm') + q (state pm') * fill_price fill
  == cash (state pm) + q (state pm) * fill_price fill.
Proof.
  intro H.
  destruct (process_fill_cases _ _ _ H)
    as [-> | (_ & _ & [(_ & _ & _ & Hc) | (_ & _ & _ & Hc)])].
  - reflexivity.
  - rewrite Hc. lra.
  - rewrite Hc. lra.
Qed.


(** A sell of 2 at 120 from a long of 1 under cap 1, clipped to -1. *)
Lemma fill_keeps_value_at_fill_price_witness :
  exists pm',
    process_fill_market_making
      (with_state (init 1000000 1)
                  (set_q_cash (state (init 1000000 1)) 1 (- (100))))
      (mkFill 1 "sell" 120 2 "e") = Ok pm'
    /\ q (state pm') == - (1)
    /\ cash (state pm') + q (state pm') * 120 == - (100) + 1 * 120.
Proof.
  eexists.
  split; [vm_compute; reflexivity|].
  split; [vm_compute; reflexivity|].
  apply (fill_keeps_value_at_fill_price
           (with_state (init 1000000 1)
                       (set_q_cash (state (init 1000000 1)) 1 (- (100))))
           (mkFill 1 "sell" 120 2 "e")).
  vm_compute. reflexivity.
Defined.

(** One case of the rules of the average entry price. *)
Ltac avg_case :=
  first [ intros [[? ?]|[? ?]]; first [lra | reflexivity]
        | intros; first [lra | reflexivity | contradiction] ].

(** X14.  The average entry price after a processed fill that moved
    the position from q0 to q1 at price p: opening or reinforcing, it is
    the size-weighted mean of the old average and p; reducing without
    reaching zero, it is unchanged; reducing exactly to zero, it is 0;
    through zero, it is p. *)
Theorem average_entry_rules pm fill pm' :
  process_fill_market_making pm fill = Ok pm' ->
  let q0 := q (state pm) in
  let q1 := q (state pm') in
  let a0 := avg_entry_price (state pm) in
  let a1 := avg_entry_price (state pm') in
  let p := fill_price fill in
  ((0 <= q0 /\ q0 < q1) \/ (q1 < q0 /\ q0 <= 0) ->
   a1 * Qabs q1 == a0 * Qabs q0 + p * Qabs (q1 - q0))
  /\ ((q0 < q1 /\ q1 < 0) \/ (0 < q1 /\ q1 < q0) -> a1 = a0)
  /\ (~ q0 == 0 -> q1 == 0 -> a1 == 0)
  /\ ((q0 < 0 /\ 0 < q1) \/ (q1 < 0 /\ 0 < q0) -> a1 = p).
Proof.
  intros H.
  destruct (process_fill_effect _ _ _ H) as [[-> _] | (e & o & E)].
  { cbv zeta. split; [|split; [|split]]; avg_case. }
  cbv zeta in E |- *.
  destruct E as (He & Hq & Ee & _ & _ & _ & _ & _ & _ & _ & _ & _ & Hu & Ha & _).
  rewrite Ha. clear Ha Hq.
  unfold _update_avg_entry_price_on_fill in Hu.
  assert (L : leb e 0 = false) by (apply leb_false; exact He).
  rewrite L in Hu.
  set (q0 := q (state pm)) in *. set (q1 := q (state pm')) in *.
  set (a0 := avg_entry_price (state pm)) in *.
  set (p := fill_price fill) in *.
  clearbody q0 q1 a0 p.
  destruct (String.eqb (fill_side fill) "buy"); subst e.
  - destruct (geb q0 0) eqn:G; cmp_props.
    + assert (G2 : gtb (q0 + (q1 - q0)) 0 = true) by (apply gtb_true; lra).
      rewrite G2 in Hu. rewrite truediv_ok in Hu by lra. cbn [bind] in Hu.
      inversion Hu; subst o; clear Hu.
      split; [|split; [|split]].
      * intros _.
        assert (A1 : Qabs q1 == q1) by (apply Qabs_pos; lra).
        assert (A0 : Qabs q0 == q0) by (apply Qabs_pos; lra).
        assert (A2 : Qabs (q1 - q0) == q1 - q0) by (apply Qabs_pos; lra).
        rewrite A1, A0, A2. field. lra.
      * avg_case.
      * avg_case.
      * avg_case.
    + destruct (ltb q1 0) eqn:G1; cmp_props.
      * inversion Hu; subst o. split; [|split; [|split]]; avg_case.
      * destruct (eqb q1 0) eqn:G2; cmp_props; inversion Hu; subst o;
          (split; [|split; [|split]]); avg_case.
  - destruct (leb q0 0) eqn:G; cmp_props.
    + assert (G2 : gtb (- q0 + (q0 - q1)) 0 = true) by (apply gtb_true; lra).
      rewrite G2 in Hu. rewrite truediv_ok in Hu by lra. cbn [bind] in Hu.
      inversion Hu; subst o; clear Hu.
      split; [|split; [|split]].
      * intros _.
        assert (A1 : Qabs q1 == - q1) by (apply Qabs_neg; lra).
        assert (A0 : Qabs q0 == - q0) by (apply Qabs_neg; lra).
        assert (A2 : Qabs (q1 - q0) == - (q1 - q0)) by (apply Qabs_neg; lra).
        rewrite A1, A0, A2. field. lra.
      * avg_case.
      * avg_case.
      * avg_case.
    + destruct (gtb q1 0) eqn:G1; cmp_props.
      * inversion Hu; subst o. split; [|split; [|split]]; avg_case.
      * destruct (eqb q1 0) eqn:G2; cmp_props; inversion Hu; subst o;
          (split; [|split; [|split]]); avg_case.
Qed.

(** Long 1 at average 100, a further buy of 1 at 120 under cap 5: the
    average becomes 110. *)
Lemma average_entry_rules_witness :
  exists pm1 pm2,
    process_fill_market_making (init 1000000 5) (mkFill 0 "buy" 100 1 "d")
      = Ok pm1
    /\ process_fill_market_making pm1 (mkFill 1 "buy" 120 1 "e") = Ok pm2
    /\ q (state pm1) == 1 /\ q (state pm2) == 2
    /\ avg_entry_price (state pm2) * Qabs (q (state pm2))
       == avg_entry_price (state pm1) * Qabs (q (state pm1))
          + 120 * Qabs (q (state pm2) - q (state pm1)).
Proof.
  eexists. eexists.
  split; [vm_compute; reflexivity|].
  split; [vm_compute; reflexivity|].
  split; [vm_compute; reflexivity|].
  split; [vm_compute; reflexivity|].
  match goal with
  | |- context [avg_entry_price (state ?p2) * Qabs (q (state ?p2))
                == avg_entry_price (state ?p1) * _ + _] =>
      pose proof (average_entry_rules p1 (mkFill 1 "buy" 120 1 "e") p2) as R
  end.
  cbv zeta in R. apply R.
  - vm_compute. reflexivity.
  - left. split; vm_compute; [discriminate|reflexivity].
Defined.

(** The element appended to a bounded deque is its last. *)
Lemma deque_append_snoc {A} (w : nat) (d : list A) (x : A) :
  (0 < w)%nat -> exists h, deque_append w d x = h ++ [x].
Proof.
  intro Hw. unfold deque_append.
  assert (L : length (d ++ [x]) = S (length d))
    by (rewrite length_app; simpl; lia).
  rewrite L.
  assert (S (length d) - w <= length d)%nat by lia.
  rewrite skipn_app.
  replace (S (length d) - w - length d)%nat with 0%nat by lia.
  simpl. eexists; reflexivity.
Qed.

(** What a simulated trade that fills does to the ledger. *)
Lemma simulated_fill_effect pm tr bid ask
    (bid_size ask_size t1 t2 : Q) pm' f :
  simulate_fill_from_trade pm tr bid ask bid_size ask_size t1 t2
    = Ok (pm', Some f) ->
  0 < fill_size f
  /\ fill_size f <= trade_size tr
  /\ (fill_side f = "buy"%string ->
        fill_size f <= bid_size
        /\ q (state pm') == q (state pm) + fill_size f
        /\ cash (state pm') == cash (state pm) - fill_size f * fill_price f)
  /\ (fill_side f <> "buy"%string ->
        fill_size f <= ask_size
        /\ q (state pm') == q (state pm) - fill_size f
        /\ cash (state pm') == cash (state pm) + fill_size f * fill_price f)
  /\ (exists h, fills_history pm' = h ++ [f]).
Proof.
  intros H. unfold simulate_fill_from_trade in H.
  pose proof (candidate_fill_spec pm tr bid ask bid_size ask_size t1 t2) as C.
  destruct (candidate_fill pm tr bid ask bid_size ask_size t1 t2) as [f0|];
    [|discriminate].
  destruct (process_fill_market_making pm f0) as [pm1|] eqn:E; cbn [bind] in H;
    [|discriminate].
  inversion H; subst pm1 f0; clear H.
  assert (Hsz : 0 < fill_size f /\ fill_size f <= trade_size tr
                /\ (fill_side f = "buy"%string ->
                    fill_size f <= bid_size
                    /\ fill_size f <= max_inventory pm - q (state pm))
                /\ (fill_side f <> "buy"%string ->
                    fill_size f <= ask_size
                    /\ fill_size f <= q (state pm) - min_inventory pm)).
  { destruct C as [(S & _ & _ & Hs & Hp) | (S & _ & _ & Hs & Hp)];
      rewrite Hs; rewrite S.
    - unfold clipped_buy_size in *. revert Hp. name_minmax. intro Hp.
      repeat split; try lra; intro; try congruence; split; lra.
    - unfold clipped_sell_size in *. revert Hp. name_minmax. intro Hp.
      repeat split; try lra; intro; try congruence; split; lra. }
  destruct Hsz as (Hpos & Htr & Hb & Hs).
  destruct (process_fill_effect _ _ _ E) as [[-> Hle] | (e & o & X)].
  - exfalso. destruct (String.eqb (fill_side f) "buy") eqn:S.
    + apply String.eqb_eq in S. destruct (Hb S) as [_ Hroom].
      revert Hle. name_minmax. lra.
    + apply String.eqb_neq in S. destruct (Hs S) as [_ Hroom].
      revert Hle. name_minmax. lra.
  - cbv zeta in X.
    destruct X as (He & Hq & Ee & Hc & _ & _ & _ & _ & _ & _ & _ & _ & _ & _
                   & _ & _ & Hh & _).
    split; [exact Hpos|]. split; [exact Htr|].
    split; [|split].
    + intro S. destruct (Hb S) as [Hbs Hroom]. split; [exact Hbs|].
      rewrite (proj2 (String.eqb_eq _ _) S) in *.
      assert (Q1 : q (state pm') == q (state pm) + fill_size f).
      { rewrite Hq. name_minmax. lra. }
      split; [exact Q1|]. rewrite Hc, Ee, Q1. ring.
    + intro S. destruct (Hs S) as [Has Hroom]. split; [exact Has|].
      rewrite (proj2 (String.eqb_neq _ _) S) in *.
      assert (Q1 : q (state pm') == q (state pm) - fill_size f).
      { rewrite Hq. name_minmax. lra. }
      split; [exact Q1|]. rewrite Hc, Ee, Q1. ring.
    + rewrite Hh. apply deque_append_snoc. lia.
Qed.

(** X15.  The fill a simulated trade returns is executed in full: its
    size is positive and at most the trade's and the quote's size, the
    position moves by exactly that size, the cash by size times the fill
    price, and the fill is the newest entry of the fill history. *)
Theorem simulated_fill_is_executed_in_full pm tr bid ask
    (bid_size ask_size t1 t2 : Q) pm' f :
  simulate_fill_from_trade pm tr bid ask bid_size ask_size t1 t2
    = Ok (pm', Some f) ->
  0 < fill_size f
  /\ fill_size f <= trade_size tr
  /\ (fill_side f = "buy"%string ->
        fill_size f <= bid_size
        /\ q (state pm') == q (state pm) + fill_size f
        /\ cash (state pm') == cash (state pm) - fill_size f * fill_price f)
  /\ (fill_side f <> "buy"%string ->
        fill_size f <= ask_size
        /\ q (state pm') == q (state pm) - fill_size f
        /\ cash (state pm') == cash (state pm) + fill_size f * fill_price f)
  /\ (exists h, fills_history pm' = h ++ [f]).
Proof.
  exact (simulated_fill_effect pm tr bid ask bid_size ask_size t1 t2 pm' f).
Qed.

(** Long 1 under cap 1, ask 2 at 120 lifted by a buy of 2: the fill is 2 and
    the position goes to -1. *)
Lemma simulated_fill_is_executed_in_full_witness :
  exists pm' f,
    simulate_fill_from_trade
      (with_state (init 1000000 1)
                  (set_q_cash (state (init 1000000 1)) 1 (- (100))))
      (mkTrade 0 120 2 "buy") (Some 119) (Some 120) 2 2 0 0
    = Ok (pm', Some f)
    /\ fill_size f == 2
    /\ q (state pm') == 1 - fill_size f.
Proof.
  eexists. eexists.
  split; [vm_compute; reflexivity|].
  split; [vm_compute; reflexivity|].
  match goal with
  | |- q (state ?p) == 1 - fill_size ?f =>
      destruct (simulated_fill_is_executed_in_full
                  (with_state (init 1000000 1)
                     (set_q_cash (state (init 1000000 1)) 1 (- (100))))
                  (mkTrade 0 120 2 "buy") (Some 119) (Some 120) 2 2 0 0 p f)
        as (_ & _ & _ & Hs & _)
  end.
  - vm_compute. reflexivity.
  - apply Hs. discriminate.
Defined.

End LedgerProps.

(* ================================================================== *)
(** * portfolio.py: the risk, metrics and health reports *)

Module ReportProps.

Import Py PyFacts Models Portfolio PortfolioProps Reports SpreadBounds.
Import LedgerProps.

(** The utilization with a non-zero cap. *)
Lemma utilization_ok pm :
  ~ max_inventory pm == 0 ->
  inventory_utilization pm
  = Ok (Qabs (q (state pm)) / max_inventory pm * 100).
Proof.
  intro H. unfold inventory_utilization. rewrite truediv_ok by exact H.
  reflexivity.
Qed.

(** The utilization with a zero cap. *)
Lemma utilization_zero_cap pm :
  max_inventory pm == 0 -> inventory_utilization pm = Raise ZeroDivisionError.
Proof.
  intro H. unfold inventory_utilization. rewrite truediv_zero by exact H.
  reflexivity.
Qed.

(** A mark does not touch the cap. *)
Lemma mark_keeps_cap pm p :
  max_inventory (update_nav_and_pnl pm p) = max_inventory pm.
Proof. reflexivity. Qed.

(** X16.  On a ledger whose cap is zero the risk metrics, the
    market-making metrics, the health score, the recommendations, the
    health check and the detailed summary all raise ZeroDivisionError; on
    a ledger with any other cap they all return. *)
Theorem reports_raise_iff_zero_cap pm (price : Q) (mark : option Q) :
  (max_inventory pm == 0 ->
     get_risk_metrics pm price = Raise ZeroDivisionError
     /\ get_market_making_metrics pm = Raise ZeroDivisionError
     /\ _calculate_mm_health_score pm = Raise ZeroDivisionError
     /\ _get_mm_recommendations pm = Raise ZeroDivisionError
     /\ get_portfolio_health_check pm price = Raise ZeroDivisionError
     /\ get_detailed_portfolio_summary pm mark = Raise ZeroDivisionError)
  /\ (~ max_inventory pm == 0 ->
     (exists r, get_risk_metrics pm price = Ok r)
     /\ (exists r, get_market_making_metrics pm = Ok r)
     /\ (exists r, _calculate_mm_health_score pm = Ok r)
     /\ (exists r, _get_mm_recommendations pm = Ok r)
     /\ (exists r, get_portfolio_health_check pm price = Ok r)
     /\ (exists r, get_detailed_portfolio_summary pm mark = Ok r)).
Proof.
  split; intro H.
  - assert (Hm : inventory_utilization (update_nav_and_pnl pm price)
                 = Raise ZeroDivisionError)
      by (apply utilization_zero_cap; exact H).
    unfold get_risk_metrics, get_market_making_metrics,
      _calculate_mm_health_score, _get_mm_recommendations,
      get_portfolio_health_check, get_detailed_portfolio_summary.
    cbv zeta. rewrite Hm, (utilization_zero_cap pm H). cbn [bind].
    repeat split.
    destruct mark as [p|]; rewrite get_portfolio_summary_zero_cap;
      try reflexivity; exact H.
  - assert (Hm : forall p, inventory_utilization (update_nav_and_pnl pm p)
                 = Ok (Qabs (q (state (update_nav_and_pnl pm p)))
                       / max_inventory pm * 100))
      by (intro p; apply (utilization_ok (update_nav_and_pnl pm p)); exact H).
    unfold get_risk_metrics, get_market_making_metrics,
      _calculate_mm_health_score, _get_mm_recommendations,
      get_portfolio_health_check, get_detailed_portfolio_summary.
    cbv zeta. rewrite Hm, (utilization_ok pm H). cbn [bind].
    unfold _calculate_mm_health_score, _get_mm_recommendations.
    cbv zeta. rewrite Hm. cbn [bind].
    split; [eexists; reflexivity|]. split; [eexists; reflexivity|].
    split; [eexists; reflexivity|]. split; [eexists; reflexivity|].
    split.
    + repeat match goal with
             | |- context [let '(_, _) := ?x in _] => destruct x
             | |- context [if ?c then _ else _] => destruct c
             end; eexists; reflexivity.
    + destruct mark as [p|];
        unfold get_portfolio_summary, get_market_making_metrics; cbv zeta.
      * rewrite truediv_ok by exact H. cbn [bind]. rewrite Hm. cbn [bind].
        eexists; reflexivity.
      * rewrite truediv_ok by exact H. cbn [bind].
        rewrite (utilization_ok pm H). cbn [bind]. eexists; reflexivity.
Qed.

(** The ledger built with cap 0, and the default ledger with cap 5. *)
Lemma reports_raise_iff_zero_cap_witness :
  get_portfolio_health_check (init 1000000 0) 100 = Raise ZeroDivisionError
  /\ get_risk_metrics (init 1000000 0) 100 = Raise ZeroDivisionError
  /\ exists r, get_portfolio_health_check (init 1000000 5) 100 = Ok r.
Proof.
  destruct (reports_raise_iff_zero_cap (init 1000000 0) 100 None) as [Hz _].
  destruct (reports_raise_iff_zero_cap (init 1000000 5) 100 None) as [_ Hn].
  destruct Hz as (H1 & _ & _ & _ & H5 & _); [vm_compute; reflexivity|].
  destruct Hn as (_ & _ & _ & _ & H5' & _); [vm_compute; discriminate|].
  split; [exact H5|]. split; [exact H1|]. exact H5'.
Defined.

(** X17.  The health score, when it is returned, lies between 45 and
    100, and it is 100 exactly when the inventory utilization is at most
    60 and the marked total is at least -10000. *)
Theorem health_score_range pm score :
  _calculate_mm_health_score pm = Ok score ->
  45 <= score <= 100
  /\ (score == 100 <->
      Qabs (q (state pm)) / max_inventory pm * 100 <= 60
      /\ - (10000) <= pnl (state pm)).
Proof.
  unfold _calculate_mm_health_score. cbv zeta.
  destruct (Qeq_dec (max_inventory pm) 0) as [Z|NZ].
  - rewrite (utilization_zero_cap pm Z). discriminate.
  - rewrite (utilization_ok pm NZ). cbn [bind].
    set (u := Qabs (q (state pm)) / max_inventory pm * 100).
    set (p := pnl (state pm)). clearbody u p.
    intro H; inversion H; subst score; clear H.
    assert (Hd : p / 10000 == p * (1 # 10000)) by (field).
    destruct (gtb u 80) eqn:U1; [|destruct (gtb u 60) eqn:U2];
    (destruct (ltb p (- (50000))) eqn:P1; [|destruct (ltb p (- (10000))) eqn:P2]);
    destruct (gtb p 0) eqn:P3; cmp_props; try lra;
    name_minmax; split; try split; try split; intros; try lra.
Qed.

(** Position 4.5 of cap 5 (utilization 90) with a total of -60000: both
    penalties, score 45. *)
Lemma health_score_range_witness :
  exists score,
    _calculate_mm_health_score
      (with_state (init 1000000 5)
         (mkState 4.5 0 0 (- (60000)) 0 0 0 0 0 0 0 0 0 0%Z))
    = Ok score
    /\ score == 45
    /\ 45 <= score <= 100.
Proof.
  eexists.
  split; [vm_compute; reflexivity|].
  split; [vm_compute; reflexivity|].
  apply (health_score_range
           (with_state (init 1000000 5)
              (mkState 4.5 0 0 (- (60000)) 0 0 0 0 0 0 0 0 0 0%Z))).
  vm_compute. reflexivity.
Defined.

(** X18.  The health check marks the ledger at the given price and
    reports on the marked ledger: the risk level is HIGH exactly when the
    utilization exceeds 80 or the marked total is below -50000, LOW
    exactly when the utilization is at most 60 and the marked total at
    least -10000, and MEDIUM otherwise; it is LOW exactly when there is no
    alert, and exactly when the health score is 100; there are at most two
    alerts. *)
Theorem health_check_risk_level pm (price : Q) pm' hc :
  get_portfolio_health_check pm price = Ok (pm', hc) ->
  let util := Qabs (q (state pm)) / max_inventory pm * 100 in
  let marked := cash (state pm) + q (state pm) * price in
  pm' = update_nav_and_pnl pm price
  /\ (risk_level hc = "HIGH"%string <-> (80 < util \/ marked < - (50000)))
  /\ (risk_level hc = "LOW"%string <->
      (util <= 60 /\ - (10000) <= marked))
  /\ (risk_level hc = "LOW"%string <-> alerts hc = [])
  /\ (risk_level hc = "LOW"%string <-> health_score hc == 100)
  /\ (risk_level hc = "HIGH"%string \/ risk_level hc = "MEDIUM"%string
      \/ risk_level hc = "LOW"%string)
  /\ (length (alerts hc) <= 2)%nat.
Proof.
  unfold get_portfolio_health_check. cbv zeta.
  destruct (Qeq_dec (max_inventory pm) 0) as [Z|NZ].
  - rewrite (utilization_zero_cap (update_nav_and_pnl pm price) Z). discriminate.
  - rewrite (utilization_ok (update_nav_and_pnl pm price) NZ). cbn [bind].
    destruct (_calculate_mm_health_score (update_nav_and_pnl pm price))
      as [score|] eqn:Es.
    2:{ destruct (gtb _ 80); [|destruct (gtb _ 60)];
        (destruct (ltb _ (- (50000))); [|destruct (ltb _ (- (10000)))]);
        discriminate. }
    destruct (health_score_range _ _ Es) as [_ Hs].
    destruct (_get_mm_recommendations (update_nav_and_pnl pm price))
      as [recs|] eqn:Er.
    2:{ destruct (gtb _ 80); [|destruct (gtb _ 60)];
        (destruct (ltb _ (- (50000))); [|destruct (ltb _ (- (10000)))]);
        discriminate. }
    change (max_inventory (update_nav_and_pnl pm price))
      with (max_inventory pm) in *.
    change (q (state (update_nav_and_pnl pm price))) with (q (state pm)) in *.
    change (pnl (state (update_nav_and_pnl pm price)))
      with (cash (state pm) + q (state pm) * price) in *.
    set (u := Qabs (q (state pm)) / max_inventory pm * 100) in *.
    set (p := cash (state pm) + q (state pm) * price) in *.
    clearbody u p.
    destruct (gtb u 80) eqn:U1; [|destruct (gtb u 60) eqn:U2];
    (destruct (ltb p (- (50000))) eqn:P1; [|destruct (ltb p (- (10000))) eqn:P2]);
    cbn [bind String.eqb Ascii.eqb Bool.eqb app];
    intro H; inversion H; subst pm' hc; clear H;
    cbn [risk_level alerts health_score length app]; cmp_props;
    (split; [reflexivity|]);
    repeat match goal with
    | |- _ /\ _ => split
    | |- _ <-> _ => split; intro
    end;
    try discriminate; try reflexivity; try lia; try lra; auto;
    try (exfalso; tauto);
    try (match goal with Hx : _ == 100 |- _ => apply Hs in Hx end; lra);
    try (apply Hs; lra).
Qed.

(** Position 4 of cap 5 bought for 500000 and marked at 100000: the
    utilization is 80, not above it, and the total is -100000. *)
Lemma health_check_risk_level_witness :
  exists pm' hc,
    get_portfolio_health_check
      (with_state (init 1000000 5)
         (set_q_cash (state (init 1000000 5)) 4 (- (500000))))
      100000
    = Ok (pm', hc)
    /\ risk_level hc = "HIGH"%string
    /\ length (alerts hc) = 2%nat
    /\ (risk_level hc = "HIGH"%string <->
        (80 < Qabs 4 / 5 * 100 \/ - (500000) + 4 * 100000 < - (50000))).
Proof.
  eexists. eexists.
  split; [vm_compute; reflexivity|].
  split; [vm_compute; reflexivity|].
  split; [vm_compute; reflexivity|].
  match goal with
  | |- risk_level ?hc = _ <-> _ =>
      destruct (health_check_risk_level
                  (with_state (init 1000000 5)
                     (set_q_cash (state (init 1000000 5)) 4 (- (500000))))
                  100000
                  (update_nav_and_pnl
                     (with_state (init 1000000 5)
                        (set_q_cash (state (init 1000000 5)) 4 (- (500000))))
                     100000)
                  hc) as (_ & H & _)
  end.
  - vm_compute. reflexivity.
  - exact H.
Defined.

(** Every reached ledger keeps its bounds and its position within them. *)
Lemma reachable_within_cap (initial_usd max_inv : Q) pm :
  0 <= max_inv -> reachable initial_usd max_inv pm -> within_cap max_inv pm.
Proof.
  intros Hcap Hr. induction Hr.
  - unfold within_cap, init. simpl. repeat split; lra.
  - eapply process_fill_within_cap; eauto.
  - eapply simulate_fill_within_cap; eauto.
  - destruct IHHr as (A & B & C). repeat split; simpl; tauto.
Qed.

(** X19.  On a ledger reached with a positive cap the risk metrics are
    returned with an inventory utilization between 0 and 100 and a loss
    percentage that is never positive; at a non-negative price the
    notional exposure is between 0 and cap times price. *)
Theorem risk_metrics_bounded (initial_usd max_inv : Q) pm (price : Q) :
  0 < max_inv ->
  reachable initial_usd max_inv pm ->
  exists r,
    get_risk_metrics pm price = Ok r
    /\ 0 <= rm_inventory_utilization r <= 100
    /\ rm_loss_pct r <= 0
    /\ (0 <= price ->
        0 <= rm_notional_exposure r <= max_inv * price
        /\ rm_max_exposure_pct r * 10000 <= max_inv * price).
Proof.
  intros Hcap Hr.
  destruct (reachable_within_cap _ _ _ (Qlt_le_weak _ _ Hcap) Hr)
    as (Hm & _ & Hq).
  unfold get_risk_metrics. cbv zeta.
  rewrite utilization_ok by (rewrite Hm; lra). cbn [bind].
  eexists. split; [reflexivity|].
  cbn [rm_inventory_utilization rm_loss_pct rm_notional_exposure
       rm_max_exposure_pct].
  rewrite Hm.
  assert (Ha : 0 <= Qabs (q (state pm)) <= max_inv).
  { split; [apply Qabs_nonneg|]. apply Qabs_Qle_condition. exact Hq. }
  set (a := Qabs (q (state pm))) in *. clearbody a.
  assert (Hd : a / max_inv * max_inv == a) by (field; lra).
  set (u := a / max_inv) in *. clearbody u.
  split; [|split].
  - split; nra.
  - destruct (ltb (pnl (state pm)) 0) eqn:L; cmp_props; [|lra].
    set (p := pnl (state pm)) in *. clearbody p.
    assert (p / 1000000 == p * (1 # 1000000)) by field. lra.
  - intro Hp.
    assert (E : a * price / 1000000 * 100 * 10000 == a * price) by field.
    rewrite E. split; [split|]; nra.
Qed.

(** Cap 1, long 1 from a buy at 100, seen at price 110: full
    utilization. *)
Lemma risk_metrics_bounded_witness :
  exists pm1 r,
    process_fill_market_making (init 1000000 1) (mkFill 0 "buy" 100 1 "d")
      = Ok pm1
    /\ get_risk_metrics pm1 110 = Ok r
    /\ rm_inventory_utilization r == 100
    /\ 0 <= rm_inventory_utilization r <= 100.
Proof.
  eexists.
  match goal with
  | |- exists r, ?P = Ok ?pm1 /\ _ =>
      assert (E : P = Ok pm1) by (vm_compute; reflexivity)
  end.
  match type of E with
  | _ = Ok ?pm1 =>
      destruct (risk_metrics_bounded 1000000 1 pm1 110) as (r & Er & Hu & _)
  end.
  - vm_compute. reflexivity.
  - eapply reach_fill with (fill := mkFill 0 "buy" 100 1 "d").
    + apply reach_init.
    + exact E.
  - exists r. split; [exact E|]. split; [exact Er|].
    split; [|exact Hu].
    revert Er. vm_compute. intro Er. inversion Er. reflexivity.
Defined.

(** In every reached ledger the marked total is the latest entry of the
    history of totals: fills never touch either. *)
Lemma reachable_pnl_latest (initial_usd max_inv : Q) pm :
  reachable initial_usd max_inv pm -> pnl_is_latest pm.
Proof.
  induction 1 as [|pm fill pm' _ IH E|pm tr bid ask bs az t1 t2 pm' f _ IH E
                  |pm fair _ IH].
  - left. split; reflexivity.
  - destruct (process_fill_effect _ _ _ E) as [[-> _] | (e & o & X)];
      [exact IH|].
    cbv zeta in X.
    destruct X as (_ & _ & _ & _ & _ & _ & _ & _ & _ & _ & _ & Hp & _ & _ & _
                   & _ & _ & _ & Hh).
    unfold pnl_is_latest. rewrite Hp, Hh. exact IH.
  - revert E. apply (simulate_fill_keeps pnl_is_latest); [|exact IH].
    intros f0 pm1 E.
    destruct (process_fill_effect _ _ _ E) as [[-> _] | (e & o & X)];
      [exact IH|].
    cbv zeta in X.
    destruct X as (_ & _ & _ & _ & _ & _ & _ & _ & _ & _ & _ & Hp & _ & _ & _
                   & _ & _ & _ & Hh).
    unfold pnl_is_latest. rewrite Hp, Hh. exact IH.
  - right. unfold update_nav_and_pnl. cbv zeta. cbn [pnl_history pnl state].
    set (x := cash (state pm) + q (state pm) * fair).
    destruct (1000 <? length (pnl_history pm ++ [x]))%nat eqn:T.
    + destruct (pnl_history pm) as [|y ys]; simpl.
      * discriminate T.
      * exists ys. reflexivity.
    + eexists; reflexivity.
Qed.

(** In the market-making metrics of a reached ledger the minimum
    and the maximum of the history of totals bracket every entry of the
    history and the current total; both are 0 when the history is
    empty. *)
Theorem pnl_extremes_bracket_total (initial_usd max_inv : Q) pm m :
  reachable initial_usd max_inv pm ->
  get_market_making_metrics pm = Ok m ->
  mm_min_pnl m <= mm_total_pnl m <= mm_max_pnl m
  /\ Forall (fun x => mm_min_pnl m <= x <= mm_max_pnl m) (pnl_history pm)
  /\ (pnl_history pm = [] -> mm_min_pnl m = 0 /\ mm_max_pnl m = 0).
Proof.
  intros Hr. unfold get_market_making_metrics. cbv zeta.
  destruct (inventory_utilization pm) as [u|]; cbn [bind]; [|discriminate].
  intro H; inversion H; subst m; clear H.
  cbn [mm_min_pnl mm_max_pnl mm_total_pnl].
  assert (F : Forall (fun x => min_or_zero (pnl_history pm) <= x
                               <= max_or_zero (pnl_history pm))
                (pnl_history pm)).
  { destruct (pnl_history pm) as [|y ys]; [constructor|].
    unfold min_or_zero, max_or_zero, Spread.list_min, Spread.list_max.
    destruct (fold_min_le ys y) as [A1 A2].
    destruct (fold_max_ge ys y) as [B1 B2].
    constructor; [split; assumption|].
    rewrite Forall_forall in *. intros x Hx. split; auto. }
  split; [|split; [exact F|]].
  - destruct (reachable_pnl_latest _ _ _ Hr) as [[E P] | [h E]].
    + rewrite E, P. simpl. lra.
    + rewrite Forall_forall in F. apply F. rewrite E.
      apply in_or_app. right. left. reflexivity.
  - intro E. rewrite E. split; reflexivity.
Qed.

(** Long 1 from a buy at 100, marked at 110 then at 90: totals 10 and
    -10. *)
Lemma pnl_extremes_bracket_total_witness :
  exists pm1 m,
    process_fill_market_making (init 1000000 5) (mkFill 0 "buy" 100 1 "d")
      = Ok pm1
    /\ get_market_making_metrics
         (update_nav_and_pnl (update_nav_and_pnl pm1 110) 90) = Ok m
    /\ mm_min_pnl m == - (10) /\ mm_max_pnl m == 10
    /\ mm_min_pnl m <= mm_total_pnl m <= mm_max_pnl m.
Proof.
  eexists. eexists.
  split; [vm_compute; reflexivity|].
  split; [vm_compute; reflexivity|].
  split; [vm_compute; reflexivity|].
  split; [vm_compute; reflexivity|].
  match goal with
  | |- mm_min_pnl ?m <= _ <= _ =>
      destruct (pnl_extremes_bracket_total 1000000 5
                  (update_nav_and_pnl
                     (update_nav_and_pnl
                        (record_fill
                           (with_state (init 1000000 5)
                              (set_avg_entry_price
                                 (set_q_cash (state (init 1000000 5)) 1
                                    (- (100))) 100))
                           (mkFill 0 "buy" 100 1 "d") 1) 110) 90) m)
        as (H & _)
  end.
  - apply reach_mark. apply reach_mark.
    eapply reach_fill with (fill := mkFill 0 "buy" 100 1 "d").
    + apply reach_init.
    + vm_compute. reflexivity.
  - vm_compute. reflexivity.
  - exact H.
Defined.

(** Membership in a list of literal strings, by cases. *)
Ltac in_strings :=
  repeat match goal with
  | H : In _ (_ ++ _) |- _ => apply in_app_or in H; destruct H as [H|H]
  | H : In _ [] |- _ => destruct H
  | H : In _ (_ :: _) |- _ => destruct H as [H|H]; [try discriminate H|]
  end.

(** With a positive cap the recommendations never advise a
    position reduction near the limits without also advising to reduce the
    inventory exposure, never report a buying and a selling bias together,
    report no bias while the fill history holds at most 20 fills, and
    number at most four. *)
Theorem recommendations_consistent pm recs :
  0 < max_inventory pm ->
  _get_mm_recommendations pm = Ok recs ->
  (In "Near inventory limits - consider position reduction"%string recs ->
   In "Reduce inventory exposure - adjust skew"%string recs)
  /\ ~ (In "Buying bias detected - consider tightening bid"%string recs
        /\ In "Selling bias detected - consider tightening ask"%string recs)
  /\ ((length (fills_history pm) <= 20)%nat ->
      ~ In "Buying bias detected - consider tightening bid"%string recs
      /\ ~ In "Selling bias detected - consider tightening ask"%string recs)
  /\ (length recs <= 4)%nat.
Proof.
  intros Hcap. unfold _get_mm_recommendations. cbv zeta.
  rewrite utilization_ok by lra. cbn [bind].
  set (a := Qabs (q (state pm))).
  set (m := max_inventory pm) in *.
  assert (Hd : a / m * m == a) by (field; lra).
  set (u := a / m) in *.
  intro H; inversion H; subst recs; clear H.
  split; [|split; [|split]].
  - destruct (gtb (u * 100) 70) eqn:G1; [intros _; left; reflexivity|].
    destruct (gtb a (m * 0.8)) eqn:G2.
    + exfalso. cmp_props. clearbody a u m. nra.
    + intro Hin. exfalso. cbn [app] in Hin.
      in_strings;
      repeat match goal with
      | H : In _ (if ?c then _ else _) |- _ => destruct c
      end; in_strings.
  - intros [H1 H2]. in_strings;
      repeat match goal with
      | H : In _ (if ?c then _ else _) |- _ => destruct c
      end; in_strings.
  - intro Hl. apply Nat.ltb_ge in Hl. rewrite Hl.
    split; intro Hin; in_strings;
      repeat match goal with
      | H : In _ (if ?c then _ else _) |- _ => destruct c
      end; in_strings.
  - repeat match goal with
    | |- context [if ?c then _ else _] => destruct c
    end; simpl; lia.
Qed.

(** Position 4.5 of cap 5: both inventory recommendations. *)
Lemma recommendations_consistent_witness :
  exists recs,
    _get_mm_recommendations
      (with_state (init 1000000 5)
         (set_q_cash (state (init 1000000 5)) 4.5 0)) = Ok recs
    /\ In "Near inventory limits - consider position reduction"%string recs
    /\ In "Reduce inventory exposure - adjust skew"%string recs.
Proof.
  eexists.
  split; [vm_compute; reflexivity|].
  match goal with
  | |- In _ ?recs /\ _ =>
      destruct (recommendations_consistent
                  (with_state (init 1000000 5)
                     (set_q_cash (state (init 1000000 5)) 4.5 0)) recs)
        as (H & _)
  end.
  - vm_compute. reflexivity.
  - vm_compute. reflexivity.
  - assert (Hn : In "Near inventory limits - consider position reduction"%string
                    ["Reduce inventory exposure - adjust skew"%string;
                     "Near inventory limits - consider position reduction"%string])
      by (right; left; reflexivity).
    split; [exact Hn|]. apply H. exact Hn.
Defined.

End ReportProps.

(* ================================================================== *)
(** * analyze.py: what the reconstruction keeps from row to row *)

Module ReconstructionProps.

Import Py PyFacts Models Analyze AnalyzeProps.

(** The net-buy branch in full: the position, the average cost, the
    realized P&L and what is left of the delta after the cover. *)
Lemma apply_buy_detail (q ac realized dq price : Q) :
  0 < dq ->
  exists q' ac' r' dq',
    apply_buy q ac realized dq price = Ok (q', ac', r', dq')
    /\ q' == q + dq
    /\ (q' == 0 -> ac' == 0)
    /\ (q < 0 -> dq' == Qmax 0 q')
    /\ (0 <= q -> dq' = dq /\ r' = realized)
    /\ (q' <= 0 -> ~ q' == 0 -> ac' = ac)
    /\ (q < 0 -> r' == realized + (ac - price) * Qmin (- q) dq).
Proof.
  intros Hdq. unfold apply_buy.
  destruct (ltb q 0) eqn:Hq.
  - set (c := Qmin (- q) dq).
    assert (Hc : (- q < dq /\ c == - q) \/ (dq <= - q /\ c == dq))
      by apply Q.min_spec.
    clearbody c.
    destruct (eqb (q + c) 0) eqn:Hz;
    destruct (gtb (dq - c) 0) eqn:Hg; cmp_props.
    + assert (Hn : ~ q + c + (dq - c) == 0) by lra.
      assert (Hn' : eqb (q + c + (dq - c)) 0 = false) by (apply eqb_false; exact Hn).
      rewrite Hn'. simpl negb. cbv iota. rewrite truediv_ok by exact Hn. simpl bind.
      do 4 eexists. split; [reflexivity|]. split; [lra|].
      split; [intro; lra|]. split; [intros _; name_minmax; lra|].
      split; [intro; lra|]. split; [intros; lra|]. intros _. reflexivity.
    + do 4 eexists. split; [reflexivity|]. split; [lra|].
      split; [intro; reflexivity|]. split; [intros _; name_minmax; lra|].
      split; [intro; lra|]. split; [intros; lra|]. intros _. reflexivity.
    + exfalso. lra.
    + do 4 eexists. split; [reflexivity|]. split; [lra|].
      split; [intro; lra|]. split; [intros _; name_minmax; lra|].
      split; [intro; lra|]. split; [intros; reflexivity|]. intros _. reflexivity.
  - cmp_props. assert (G : gtb dq 0 = true) by (apply gtb_true; exact Hdq).
    rewrite G.
    assert (Hn : ~ q + dq == 0) by lra.
    assert (Hn' : eqb (q + dq) 0 = false) by (apply eqb_false; exact Hn).
    rewrite Hn'. simpl negb. cbv iota. rewrite truediv_ok by exact Hn. simpl bind.
    do 4 eexists. split; [reflexivity|]. split; [lra|].
    split; [intro; lra|]. split; [intro; lra|].
    split; [intro; split; reflexivity|]. split; [intros; lra|]. intro; lra.
Qed.

(** The net-sell branch in full. *)
Lemma apply_sell_detail (q ac realized dq price : Q) :
  dq < 0 ->
  exists q' ac' r',
    apply_sell q ac realized dq price = Ok (q', ac', r')
    /\ q' == q + dq
    /\ (q' == 0 -> ac' == 0)
    /\ (q <= 0 -> r' = realized)
    /\ (0 <= q' -> ~ q' == 0 -> ac' = ac)
    /\ (0 < q -> r' == realized + (price - ac) * Qmin q (- dq)).
Proof.
  intros Hdq. unfold apply_sell.
  destruct (gtb q 0) eqn:Hq.
  - set (c := Qmin q (- dq)).
    assert (Hc : (q < - dq /\ c == q) \/ (- dq <= q /\ c == - dq))
      by apply Q.min_spec.
    clearbody c.
    destruct (eqb (q - c) 0) eqn:Hz;
    destruct (gtb (- dq - c) 0) eqn:Hg; cmp_props.
    + assert (Hn : ~ - (q - c) + (- dq - c) == 0) by lra.
      assert (Hn' : eqb (- (q - c) + (- dq - c)) 0 = false) by (apply eqb_false; exact Hn).
      rewrite Hn'. simpl negb. cbv iota. rewrite truediv_ok by exact Hn. simpl bind.
      do 3 eexists. split; [reflexivity|]. split; [lra|].
      split; [intro; lra|]. split; [intro; lra|]. split; [intros; lra|].
      intros _. reflexivity.
    + do 3 eexists. split; [reflexivity|]. split; [lra|].
      split; [intro; reflexivity|]. split; [intro; lra|]. split; [intros; lra|].
      intros _. reflexivity.
    + exfalso. lra.
    + do 3 eexists. split; [reflexivity|]. split; [lra|].
      split; [intro; lra|]. split; [intro; lra|].
      split; [intros; reflexivity|]. intros _. reflexivity.
  - cmp_props. assert (G : gtb (- dq) 0 = true) by (apply gtb_true; lra).
    rewrite G.
    assert (Hn : ~ - q + - dq == 0) by lra.
    assert (Hn' : eqb (- q + - dq) 0 = false) by (apply eqb_false; exact Hn).
    rewrite Hn'. simpl negb. cbv iota. rewrite truediv_ok by exact Hn. simpl bind.
    do 3 eexists. split; [reflexivity|]. split; [lra|].
    split; [intro; lra|]. split; [intro; reflexivity|].
    split; [intros; lra|]. intro; lra.
Qed.

(** A delta that is not absorbed and not positive is negative. *)
Lemma abs_tiny_sign (dq : Q) :
  1e-15 <= Qabs dq -> ~ 0 < dq -> dq < 0.
Proof.
  intros T G. pose proof tiny_pos.
  destruct (abs_spec dq) as [[H1 H2]|[H1 H2]]; rewrite H2 in T; lra.
Qed.

(** One iteration on a parseable row, in full. *)
Lemma step_detail mark_col max_inventory st r price psize :
  r_price r = Some price -> r_size r = Some psize ->
  let new_q := clip_position max_inventory (q st + side_sign r * Qabs psize) in
  let dq := new_q - q st in
  exists st' row,
    step mark_col max_inventory st r = Ok (st', Some row)
    /\ o_position row = q st' /\ o_avg_entry_price row = ac st'
    /\ o_cash row = cash st' /\ o_realized_pnl row = realized st'
    /\ o_price row = price
    /\ o_unrealized_pnl row = (o_mark_price row - ac st') * q st'
    /\ o_total_pnl row = realized st' + o_unrealized_pnl row
    /\ ((Qabs dq < 1e-15 /\ st' = st /\ o_size row == 0)
        \/ (1e-15 <= Qabs dq
            /\ q st' == new_q
            /\ cash st' = cash st - dq * price
            /\ (q st' == 0 -> ac st' == 0)
            /\ (0 < dq -> 0 <= q st -> o_size row == dq)
            /\ (0 < dq -> q st < 0 -> o_size row == Qmax 0 (q st'))
            /\ (dq < 0 -> o_size row == - dq)
            /\ (0 < dq -> 0 <= q st -> realized st' = realized st)
            /\ (dq < 0 -> q st <= 0 -> realized st' = realized st)
            /\ (0 < dq -> q st < 0 ->
                realized st' == realized st
                                + (ac st - price) * Qmin (- q st) dq)
            /\ (dq < 0 -> 0 < q st ->
                realized st' == realized st
                                + (price - ac st) * Qmin (q st) (- dq))
            /\ (q st < 0 -> q st' < 0 -> 0 < dq -> ac st' = ac st)
            /\ (0 < q st -> 0 < q st' -> dq < 0 -> ac st' = ac st))).
Proof.
  intros Hp Hs. cbv zeta. unfold step. rewrite Hp, Hs.
  set (dq := clip_position max_inventory (q st + side_sign r * Qabs psize) - q st).
  destruct (ltb (Qabs dq) 1e-15) eqn:T.
  - cmp_props. do 2 eexists. split; [reflexivity|]. cbn.
    repeat (split; [reflexivity|]). left.
    split; [exact T|]. split; reflexivity.
  - cmp_props. pose proof tiny_pos as Tp.
    destruct (gtb dq 0) eqn:G; cmp_props.
    + destruct (apply_buy_detail (q st) (ac st) (realized st) dq price G)
        as (q' & ac' & r' & dq' & E & Hq & Hz & Hd1 & Hd2 & Ha & Hr).
      rewrite E. cbn [bind]. do 2 eexists. split; [reflexivity|].
      cbn [o_position o_avg_entry_price o_cash o_realized_pnl o_price
           o_unrealized_pnl o_total_pnl o_mark_price o_size
           Analyze.q Analyze.ac Analyze.cash Analyze.realized].
      repeat (split; [reflexivity|]). right.
      split; [exact T|]. split; [unfold dq in Hq; lra|].
      split; [reflexivity|]. split; [exact Hz|].
      split.
      { intros _ Hq0. destruct (Hd2 Hq0) as [-> _]. apply Qabs_pos. lra. }
      split.
      { intros _ Hq0. rewrite (Hd1 Hq0). apply Qabs_pos.
        name_minmax. lra. }
      split; [intro; lra|].
      split; [intros _ Hq0; apply (Hd2 Hq0)|].
      split; [intro; lra|].
      split; [intros _ Hq0; apply (Hr Hq0)|].
      split; [intro; lra|].
      split; [intros _ Hq1 _; apply Ha; lra|].
      intros; lra.
    + assert (L : dq < 0) by (apply abs_tiny_sign; [exact T|lra]).
      destruct (apply_sell_detail (q st) (ac st) (realized st) dq price L)
        as (q' & ac' & r' & E & Hq & Hz & Hd & Ha & Hr).
      rewrite E. cbn [bind]. do 2 eexists. split; [reflexivity|].
      cbn [o_position o_avg_entry_price o_cash o_realized_pnl o_price
           o_unrealized_pnl o_total_pnl o_mark_price o_size
           Analyze.q Analyze.ac Analyze.cash Analyze.realized].
      repeat (split; [reflexivity|]). right.
      split; [exact T|]. split; [unfold dq in Hq; lra|].
      split; [reflexivity|]. split; [exact Hz|].
      split; [intro; lra|]. split; [intro; lra|].
      split; [intros _; apply Qabs_neg; lra|].
      split; [intro; lra|].
      split; [intros _ Hq0; apply (Hd Hq0)|].
      split; [intro; lra|].
      split; [intros _ Hq0; apply (Hr Hq0)|].
      split; [intros; lra|].
      intros _ Hq1 _. apply Ha; lra.
Qed.

(** An invariant of the loop variables that one iteration keeps, with what
    it gives for the emitted row, holds for every row of the output. *)
Lemma run_invariant (I : Acc -> Prop) (P : OutRow -> Prop)
    mark_col max_inventory :
  (forall st r st' o,
      I st -> step mark_col max_inventory st r = Ok (st', o) ->
      I st' /\ forall row, o = Some row -> P row) ->
  forall rows st out,
    I st -> run mark_col max_inventory st rows = Ok out -> Forall P out.
Proof.
  intros Hstep. induction rows as [|r rest IH]; intros st out Hi; simpl.
  - intro H; inversion H. constructor.
  - destruct (step mark_col max_inventory st r) as [[st' o]|] eqn:E;
      cbn [bind]; [|discriminate].
    destruct (Hstep _ _ _ _ Hi E) as [Hi' Hrow].
    destruct (run mark_col max_inventory st' rest) as [out'|] eqn:Er;
      cbn [bind]; [|discriminate].
    intro H; inversion H; subst out; clear H.
    pose proof (IH _ _ Hi' Er) as F.
    destruct o as [row|]; [constructor; auto|exact F].
Qed.

(** The same from the start of the reconstruction. *)
Lemma compute_invariant (I : Acc -> Prop) (P : OutRow -> Prop)
    mark_col max_inventory :
  (forall st r st' o,
      I st -> step mark_col max_inventory st r = Ok (st', o) ->
      I st' /\ forall row, o = Some row -> P row) ->
  I acc0 ->
  forall rows out,
    compute_pnl_from_trades rows mark_col max_inventory = Ok out ->
    Forall P out.
Proof.
  intros Hstep H0 rows out. unfold compute_pnl_from_trades.
  destruct rows as [|r0 rest]; [intro H; inversion H; constructor|].
  destruct (sorted_rows (r0 :: rest)) as [rows'|]; cbn [bind]; [|discriminate].
  apply (run_invariant I P _ _ Hstep). exact H0.
Qed.

(** A row with a cell that does not parse is skipped. *)
Lemma step_skip mark_col max_inventory st r st' o :
  parseable r = false ->
  step mark_col max_inventory st r = Ok (st', o) -> st' = st /\ o = None.
Proof.
  unfold parseable, step.
  destruct (r_price r); [destruct (r_size r)|]; try discriminate;
    intros _ H; inversion H; auto.
Qed.

(** The two numbers of a parseable row. *)
Lemma parseable_cells r :
  parseable r = true ->
  exists price psize, r_price r = Some price /\ r_size r = Some psize.
Proof.
  unfold parseable. destruct (r_price r); [destruct (r_size r)|];
    try discriminate; eauto.
Qed.

(** The clip to a positive cap lands within the cap. *)
Lemma clip_in_range (m d : Q) :
  0 < m -> - m <= clip_position (Some m) d <= m.
Proof.
  intro H. unfold clip_position.
  assert (G : gtb m 0 = true) by (apply gtb_true; exact H). rewrite G.
  name_minmax. lra.
Qed.

(** X20.  With a positive inventory cap every row of the reconstruction
    has its position within the cap on both sides, and a size of at most
    twice the cap. *)
Theorem positions_within_cap rows mark_col (m : Q) out :
  0 < m ->
  compute_pnl_from_trades rows mark_col (Some m) = Ok out ->
  Forall (fun row => - m <= o_position row <= m
                     /\ o_size row <= 2 * m) out.
Proof.
  intros Hm.
  apply (compute_invariant (fun st => - m <= q st <= m)).
  - intros st r st' o Hi E.
    destruct (parseable r) eqn:P.
    + destruct (parseable_cells r P) as (price & psize & Hp & Hs).
      destruct (step_detail mark_col (Some m) st r price psize Hp Hs)
        as (st1 & row & E1 & Hpos & _ & _ & _ & _ & _ & _ & Hc).
      cbv zeta in Hc. rewrite E in E1. inversion E1; subst st1 o; clear E1.
      pose proof (clip_in_range m (q st + side_sign r * Qabs psize) Hm) as R.
      set (nq := clip_position (Some m) (q st + side_sign r * Qabs psize)) in *.
      clearbody nq.
      destruct Hc as [(_ & -> & Hz) | (T & Hq & _ & _ & S1 & S2 & S3 & _)].
      * split; [exact Hi|]. intros row0 Er; inversion Er; subst row0.
        rewrite Hpos. split; [exact Hi|]. lra.
      * assert (Hi' : - m <= q st' <= m) by (rewrite Hq; exact R).
        split; [exact Hi'|]. intros row0 Er; inversion Er; subst row0.
        rewrite Hpos. split; [exact Hi'|].
        destruct (Qlt_le_dec 0 (nq - q st)) as [G|G].
        -- destruct (Qlt_le_dec (q st) 0) as [N|N].
           ++ rewrite (S2 G N). name_minmax. lra.
           ++ rewrite (S1 G N). lra.
        -- assert (L : nq - q st < 0) by (apply abs_tiny_sign; [exact T|lra]).
           rewrite (S3 L). lra.
    + destruct (step_skip _ _ _ _ _ _ P E) as [-> ->].
      split; [exact Hi|]. discriminate.
  - simpl. lra.
Qed.

(** Cap 1: a buy of 3 is clipped to 1, a sell of 5 to -1. *)
Lemma positions_within_cap_witness :
  exists o1 o2,
    compute_pnl_from_trades
      [mkRow (KNaive 1) "buy" (Some 100) (Some 3) MMissing "a";
       mkRow (KNaive 2) "sell" (Some 110) (Some 5) MMissing "b"]
      None (Some 1)
    = Ok [o1; o2]
    /\ o_position o1 == 1 /\ o_position o2 == - (1)
    /\ o_size o2 == 2
    /\ Forall (fun row => - (1) <= o_position row <= 1
                          /\ o_size row <= 2 * 1) [o1; o2].
Proof.
  eexists. eexists.
  split; [vm_compute; reflexivity|].
  split; [vm_compute; reflexivity|].
  split; [vm_compute; reflexivity|].
  split; [vm_compute; reflexivity|].
  apply (positions_within_cap
           [mkRow (KNaive 1) "buy" (Some 100) (Some 3) MMissing "a";
            mkRow (KNaive 2) "sell" (Some 110) (Some 5) MMissing "b"]
           None 1).
  - lra.
  - vm_compute. reflexivity.
Defined.

(** X21.  Every row of the reconstruction with position zero has
    average entry price zero and unrealized P&L zero, and its total and
    realized P&L both equal its cash. *)
Theorem flat_rows_carry_no_cost rows mark_col max_inventory out :
  compute_pnl_from_trades rows mark_col max_inventory = Ok out ->
  Forall (fun row =>
            o_position row == 0 ->
            o_avg_entry_price row == 0 /\ o_unrealized_pnl row == 0
            /\ o_total_pnl row == o_realized_pnl row
            /\ o_realized_pnl row == o_cash row) out.
Proof.
  apply (compute_invariant
           (fun st => balanced st /\ (q st == 0 -> ac st == 0))).
  - intros st r st' o [Hb Hf] E.
    destruct (parseable r) eqn:P.
    + destruct (parseable_cells r P) as (price & psize & Hp & Hs).
      destruct (step_detail mark_col max_inventory st r price psize Hp Hs)
        as (st1 & row & E1 & Hpos & Hac & Hcash & Hre & _ & Hun & Htot & Hc).
      cbv zeta in Hc. rewrite E in E1. inversion E1; subst st1 o; clear E1.
      destruct (step_spec mark_col max_inventory st r)
        as (st2 & o2 & E2 & _ & _ & Hbal).
      rewrite E in E2. inversion E2; subst st2 o2; clear E2.
      destruct (Hbal Hb) as [Hb' _].
      assert (Hf' : q st' == 0 -> ac st' == 0).
      { destruct Hc as [(_ & -> & _) | (_ & _ & _ & Hz & _)]; assumption. }
      split; [split; assumption|].
      intros row0 Er; inversion Er; subst row0. intro Z.
      rewrite Hpos in Z. specialize (Hf' Z).
      unfold balanced in Hb'.
      rewrite Htot, Hun, Hac, Hre, Hcash.
      split; [exact Hf'|]. rewrite Z.
      split; [ring|]. split; [ring|].
      rewrite <- Hb', Z. ring.
    + destruct (step_skip _ _ _ _ _ _ P E) as [-> ->].
      split; [split; assumption|]. discriminate.
  - split; [unfold balanced; simpl; lra|]. intros _. simpl. lra.
Qed.

(** A buy of 1 at 100 closed by a sell of 1 at 130: flat with 30 realized
    and 30 of cash. *)
Lemma flat_rows_carry_no_cost_witness :
  exists o1 o2,
    compute_pnl_from_trades
      [mkRow (KNaive 1) "buy" (Some 100) (Some 1) MMissing "a";
       mkRow (KNaive 2) "sell" (Some 130) (Some 1) MMissing "b"]
      None None
    = Ok [o1; o2]
    /\ o_position o2 == 0 /\ o_cash o2 == 30
    /\ (o_avg_entry_price o2 == 0 /\ o_unrealized_pnl o2 == 0
        /\ o_total_pnl o2 == o_realized_pnl o2
        /\ o_realized_pnl o2 == o_cash o2).
Proof.
  eexists. eexists.
  split; [vm_compute; reflexivity|].
  split; [vm_compute; reflexivity|].
  split; [vm_compute; reflexivity|].
  match goal with
  | |- o_avg_entry_price ?o2 == 0 /\ _ =>
      pose proof (flat_rows_carry_no_cost
                    [mkRow (KNaive 1) "buy" (Some 100) (Some 1) MMissing "a";
                     mkRow (KNaive 2) "sell" (Some 130) (Some 1) MMissing "b"]
                    None None _ eq_refl) as F
  end.
  inversion F as [|x l _ F2]. inversion F2 as [|x' l' H2 _].
  apply H2. vm_compute. reflexivity.
Defined.

(** An iteration that emits a row read a parseable row. *)
Lemma emitted_row_detail mark_col max_inventory st r st' row :
  step mark_col max_inventory st r = Ok (st', Some row) ->
  exists price psize,
    r_price r = Some price /\ r_size r = Some psize.
Proof.
  intro E. destruct (parseable r) eqn:P.
  - apply parseable_cells. exact P.
  - destruct (step_skip _ _ _ _ _ _ P E) as [_ H]. discriminate.
Qed.

(** X22.  The size a row of the reconstruction reports.  A sell
    reports the whole move of the position, and so does a buy from a flat
    or long position; a buy from a short position reports only the part
    that opens a long, zero when the buy only reduces the short; a row
    that leaves the position unchanged reports zero. *)
Theorem reported_size_is_asymmetric mark_col max_inventory st r st' row :
  step mark_col max_inventory st r = Ok (st', Some row) ->
  o_position row = q st'
  /\ (q st' < q st -> o_size row == q st - q st')
  /\ (q st < q st' -> 0 <= q st -> o_size row == q st' - q st)
  /\ (q st < q st' -> q st < 0 -> o_size row == Qmax 0 (q st'))
  /\ (q st' == q st -> o_size row == 0).
Proof.
  intro E.
  destruct (emitted_row_detail _ _ _ _ _ _ E) as (price & psize & Hp & Hs).
  destruct (step_detail mark_col max_inventory st r price psize Hp Hs)
    as (st1 & row1 & E1 & Hpos & _ & _ & _ & _ & _ & _ & Hc).
  cbv zeta in Hc. rewrite E in E1. inversion E1; subst st1 row1; clear E1.
  split; [exact Hpos|].
  set (nq := clip_position max_inventory (q st + side_sign r * Qabs psize)) in *.
  clearbody nq.
  destruct Hc as [(_ & -> & Hz) | (T & Hq & _ & _ & S1 & S2 & S3 & _)].
  - split; [intro; lra|]. split; [intro; lra|]. split; [intro; lra|].
    intros _. exact Hz.
  - split; [|split; [|split]].
    + intro L. rewrite S3 by lra. lra.
    + intros L N. rewrite S1 by lra. lra.
    + intros L N. apply S2; lra.
    + intro Z. exfalso. pose proof tiny_pos.
      destruct (abs_spec (nq - q st)) as [[H1 H2]|[H1 H2]];
        rewrite H2 in T; lra.
Qed.

(** Short 2 at 100, a buy of 1 at 90: the position moves by 1 and the
    row reports size 0. *)
Lemma reported_size_is_asymmetric_witness :
  exists st' row,
    step None None (mkAcc (- (2)) 100 200 0)
         (mkRow (KNaive 2) "buy" (Some 90) (Some 1) MMissing "b")
    = Ok (st', Some row)
    /\ q st' == - (1)
    /\ o_size row == Qmax 0 (q st')
    /\ o_size row == 0.
Proof.
  eexists. eexists.
  split; [vm_compute; reflexivity|].
  split; [vm_compute; reflexivity|].
  split; [|vm_compute; reflexivity].
  match goal with
  | |- o_size ?row == Qmax 0 (q ?st') =>
      destruct (reported_size_is_asymmetric None None
                  (mkAcc (- (2)) 100 200 0)
                  (mkRow (KNaive 2) "buy" (Some 90) (Some 1) MMissing "b")
                  st' row) as (_ & _ & _ & H & _)
  end.
  - vm_compute. reflexivity.
  - apply H; vm_compute; reflexivity.
Defined.

(** X23.  One row of the reconstruction moves the cash by the move of
    the position times the price.  The realized P&L is unchanged when the
    position is opened or extended; when a long is reduced it grows by
    (price - average cost) times the quantity closed, and when a short is
    covered by (average cost - price) times the quantity closed.  The
    average cost is unchanged while the position is reduced without
    reaching zero. *)
Theorem realized_moves_only_on_close mark_col max_inventory st r st' row :
  step mark_col max_inventory st r = Ok (st', Some row) ->
  o_realized_pnl row = realized st' /\ o_cash row = cash st'
  /\ o_avg_entry_price row = ac st'
  /\ cash st' == cash st - (q st' - q st) * o_price row
  /\ ((0 <= q st /\ q st <= q st') \/ (q st' <= q st /\ q st <= 0) ->
      realized st' = realized st)
  /\ (q st < 0 -> q st < q st' ->
      realized st' == realized st
                      + (ac st - o_price row) * Qmin (- q st) (q st' - q st))
  /\ (0 < q st -> q st' < q st ->
      realized st' == realized st
                      + (o_price row - ac st) * Qmin (q st) (q st - q st'))
  /\ ((q st < q st' /\ q st' < 0) \/ (0 < q st' /\ q st' < q st) ->
      ac st' = ac st).
Proof.
  intro E.
  destruct (emitted_row_detail _ _ _ _ _ _ E) as (price & psize & Hp & Hs).
  destruct (step_detail mark_col max_inventory st r price psize Hp Hs)
    as (st1 & row1 & E1 & _ & Hac & Hcash & Hre & Hpr & _ & _ & Hc).
  cbv zeta in Hc. rewrite E in E1. inversion E1; subst st1 row1; clear E1.
  split; [exact Hre|]. split; [exact Hcash|]. split; [exact Hac|].
  rewrite Hpr.
  set (nq := clip_position max_inventory (q st + side_sign r * Qabs psize)) in *.
  clearbody nq.
  destruct Hc as [(_ & -> & Hz)
                 | (T & Hq & Hc & _ & _ & _ & _ & R1 & R2 & R3 & R4 & A1 & A2)].
  - split; [ring|]. split; [reflexivity|]. split; [intros; lra|].
    split; [intros; lra|]. reflexivity.
  - assert (Hd : nq - q st == q st' - q st) by (rewrite Hq; ring).
    assert (Hne : ~ nq - q st == 0).
    { pose proof tiny_pos.
      destruct (abs_spec (nq - q st)) as [[H1 H2]|[H1 H2]];
        rewrite H2 in T; lra. }
    split; [rewrite Hc, Hd; reflexivity|].
    split; [|split; [|split]].
    + intros [[N L]|[L N]]; [apply R1|apply R2]; lra.
    + intros N L. rewrite R3 by lra. rewrite Hd. reflexivity.
    + intros N L. rewrite R4 by lra.
      assert (Hd' : - (nq - q st) == q st - q st') by lra.
      rewrite Hd'. reflexivity.
    + intros [[L N]|[N L]]; [apply A1|apply A2]; lra.
Qed.

(** Long 2 at 100, a sell of 3 at 130: 2 are closed for 60 and a short of
    1 is opened. *)
Lemma realized_moves_only_on_close_witness :
  exists st' row,
    step None None (mkAcc 2 100 (- (200)) 0)
         (mkRow (KNaive 2) "sell" (Some 130) (Some 3) MMissing "b")
    = Ok (st', Some row)
    /\ q st' == - (1) /\ realized st' == 60
    /\ realized st' == 0 + (o_price row - 100) * Qmin 2 (2 - q st').
Proof.
  eexists. eexists.
  split; [vm_compute; reflexivity|].
  split; [vm_compute; reflexivity|].
  split; [vm_compute; reflexivity|].
  match goal with
  | |- realized ?st' == 0 + (o_price ?row - 100) * _ =>
      destruct (realized_moves_only_on_close None None
                  (mkAcc 2 100 (- (200)) 0)
                  (mkRow (KNaive 2) "sell" (Some 130) (Some 3) MMissing "b")
                  st' row) as (_ & _ & _ & _ & _ & _ & H & _)
  end.
  - vm_compute. reflexivity.
  - apply H; vm_compute; reflexivity.
Defined.

(** X24.  The reconstruction either returns or raises TypeError, and
    it raises exactly when some later row has a time cell of another kind
    (naive datetime, aware datetime, text) than the first row, whether or
    not that row's price and size parse. *)
Theorem reconstruction_raises_iff_mixed_time_keys rows mark_col
    max_inventory :
  ((exists out,
       compute_pnl_from_trades rows mark_col max_inventory = Ok out)
   \/ compute_pnl_from_trades rows mark_col max_inventory = Raise TypeError)
  /\ (compute_pnl_from_trades rows mark_col max_inventory = Raise TypeError
      <-> exists r0 rest r,
            rows = r0 :: rest /\ In r rest
            /\ same_kind (r_time r0) (r_time r) = false).
Proof.
  unfold compute_pnl_from_trades.
  destruct rows as [|r0 rest].
  { split; [left; eexists; reflexivity|].
    split; [discriminate|]. intros (r1 & rest1 & r & E & _). discriminate. }
  unfold sorted_rows.
  destruct (forallb (fun r => same_kind (r_time r0) (r_time r)) rest) eqn:F.
  - cbn [bind].
    destruct (run_spec mark_col max_inventory
                (fold_right insert_row [] (r0 :: rest)) acc0)
      as (out & E & _).
    rewrite E. split; [left; exists out; reflexivity|].
    split; [discriminate|].
    intros (r1 & rest1 & r & Er & Hin & Hk). inversion Er; subst r1 rest1.
    rewrite forallb_forall in F. rewrite (F r Hin) in Hk. discriminate.
  - cbn [bind]. split; [right; reflexivity|].
    split; [|reflexivity]. intros _.
    exists r0, rest.
    assert (X : exists r, In r rest
                          /\ same_kind (r_time r0) (r_time r) = false).
    { clear -F. induction rest as [|y ys IH]; [discriminate|].
      simpl in F. destruct (same_kind (r_time r0) (r_time y)) eqn:K.
      - destruct (IH F) as (r & Hin & Hk). exists r. split; [right|]; auto.
      - exists y. split; [left; reflexivity|exact K]. }
    destruct X as (r & Hin & Hk). exists r. auto.
Qed.

(** A row with an empty time cell (the text n/a) and no price after a row
    with a datetime: the loop would skip it, the sort raises on it. *)
Lemma reconstruction_raises_iff_mixed_time_keys_witness :
  compute_pnl_from_trades
    [mkRow (KNaive 1) "buy" (Some 100) (Some 1) MMissing "a";
     mkRow (KText "n/a") "buy" None None MMissing "b"]
    None None
  = Raise TypeError
  /\ parseable (mkRow (KText "n/a") "buy" None None MMissing "b") = false.
Proof.
  split; [|reflexivity].
  apply (reconstruction_raises_iff_mixed_time_keys
           [mkRow (KNaive 1) "buy" (Some 100) (Some 1) MMissing "a";
            mkRow (KText "n/a") "buy" None None MMissing "b"] None None).
  exists (mkRow (KNaive 1) "buy" (Some 100) (Some 1) MMissing "a"),
         [mkRow (KText "n/a") "buy" None None MMissing "b"],
         (mkRow (KText "n/a") "buy" None None MMissing "b").
  split; [reflexivity|]. split; [left; reflexivity|reflexivity].
Defined.

Import CloseThenOpen.

(** The tests of a goal, one atom at a time. *)
Ltac split_tests :=
  repeat match goal with
  | |- context [gtb ?a ?b] => destruct (gtb a b) eqn:?
  | |- context [ltb ?a ?b] => destruct (ltb a b) eqn:?
  | |- context [eqb ?a ?b] => destruct (eqb a b) eqn:?
  end;
  cbn [andb orb]; cmp_props.

(** A minimum whose value is known. *)
Lemma min_known (a b c : Q) :
  (a <= b /\ c == a) \/ (b <= a /\ c == b) -> Qmin a b == c.
Proof. intro H. destruct (Q.min_spec a b) as [[? E]|[? E]]; rewrite E; lra. Qed.

(** A smaller absolute value, by cases. *)
Lemma abs_lt_cases (a b : Q) :
  Qabs a < Qabs b <-> (- Qabs b < a /\ a < Qabs b).
Proof.
  destruct (abs_spec a) as [[? E]|[? E]]; rewrite E;
  destruct (abs_spec b) as [[? F]|[? F]]; rewrite F; split; intros; lra.
Qed.

(** A fill that opens or extends exposure crystallizes nothing. *)
Lemma crystallized_extend (q0 ac0 q1 price : Q) :
  (0 <= q0 /\ q0 <= q1) \/ (q1 <= q0 /\ q0 <= 0) ->
  crystallized q0 ac0 q1 price == 0.
Proof.
  intro H. unfold crystallized, closed_quantity. split_tests; try lra.
  all: ring.
Qed.

(** A buy against a short crystallizes (average cost - price) times the
    quantity covered. *)
Lemma crystallized_cover (q0 ac0 q1 price c : Q) :
  q0 < 0 -> q0 < q1 -> Qmin (- q0) (q1 - q0) == c ->
  crystallized q0 ac0 q1 price == (ac0 - price) * c.
Proof.
  intros H0 H1 Hc. unfold crystallized, closed_quantity.
  split_tests; try lra. rewrite Hc. reflexivity.
Qed.

(** A sell against a long crystallizes (price - average cost) times the
    quantity closed. *)
Lemma crystallized_reduce (q0 ac0 q1 price c : Q) :
  0 < q0 -> q1 < q0 -> Qmin q0 (q0 - q1) == c ->
  crystallized q0 ac0 q1 price == (price - ac0) * c.
Proof.
  intros H0 H1 Hc. unfold crystallized, closed_quantity.
  split_tests; try lra. rewrite Hc. reflexivity.
Qed.

(** A flattened position has average cost zero. *)
Lemma average_cost_flat (q0 ac0 q1 price : Q) :
  q1 == 0 -> average_cost_after q0 ac0 q1 price == 0.
Proof.
  intro H. unfold average_cost_after.
  destruct (eqb q1 0) eqn:E; cmp_props; [reflexivity|contradiction].
Qed.

(** A position taken through zero is opened at the fill price. *)
Lemma average_cost_through (q0 ac0 q1 price : Q) :
  (q0 < 0 /\ 0 < q1) \/ (q1 < 0 /\ 0 < q0) ->
  average_cost_after q0 ac0 q1 price == price.
Proof.
  intro H. unfold average_cost_after. split_tests; try lra; reflexivity.
Qed.

(** A position that is only reduced keeps its average cost. *)
Lemma average_cost_reduced (q0 ac0 q1 price : Q) :
  (q0 < q1 /\ q1 < 0) \/ (0 < q1 /\ q1 < q0) ->
  average_cost_after q0 ac0 q1 price == ac0.
Proof.
  intro H. unfold average_cost_after.
  destruct (ltb (Qabs q1) (Qabs q0)) eqn:A.
  - split_tests; try lra; reflexivity.
  - exfalso. cmp_props. 
    destruct (abs_spec q1) as [[? E]|[? E]]; rewrite E in A;
    destruct (abs_spec q0) as [[? F]|[? F]]; rewrite F in A; lra.
Qed.

(** A position that is opened or extended takes the weighted average. *)
Lemma average_cost_extended (q0 ac0 q1 price : Q) :
  (0 <= q0 /\ q0 <= q1 /\ 0 < q1) \/ (q1 <= q0 /\ q0 <= 0 /\ q1 < 0) ->
  average_cost_after q0 ac0 q1 price
  == (ac0 * q0 + price * (q1 - q0)) / q1.
Proof.
  intro H. unfold average_cost_after.
  destruct (ltb (Qabs q1) (Qabs q0)) eqn:A.
  - exfalso. cmp_props.
    destruct (abs_spec q1) as [[? E]|[? E]]; rewrite E in A;
    destruct (abs_spec q0) as [[? F]|[? F]]; rewrite F in A; lra.
  - split_tests; try lra; reflexivity.
Qed.

(** The net-buy branch follows the convention. *)
Lemma apply_buy_follows (q ac realized dq price : Q) :
  0 < dq ->
  exists q' ac' r' dq',
    apply_buy q ac realized dq price = Ok (q', ac', r', dq')
    /\ q' == q + dq
    /\ r' == realized + crystallized q ac q' price
    /\ ac' == average_cost_after q ac q' price.
Proof.
  intros Hdq. unfold apply_buy.
  destruct (ltb q 0) eqn:Hq.
  - set (c := Qmin (- q) dq).
    assert (Hc : (- q < dq /\ c == - q) \/ (dq <= - q /\ c == dq))
      by apply Q.min_spec.
    clearbody c.
    destruct (eqb (q + c) 0) eqn:Hz;
    destruct (gtb (dq - c) 0) eqn:Hg; cmp_props.
    + assert (Hn : ~ q + c + (dq - c) == 0) by lra.
      assert (Hn' : eqb (q + c + (dq - c)) 0 = false)
        by (apply eqb_false; exact Hn).
      rewrite Hn'. simpl negb. cbv iota. rewrite truediv_ok by exact Hn.
      simpl bind.
      do 4 eexists. split; [reflexivity|]. split; [lra|]. split.
      * rewrite (crystallized_cover q ac _ price c) by
          (try lra; apply min_known; lra).
        reflexivity.
      * rewrite average_cost_through by lra.
        assert (Ec : c == - q) by lra. rewrite Ec. field. lra.
    + do 4 eexists. split; [reflexivity|]. split; [lra|]. split.
      * rewrite (crystallized_cover q ac _ price c) by
          (try lra; apply min_known; lra).
        reflexivity.
      * rewrite average_cost_flat by lra. reflexivity.
    + exfalso. lra.
    + do 4 eexists. split; [reflexivity|]. split; [lra|]. split.
      * rewrite (crystallized_cover q ac _ price c) by
          (try lra; apply min_known; lra).
        reflexivity.
      * rewrite average_cost_reduced by lra. reflexivity.
  - cmp_props. assert (G : gtb dq 0 = true) by (apply gtb_true; exact Hdq).
    rewrite G.
    assert (Hn : ~ q + dq == 0) by lra.
    assert (Hn' : eqb (q + dq) 0 = false) by (apply eqb_false; exact Hn).
    rewrite Hn'. simpl negb. cbv iota. rewrite truediv_ok by exact Hn.
    simpl bind.
    do 4 eexists. split; [reflexivity|]. split; [lra|]. split.
    + rewrite crystallized_extend by lra. ring.
    + rewrite average_cost_extended by lra. field. lra.
Qed.

(** The net-sell branch follows the convention. *)
Lemma apply_sell_follows (q ac realized dq price : Q) :
  dq < 0 ->
  exists q' ac' r',
    apply_sell q ac realized dq price = Ok (q', ac', r')
    /\ q' == q + dq
    /\ r' == realized + crystallized q ac q' price
    /\ ac' == average_cost_after q ac q' price.
Proof.
  intros Hdq. unfold apply_sell.
  destruct (gtb q 0) eqn:Hq.
  - set (c := Qmin q (- dq)).
    assert (Hc : (q < - dq /\ c == q) \/ (- dq <= q /\ c == - dq))
      by apply Q.min_spec.
    clearbody c.
    destruct (eqb (q - c) 0) eqn:Hz;
    destruct (gtb (- dq - c) 0) eqn:Hg; cmp_props.
    + assert (Hn : ~ - (q - c) + (- dq - c) == 0) by lra.
      assert (Hn' : eqb (- (q - c) + (- dq - c)) 0 = false)
        by (apply eqb_false; exact Hn).
      rewrite Hn'. simpl negb. cbv iota. rewrite truediv_ok by exact Hn.
      simpl bind.
      do 3 eexists. split; [reflexivity|]. split; [lra|]. split.
      * rewrite (crystallized_reduce q ac _ price c) by
          (try lra; apply min_known; lra).
        reflexivity.
      * rewrite average_cost_through by lra.
        assert (Ec : c == q) by lra. rewrite Ec. field. lra.
    + do 3 eexists. split; [reflexivity|]. split; [lra|]. split.
      * rewrite (crystallized_reduce q ac _ price c) by
          (try lra; apply min_known; lra).
        reflexivity.
      * rewrite average_cost_flat by lra. reflexivity.
    + exfalso. lra.
    + do 3 eexists. split; [reflexivity|]. split; [lra|]. split.
      * rewrite (crystallized_reduce q ac _ price c) by
          (try lra; apply min_known; lra).
        reflexivity.
      * rewrite average_cost_reduced by lra. reflexivity.
  - cmp_props. assert (G : gtb (- dq) 0 = true) by (apply gtb_true; lra).
    rewrite G.
    assert (Hn : ~ - q + - dq == 0) by lra.
    assert (Hn' : eqb (- q + - dq) 0 = false) by (apply eqb_false; exact Hn).
    rewrite Hn'. simpl negb. cbv iota. rewrite truediv_ok by exact Hn.
    simpl bind.
    do 3 eexists. split; [reflexivity|]. split; [lra|]. split.
    + rewrite crystallized_extend by lra. ring.
    + rewrite average_cost_extended by lra. field. lra.
Qed.

(** A row whose position did not move follows the state before it. *)
Lemma row_follows_unmoved (q0 ac0 cash0 realized0 price : Q) :
  (q0 == 0 -> ac0 == 0) ->
  cash0 == cash0 - (q0 - q0) * price
  /\ realized0 == realized0 + crystallized q0 ac0 q0 price
  /\ ac0 == average_cost_after q0 ac0 q0 price.
Proof.
  intro Hf. split; [ring|]. split.
  - destruct (Qlt_le_dec q0 0) as [N|N].
    + rewrite crystallized_extend by lra. ring.
    + rewrite crystallized_extend by lra. ring.
  - destruct (Qeq_dec q0 0) as [Z|Z].
    + rewrite average_cost_flat by exact Z. exact (Hf Z).
    + rewrite average_cost_extended.
      * field. exact Z.
      * destruct (Qlt_le_dec q0 0); [right|left]; lra.
Qed.

(** One iteration: the row it emits follows the loop variables before
    it, and carries the loop variables after it. *)
Lemma step_follows mark_col max_inventory st r st' row :
  (q st == 0 -> ac st == 0) ->
  step mark_col max_inventory st r = Ok (st', Some row) ->
  row_follows (q st) (ac st) (cash st) (realized st) row
  /\ o_position row = q st' /\ o_avg_entry_price row = ac st'
  /\ o_cash row = cash st' /\ o_realized_pnl row = realized st'
  /\ (q st' == 0 -> ac st' == 0).
Proof.
  intros Hf. unfold step.
  destruct (r_price r) as [price|]; [|discriminate].
  destruct (r_size r) as [psize|]; [|discriminate].
  set (dq := clip_position max_inventory (q st + side_sign r * Qabs psize)
             - q st).
  destruct (ltb (Qabs dq) 1e-15) eqn:T.
  - intro H; inversion H; subst st' row; clear H.
    unfold row_follows.
    cbn [o_position o_avg_entry_price o_cash o_realized_pnl o_price].
    split; [apply row_follows_unmoved; exact Hf|].
    repeat (split; [reflexivity|]). exact Hf.
  - cmp_props. pose proof tiny_pos as Tp.
    destruct (gtb dq 0) eqn:G; cmp_props.
    + destruct (apply_buy_follows (q st) (ac st) (realized st) dq price G)
        as (q' & ac' & r' & dq' & E & Hq & Hr & Ha).
      rewrite E. cbn [bind].
      intro H; inversion H; subst st' row; clear H.
      unfold row_follows.
      cbn [o_position o_avg_entry_price o_cash o_realized_pnl o_price
           Analyze.q Analyze.ac Analyze.cash Analyze.realized].
      split; [split; [rewrite Hq; ring|split; assumption]|].
      repeat (split; [reflexivity|]).
      intro Z. rewrite Ha. apply average_cost_flat. exact Z.
    + assert (L : dq < 0) by (apply abs_tiny_sign; [exact T|lra]).
      destruct (apply_sell_follows (q st) (ac st) (realized st) dq price L)
        as (q' & ac' & r' & E & Hq & Hr & Ha).
      rewrite E. cbn [bind].
      intro H; inversion H; subst st' row; clear H.
      unfold row_follows.
      cbn [o_position o_avg_entry_price o_cash o_realized_pnl o_price
           Analyze.q Analyze.ac Analyze.cash Analyze.realized].
      split; [split; [rewrite Hq; ring|split; assumption]|].
      repeat (split; [reflexivity|]).
      intro Z. rewrite Ha. apply average_cost_flat. exact Z.
Qed.

(** The loop: every row follows the one before it. *)
Lemma run_follows mark_col max_inventory rows :
  forall st out,
    (q st == 0 -> ac st == 0) ->
    run mark_col max_inventory st rows = Ok out ->
    rows_follow (q st) (ac st) (cash st) (realized st) out.
Proof.
  induction rows as [|r rest IH]; intros st out Hf; simpl.
  - intro H; inversion H. exact I.
  - destruct (step mark_col max_inventory st r) as [[st' o]|] eqn:E;
      cbn [bind]; [|discriminate].
    destruct (run mark_col max_inventory st' rest) as [out'|] eqn:Er;
      cbn [bind]; [|discriminate].
    intro H; inversion H; subst out; clear H.
    destruct o as [row|].
    + destruct (step_follows _ _ _ _ _ _ Hf E)
        as (Hrow & Hp & Ha & Hc & Hr & Hf').
      cbn [rows_follow]. split; [exact Hrow|].
      rewrite Hp, Ha, Hc, Hr. apply IH; assumption.
    + assert (P : parseable r = false).
      { destruct (parseable r) eqn:P; [|reflexivity].
        destruct (step_spec mark_col max_inventory st r)
          as (st2 & o2 & E2 & Hsome & _).
        rewrite E in E2. inversion E2; subst.
        destruct (Hsome P) as [row X]. discriminate. }
      destruct (step_skip _ _ _ _ _ _ P E) as [-> _].
      apply IH; assumption.
Qed.

(** C4.  Every row the reconstructor outputs satisfies
    total_pnl = realized_pnl + unrealized_pnl, with
    unrealized_pnl = (mark_price - avg_entry_price) * position, and
    realized_pnl + unrealized_pnl = cash + position * mark_price.  And
    every row follows the row before it (the first one the zero state) by
    the close-then-open convention: the cash moves by minus the move of
    the position times the price; the realized P&L grows by the price
    difference to the average cost times the quantity the fill closes, and
    by nothing when the fill only opens or extends exposure; the average
    cost is zero once flat, the fill price when the remainder opens the
    other side, unchanged when the position is only reduced, and the
    weighted average when exposure is opened or extended. *)
Theorem rows_are_consistent_and_crystallized rows mark_col max_inventory out :
  compute_pnl_from_trades rows mark_col max_inventory = Ok out ->
  (forall row, In row out -> row_consistent row)
  /\ rows_follow 0 0 0 0 out.
Proof.
  intro H. split.
  - unfold compute_pnl_from_trades in H.
    destruct rows as [|r0 rest]; [inversion H; intros row []|].
    destruct (sorted_rows (r0 :: rest)) as [rows'|]; cbn [bind] in H;
      [|discriminate].
    destruct (run_spec mark_col max_inventory rows' acc0) as (out' & E & _ & F).
    rewrite H in E. inversion E; subst out'.
    assert (B : balanced acc0) by (unfold balanced; simpl; lra).
    intros row Hin. specialize (F B). rewrite Forall_forall in F.
    apply F. exact Hin.
  - unfold compute_pnl_from_trades in H.
    destruct rows as [|r0 rest]; [inversion H; exact I|].
    destruct (sorted_rows (r0 :: rest)) as [rows'|]; cbn [bind] in H;
      [|discriminate].
    apply (run_follows mark_col max_inventory rows' acc0 out);
      [intros _; reflexivity|exact H].
Qed.

(** Scenario F of the specification: buy 1 at 100, buy 1 at 110, sell 2 at
    130.  The second buy realizes nothing and brings the average cost to
    105; the sell realizes (130 - 105) * 2 = 50 and leaves position 0 and
    unrealized 0. *)
Lemma rows_are_consistent_and_crystallized_witness :
  exists o1 o2 o3,
    compute_pnl_from_trades
      [mkRow (KNaive 1) "buy" (Some 100) (Some 1) MMissing "a";
       mkRow (KNaive 2) "buy" (Some 110) (Some 1) MMissing "b";
       mkRow (KNaive 3) "sell" (Some 130) (Some 2) MMissing "c"]
      None None
    = Ok [o1; o2; o3]
    /\ o_realized_pnl o2 == 0 /\ o_avg_entry_price o2 == 105
    /\ o_realized_pnl o3 == 50 /\ o_position o3 == 0
    /\ o_unrealized_pnl o3 == 0
    /\ ((forall row, In row [o1; o2; o3] -> row_consistent row)
        /\ rows_follow 0 0 0 0 [o1; o2; o3]).
Proof.
  eexists. eexists. eexists.
  split; [vm_compute; reflexivity|].
  split; [vm_compute; reflexivity|].
  split; [vm_compute; reflexivity|].
  split; [vm_compute; reflexivity|].
  split; [vm_compute; reflexivity|].
  split; [vm_compute; reflexivity|].
  apply (rows_are_consistent_and_crystallized
           [mkRow (KNaive 1) "buy" (Some 100) (Some 1) MMissing "a";
            mkRow (KNaive 2) "buy" (Some 110) (Some 1) MMissing "b";
            mkRow (KNaive 3) "sell" (Some 130) (Some 2) MMissing "c"]
           None None).
  vm_compute. reflexivity.
Defined.

End ReconstructionProps.

(* ================================================================== *)
(** * spread.py: what one update logs *)

Module SpreadLogProps.

Import Py PyFacts Models SpreadWindow SpreadWindowProps.

(** What one update appends, size by size. *)
Lemma update_spreads_appends w a bids asks (t1 t2 : Q) :
  shaped w a ->
  exists f1 f2 f3 f4 s1 s2 s3 s4 a',
    spread_history_full a = [(0.1, f1); (1.0, f2); (5.0, f3); (10.0, f4)]
    /\ Spread.calculate_spread_for_size bids asks 0.1 = Ok s1
    /\ Spread.calculate_spread_for_size bids asks 1.0 = Ok s2
    /\ Spread.calculate_spread_for_size bids asks 5.0 = Ok s3
    /\ Spread.calculate_spread_for_size bids asks 10.0 = Ok s4
    /\ update_spreads a bids asks t1 t2 = Returns a'
    /\ spread_history_full a'
       = [(0.1, f1 ++ [s1]); (1.0, f2 ++ [s2]);
          (5.0, f3 ++ [s3]); (10.0, f4 ++ [s4])]
    /\ spread_history a'
       = [(0.1, last_n w (f1 ++ [s1])); (1.0, last_n w (f2 ++ [s2]));
          (5.0, last_n w (f3 ++ [s3])); (10.0, last_n w (f4 ++ [s4]))]
    /\ timestamps_full a' = timestamps_full a ++ [t2]
    /\ timestamps a' = deque_append w (timestamps a) t1.
Proof.
  intros (f1 & f2 & f3 & f4 & Hw & Ht & Hf & Hh & L1 & L2 & L3 & L4).
  unfold update_spreads. rewrite Hh, Hf, Hw. cbn [map fst].
  destruct (SpreadProps.calculate_spread_for_size_total bids asks 0.1) as [s1 E1].
  destruct (SpreadProps.calculate_spread_for_size_total bids asks 1.0) as [s2 E2].
  destruct (SpreadProps.calculate_spread_for_size_total bids asks 5.0) as [s3 E3].
  destruct (SpreadProps.calculate_spread_for_size_total bids asks 10.0) as [s4 E4].
  exists f1, f2, f3, f4, s1, s2, s3, s4.
  cbn [append_spreads]. rewrite E1. cbn. rewrite E2. cbn. rewrite E3. cbn.
  rewrite E4. cbn.
  eexists. repeat (split; [reflexivity|]).
  cbn [window_size timestamps timestamps_full spread_history spread_history_full].
  rewrite !deque_append_last_n, !last_n_snoc.
  repeat split; reflexivity.
Qed.

(** X11.  One update of a reached analyzer appends, under each of the
    four configured sizes, the spread of the book for that size to the
    full log and to the rolling window (which keeps the last window_size
    of them), and the two clock readings to the two logs of time stamps.
    A book with an empty side is logged as a spread of 0. *)
Theorem update_spreads_logs_each_size w a bids asks (t1 t2 : Q) a' :
  reachable w a ->
  update_spreads a bids asks t1 t2 = Returns a' ->
  timestamps_full a' = timestamps_full a ++ [t2]
  /\ timestamps a' = deque_append w (timestamps a) t1
  /\ forall k, In k configured_sizes ->
       exists f v,
         dict_get k (spread_history_full a) = Some f
         /\ Spread.calculate_spread_for_size bids asks k = Ok v
         /\ dict_get k (spread_history_full a') = Some (f ++ [v])
         /\ dict_get k (spread_history a') = Some (last_n w (f ++ [v]))
         /\ (bids = [] \/ asks = [] -> v = 0).
Proof.
  intros R E.
  destruct (update_spreads_appends w a bids asks t1 t2 (reachable_shaped _ _ R))
    as (f1 & f2 & f3 & f4 & s1 & s2 & s3 & s4 & a1 & Hf & E1 & E2 & E3 & E4
        & Ea & Hf' & Hh' & Ht & Hr).
  rewrite E in Ea. inversion Ea; subst a1; clear Ea.
  split; [exact Ht|]. split; [exact Hr|].
  assert (Z : forall k v, Spread.calculate_spread_for_size bids asks k = Ok v ->
                          bids = [] \/ asks = [] -> v = 0).
  { intros k v Ev [Hb|Ha].
    - subst bids. cbn in Ev. inversion Ev. reflexivity.
    - subst asks. destruct bids; cbn in Ev; inversion Ev; reflexivity. }
  intros k Hin. rewrite Hf, Hf', Hh'.
  cbn in Hin.
  destruct Hin as [<- | [<- | [<- | [<- | []]]]].
  - exists f1, s1. repeat split; try reflexivity; eauto.
  - exists f2, s2. repeat split; try reflexivity; eauto.
  - exists f3, s3. repeat split; try reflexivity; eauto.
  - exists f4, s4. repeat split; try reflexivity; eauto.
Qed.

(** Window 2, book 100 / 101 with one unit on each side: under size 1.0
    the spread 1 is logged. *)
Lemma update_spreads_logs_each_size_witness :
  exists a1 f v,
    update_spreads (init 2) [mkLevel 100 1] [mkLevel 101 1] 7 8 = Returns a1
    /\ dict_get 1.0 (spread_history_full (init 2)) = Some f
    /\ Spread.calculate_spread_for_size [mkLevel 100 1] [mkLevel 101 1] 1.0
       = Ok v
    /\ v == 1
    /\ dict_get 1.0 (spread_history_full a1) = Some (f ++ [v])
    /\ timestamps_full a1 = timestamps_full (init 2) ++ [8].
Proof.
  eexists.
  match goal with
  | |- exists f v, ?U = Returns ?a1 /\ _ =>
      assert (E : U = Returns a1) by (vm_compute; reflexivity)
  end.
  destruct (update_spreads_logs_each_size 2 (init 2) [mkLevel 100 1]
              [mkLevel 101 1] 7 8 _ (reach_init 2) E)
    as (Ht & _ & Hlog).
  destruct (Hlog 1.0) as (f & v & Hf & Hv & Hf' & _).
  - right. left. reflexivity.
  - exists f, v.
    split; [exact E|].
    split; [exact Hf|]. split; [exact Hv|].
    split; [revert Hv; vm_compute; intro Hv; inversion Hv; reflexivity|].
    split; [exact Hf'|exact Ht].
Defined.

End SpreadLogProps.

(* ================================================================== *)
(** * binance_client.py: the book the depth handler delivers *)

Module FeedProps.

Import Py PyFacts Models Feed.





















End FeedProps.

(* ================================================================== *)
(** * dashboard.py: the components behind the two handlers *)

Module DashboardProps.

Import Py PyFacts Models.
Import Dashboard.

(** What [update_quotes] leaves in the strategy: nothing new, or the pair
    it generated. *)
Lemma update_quotes_result mm bids asks (pos pnl upnl : Q) clk mm1 r :
  Strategy.update_quotes mm bids asks pos pnl upnl clk = Ok (mm1, r) ->
  (mm1 = mm /\ r = (None, None))
  \/ exists nb na,
       Strategy.generate_quotes (Strategy.config mm) bids asks pos pnl upnl
         (Strategy.t_generate clk) = Ok (nb, na)
       /\ r = (nb, na)
       /\ mm1 = Strategy.mkMaker (Strategy.config mm) (Strategy.is_active mm)
                  (Strategy.t_store clk) nb na (Strategy.quotes_posted mm)
                  (Strategy.quotes_updated mm + 1).
Proof.
  unfold Strategy.update_quotes.
  destruct (negb (Strategy.should_update_quotes mm (Strategy.t_check clk))).
  - intro H; inversion H. left. auto.
  - destruct (Strategy.generate_quotes (Strategy.config mm) bids asks pos pnl
                upnl (Strategy.t_generate clk)) as [[nb na]|] eqn:G;
      cbn [bind]; [|discriminate].
    destruct (Strategy._quote_changed (Strategy.current_bid mm) nb
              || Strategy._quote_changed (Strategy.current_ask mm) na).
    + intro H; inversion H. right. exists nb, na. auto.
    + intro H; inversion H. left. auto.
Qed.

(** With a non-zero exposure limit [generate_quotes] returns. *)
Lemma generate_quotes_returns cfg bids asks (pos pnl upnl now : Q) :
  ~ Strategy.max_notional_exposure cfg == 0 ->
  exists r, Strategy.generate_quotes cfg bids asks pos pnl upnl now = Ok r.
Proof.
  intro Hn. unfold Strategy.generate_quotes.
  destruct (Strategy.calculate_fair_price bids asks) as [fair|] eqn:F;
    [|eexists; reflexivity].
  destruct bids as [|b0 bs]; [discriminate|].
  destruct asks as [|a0 az]; [discriminate|].
  cbn [Strategy.item0 bind].
  destruct (leb (price a0) (price b0)); [eexists; reflexivity|].
  destruct (Strategy._check_risk_limits cfg pos pnl fair);
    [eexists; reflexivity|].
  rewrite truediv_ok by exact Hn. cbn [bind]. cbv zeta.
  match goal with
  | |- context [let '(x, y) := ?scrut in _] => destruct scrut
  end.
  eexists; reflexivity.
Qed.

(** And so does [update_quotes]. *)
Lemma update_quotes_returns mm bids asks (pos pnl upnl : Q) clk :
  ~ Strategy.max_notional_exposure (Strategy.config mm) == 0 ->
  exists mm1 r,
    Strategy.update_quotes mm bids asks pos pnl upnl clk = Ok (mm1, r).
Proof.
  intro Hn. unfold Strategy.update_quotes.
  destruct (negb (Strategy.should_update_quotes mm (Strategy.t_check clk)));
    [do 2 eexists; reflexivity|].
  destruct (generate_quotes_returns (Strategy.config mm) bids asks pos pnl upnl
              (Strategy.t_generate clk) Hn) as [[nb na] E].
  rewrite E. cbn [bind].
  destruct (_ || _); do 2 eexists; reflexivity.
Qed.

(** The quotes of the default configuration: none, or a bid below an ask,
    both of size 0.05. *)
Lemma default_quotes cfg bids asks (pos pnl upnl now : Q) nb na :
  cfg = Strategy.default_config ->
  Strategy.generate_quotes cfg bids asks pos pnl upnl now = Ok (nb, na) ->
  (nb = None /\ na = None)
  \/ exists b a, nb = Some b /\ na = Some a
                 /\ Strategy.quote_price b < Strategy.quote_price a
                 /\ Strategy.quote_size b == 0.05
                 /\ Strategy.quote_size a == 0.05.
Proof.
  intros -> H.
  destruct (QuoteProps.generate_quotes_shape _ _ _ _ _ _ _ _ H)
    as [E | (b0 & bs & a0 & az & bp & ap & _ & _ & Hx & E & _ & Hc)].
  - inversion E. auto.
  - inversion E; subst; clear E. right. do 2 eexists.
    split; [reflexivity|]. split; [reflexivity|].
    cbn [Strategy.quote_price Strategy.quote_size].
    split; [|split; vm_compute; reflexivity].
    assert (Ht : 0 < Strategy.tick_size Strategy.default_config)
      by (vm_compute; reflexivity).
    destruct Hc as [[-> ->] | [[-> [off ->]] | [-> [off ->]]]].
    + exact Hx.
    + revert Ht. qarith.
    + revert Ht. qarith.
Qed.

(** The fill simulator returns. *)
Lemma simulate_fill_returns pm tr bid ask (bid_size ask_size t1 t2 : Q) :
  exists r,
    Portfolio.simulate_fill_from_trade pm tr bid ask bid_size ask_size t1 t2
    = Ok r.
Proof.
  unfold Portfolio.simulate_fill_from_trade.
  destruct (Portfolio.candidate_fill pm tr bid ask bid_size ask_size t1 t2)
    as [f|]; [|eexists; reflexivity].
  destruct (PortfolioProps.process_fill_total pm f) as [pm' E].
  rewrite E. eexists; reflexivity.
Qed.

(** A handler run on a sound dashboard returns a sound dashboard. *)
Lemma handle_sound d ev :
  sound d -> exists d', handle d ev = SpreadWindow.Returns d' /\ sound d'.
Proof.
  intros (Hp & Ha & Hc & Hact & Hpos & Hb & Hk & Ht & Hq).
  destruct ev as [nb na t1 t2 clk | tr ts tid]; cbn [handle].
  - unfold on_orderbook_update. cbv zeta.
    destruct (SpreadWindowProps.update_spreads_shaped 100 (spread_analyzer d)
                nb na t1 t2 (SpreadWindowProps.reachable_shaped _ _ Ha))
      as (a' & Ea & _).
    rewrite Ea.
    assert (Ha' : SpreadWindow.reachable 100 a')
      by (eapply SpreadWindow.reach_update; eauto).
    assert (Hb' : (length (firstn 10 nb) <= 10)%nat)
      by (rewrite length_firstn; lia).
    assert (Hk' : (length (firstn 10 na) <= 10)%nat)
      by (rewrite length_firstn; lia).
    unfold update_unrealized_pnl.
    cbn [bids asks portfolio market_maker position recent_trades
         spread_analyzer].
    destruct (firstn 10 nb) as [|b0 bs] eqn:Eb.
    { eexists. split; [reflexivity|]. unfold sound.
      cbn [bids asks portfolio market_maker position recent_trades
           spread_analyzer].
      repeat (split; [assumption || (simpl; lia)|]). exact Hq. }
    destruct (firstn 10 na) as [|a0 az] eqn:Ek.
    { eexists. split; [reflexivity|]. unfold sound.
      cbn [bids asks portfolio market_maker position recent_trades
           spread_analyzer].
      repeat (split; [assumption || (simpl; lia)|]). exact Hq. }
    cbv zeta.
    set (pf := Portfolio.update_unrealized_pnl (portfolio d)
                 ((price a0 + price b0) / 2)).
    assert (Hp' : Portfolio.reachable 1000000 5 pf)
      by (apply Portfolio.reach_mark; exact Hp).
    assert (Hcap : Portfolio.max_inventory pf = 5).
    { assert (C : 0 <= 5) by lra.
      destruct (ReportProps.reachable_within_cap _ _ _ C Hp') as (M & _).
      exact M. }
    unfold Portfolio.get_portfolio_summary. cbv zeta.
    rewrite truediv_ok by (rewrite Hcap; lra). cbn [bind].
    cbn [Portfolio.sum_btc_balance Portfolio.sum_total_pnl
         Portfolio.sum_unrealized_pnl].
    assert (Hn : ~ Strategy.max_notional_exposure
                     (Strategy.config (market_maker d)) == 0)
      by (rewrite Hc; vm_compute; discriminate).
    destruct (update_quotes_returns (market_maker d) (b0 :: bs) (a0 :: az)
                (Portfolio.q (Portfolio.state pf))
                (Portfolio.pnl (Portfolio.state pf))
                (Portfolio.nav (Portfolio.state pf)) clk Hn)
      as (mm1 & r & Eu).
    rewrite Eu. rewrite Hpos. cbn [pos_btc_balance pos_avg_entry].
    change (negb (eqb 0 0) && gtb 0 0) with false. cbv iota.
    eexists. split; [reflexivity|]. unfold sound.
    cbn [bids asks portfolio market_maker position recent_trades
         spread_analyzer].
    split; [exact Hp'|]. split; [exact Ha'|].
    destruct (update_quotes_result _ _ _ _ _ _ _ _ _ Eu)
      as [[-> _] | (qb & qa & G & _ & ->)].
    + repeat (split; [assumption || reflexivity|]). exact Hq.
    + cbn [Strategy.config Strategy.is_active Strategy.current_bid
           Strategy.current_ask].
      repeat (split; [assumption || reflexivity|]).
      eapply default_quotes; eauto.
  - unfold on_trade_update. cbv zeta. rewrite Hact.
    destruct (simulate_fill_returns (portfolio d) tr
                (price_of (Strategy.current_bid (market_maker d)))
                (price_of (Strategy.current_ask (market_maker d)))
                (size_of (Strategy.current_bid (market_maker d)))
                (size_of (Strategy.current_ask (market_maker d))) ts tid)
      as ([pf o] & E).
    rewrite E. eexists. split; [reflexivity|]. unfold sound.
    cbn [bids asks portfolio market_maker position recent_trades
         spread_analyzer].
    split; [eapply Portfolio.reach_trade; eauto|].
    repeat (split; [assumption|]).
    split; [|exact Hq].
    rewrite SpreadWindowProps.deque_append_last_n,
            SpreadWindowProps.last_n_length. lia.
Qed.

(** The initial dashboard is sound. *)
Lemma init_sound : sound init.
Proof.
  unfold sound, init.
  cbn [bids asks portfolio market_maker position recent_trades
       spread_analyzer].
  split; [apply Portfolio.reach_init|].
  split; [apply SpreadWindow.reach_init|].
  repeat (split; [reflexivity || (simpl; lia)|]).
  left. split; reflexivity.
Qed.

(** Every reached dashboard is sound. *)
Lemma reachable_sound d : reachable d -> sound d.
Proof.
  induction 1 as [|d ev d' _ IH E]; [exact init_sound|].
  destruct (handle_sound d ev IH) as (d1 & E1 & S1).
  rewrite E in E1. inversion E1; subst. exact S1.
Qed.

(** X26.  From the dashboard as [__init__] builds it, after any sequence
    of book and trade events, the handler of the next event returns: no
    division by zero, no missing key, no index out of range. *)
Theorem dashboard_handlers_never_raise d ev :
  reachable d ->
  exists d', handle d ev = SpreadWindow.Returns d' /\ reachable d'.
Proof.
  intro R. destruct (handle_sound d ev (reachable_sound d R)) as (d' & E & _).
  exists d'. split; [exact E|]. eapply reach_event; eauto.
Qed.

(** The initial dashboard and a first book. *)
Lemma dashboard_handlers_never_raise_witness :
  exists d',
    handle init (BookEvent [mkLevel 100 1] [mkLevel 101 1] 1 1
                           (Strategy.mkClock 1 1 1))
    = SpreadWindow.Returns d'
    /\ reachable d'.
Proof.
  apply (dashboard_handlers_never_raise init).
  apply reach_init.
Defined.

(** X27.  Every reached dashboard holds a position between -5 and 5, at
    most 10 levels per side, 10 recent trades and 100 rolling time stamps;
    its strategy is active; and its two quotes are absent together or
    present together, the bid strictly below the ask, each of size
    0.05. *)
Theorem dashboard_state_is_bounded d :
  reachable d ->
  - (5) <= Portfolio.q (Portfolio.state (portfolio d)) <= 5
  /\ (length (bids d) <= 10)%nat /\ (length (asks d) <= 10)%nat
  /\ (length (recent_trades d) <= 10)%nat
  /\ (length (SpreadWindow.timestamps (spread_analyzer d)) <= 100)%nat
  /\ Strategy.is_active (market_maker d) = true
  /\ ((Strategy.current_bid (market_maker d) = None
       /\ Strategy.current_ask (market_maker d) = None)
      \/ exists b a,
           Strategy.current_bid (market_maker d) = Some b
           /\ Strategy.current_ask (market_maker d) = Some a
           /\ Strategy.quote_price b < Strategy.quote_price a
           /\ Strategy.quote_size b == 0.05
           /\ Strategy.quote_size a == 0.05).
Proof.
  intro R.
  destruct (reachable_sound d R)
    as (Hp & Ha & _ & Hact & _ & Hb & Hk & Ht & Hq).
  assert (C : 0 <= 5) by lra.
  destruct (ReportProps.reachable_within_cap _ _ _ C Hp) as (_ & _ & Hq5).
  split; [exact Hq5|]. repeat (split; [assumption|]).
  split; [|split; [exact Hact|exact Hq]].
  destruct (SpreadWindowProps.reachable_shaped _ _ Ha)
    as (f1 & f2 & f3 & f4 & _ & Hl & _).
  rewrite Hl. lia.
Qed.

(** A book 100 / 101 at time 1, then a sell of 1 at 100: the bid of 0.05
    at 100 is filled. *)
Lemma dashboard_state_is_bounded_witness :
  exists d1 d2,
    handle init (BookEvent [mkLevel 100 1] [mkLevel 101 1] 1 1
                           (Strategy.mkClock 1 1 1))
    = SpreadWindow.Returns d1
    /\ handle d1 (TradeEvent (mkTrade 2 100 1 "sell") 2 2)
       = SpreadWindow.Returns d2
    /\ Portfolio.q (Portfolio.state (portfolio d2)) == 0.05
    /\ - (5) <= Portfolio.q (Portfolio.state (portfolio d2)) <= 5.
Proof.
  eexists. eexists.
  split; [vm_compute; reflexivity|].
  split; [vm_compute; reflexivity|].
  split; [vm_compute; reflexivity|].
  match goal with
  | |- - (5) <= Portfolio.q (Portfolio.state (portfolio ?d2)) <= 5 =>
      destruct (dashboard_state_is_bounded d2) as (H & _)
  end.
  - eapply reach_event with (ev := TradeEvent (mkTrade 2 100 1 "sell") 2 2).
    + eapply reach_event
        with (ev := BookEvent [mkLevel 100 1] [mkLevel 101 1] 1 1
                              (Strategy.mkClock 1 1 1)).
      * apply reach_init.
      * vm_compute. reflexivity.
    + vm_compute. reflexivity.
  - exact H.
Defined.

(** No fill and an untouched ledger, or a fill at the price of the quote
    that was hit. *)
Lemma simulate_outcome pm tr bid ask (bid_size ask_size t1 t2 : Q) pm' o :
  Portfolio.simulate_fill_from_trade pm tr bid ask bid_size ask_size t1 t2
    = Ok (pm', o) ->
  (o = None /\ pm' = pm)
  \/ exists f,
       o = Some f
       /\ ((Portfolio.fill_side f = "buy"%string
            /\ bid = Some (Portfolio.fill_price f)
            /\ Portfolio.bid_hit tr bid)
           \/ (Portfolio.fill_side f = "sell"%string
               /\ ask = Some (Portfolio.fill_price f)
               /\ Portfolio.ask_hit tr ask)).
Proof.
  unfold Portfolio.simulate_fill_from_trade.
  pose proof (PortfolioProps.candidate_fill_spec pm tr bid ask bid_size
                ask_size t1 t2) as C.
  destruct (Portfolio.candidate_fill pm tr bid ask bid_size ask_size t1 t2)
    as [f|].
  - destruct (Portfolio.process_fill_market_making pm f) as [pm1|];
      cbn [bind]; [|discriminate].
    intro H; inversion H; subst. right. exists f. split; [reflexivity|].
    destruct C as [(S & P & Hh & _) | (S & P & Hh & _)]; [left|right]; auto.
  - intro H; inversion H. left. auto.
Qed.

(** X28.  A trade event on a reached dashboard leaves the strategy as it
    is and moves the position by at most 0.05, and by at most the size of
    the trade.  The position grows only on a sell print at or below our
    bid, and the cash then falls by the quantity times our bid price; it
    shrinks only on a buy print at or above our ask, and the cash then
    grows by the quantity times our ask price.  Without quotes the ledger
    is untouched. *)
Theorem dashboard_trade_fills_at_own_quote d tr (t_stamp t_id : Q) d' :
  reachable d ->
  handle d (TradeEvent tr t_stamp t_id) = SpreadWindow.Returns d' ->
  let q0 := Portfolio.q (Portfolio.state (portfolio d)) in
  let q1 := Portfolio.q (Portfolio.state (portfolio d')) in
  let cash0 := Portfolio.cash (Portfolio.state (portfolio d)) in
  let cash1 := Portfolio.cash (Portfolio.state (portfolio d')) in
  market_maker d' = market_maker d
  /\ Qabs (q1 - q0) <= 0.05
  /\ (~ q1 == q0 -> Qabs (q1 - q0) <= trade_size tr)
  /\ (q0 < q1 ->
      trade_side tr = "sell"%string
      /\ exists b, Strategy.current_bid (market_maker d) = Some b
                   /\ trade_price tr <= Strategy.quote_price b
                   /\ cash1 == cash0 - (q1 - q0) * Strategy.quote_price b)
  /\ (q1 < q0 ->
      trade_side tr = "buy"%string
      /\ exists a, Strategy.current_ask (market_maker d) = Some a
                   /\ Strategy.quote_price a <= trade_price tr
                   /\ cash1 == cash0 + (q0 - q1) * Strategy.quote_price a)
  /\ (Strategy.current_bid (market_maker d) = None ->
      portfolio d' = portfolio d).
Proof.
  intros R H. cbv zeta.
  destruct (reachable_sound d R) as (_ & _ & _ & Hact & _ & _ & _ & _ & Hq).
  cbn [handle] in H. unfold on_trade_update in H. cbv zeta in H.
  rewrite Hact in H.
  destruct (Portfolio.simulate_fill_from_trade (portfolio d) tr
              (price_of (Strategy.current_bid (market_maker d)))
              (price_of (Strategy.current_ask (market_maker d)))
              (size_of (Strategy.current_bid (market_maker d)))
              (size_of (Strategy.current_ask (market_maker d)))
              t_stamp t_id) as [[pf o]|] eqn:E; [|discriminate].
  inversion H; subst d'; clear H.
  cbn [market_maker portfolio].
  split; [reflexivity|].
  destruct (simulate_outcome _ _ _ _ _ _ _ _ _ _ E)
    as [[-> ->] | (f & -> & Hside)].
  - assert (Z : Qabs (Portfolio.q (Portfolio.state (portfolio d))
                      - Portfolio.q (Portfolio.state (portfolio d))) == 0).
    { setoid_replace (Portfolio.q (Portfolio.state (portfolio d))
                      - Portfolio.q (Portfolio.state (portfolio d)))
        with 0 by ring. reflexivity. }
    rewrite Z.
    split; [vm_compute; discriminate|].
    split; [intro N; exfalso; apply N; reflexivity|].
    split; [intro; lra|]. split; [intro; lra|]. reflexivity.
  - destruct (LedgerProps.simulated_fill_effect _ _ _ _ _ _ _ _ _ _ E)
      as (Hpos & Htr & Hbuy & Hsell & _).
    set (q0 := Portfolio.q (Portfolio.state (portfolio d))) in *.
    set (q1 := Portfolio.q (Portfolio.state pf)) in *.
    set (c0 := Portfolio.cash (Portfolio.state (portfolio d))) in *.
    set (c1 := Portfolio.cash (Portfolio.state pf)) in *.
    destruct Hside as [(S & P & Hh) | (S & P & Hh)].
    + destruct (Hbuy S) as (Hsz & Hq1 & Hc1).
      destruct Hh as (b & Eb & _ & Hts & Hle).
      destruct (Strategy.current_bid (market_maker d)) as [qb|] eqn:Ecb;
        [|discriminate].
      cbn [price_of size_of] in *.
      assert (Hqs : Strategy.quote_size qb == 0.05).
      { destruct Hq as [[X _] | (b' & a' & X & _ & _ & Y & _)];
          [discriminate|]. inversion X; subst. exact Y. }
      inversion P as [Pe]. inversion Eb as [Eb']. subst b.
      assert (A : Qabs (q1 - q0) == Portfolio.fill_size f).
      { rewrite Hq1. setoid_replace (q0 + Portfolio.fill_size f - q0)
          with (Portfolio.fill_size f) by ring. apply Qabs_pos. lra. }
      rewrite A.
      split; [rewrite <- Hqs; exact Hsz|].
      split; [intros _; exact Htr|].
      split.
      * intros _. split; [exact Hts|]. exists qb.
        split; [reflexivity|]. split; [exact Hle|].
        rewrite Hc1, Hq1, <- Pe. ring.
      * split; [intro; lra|]. discriminate.
    + assert (Sn : Portfolio.fill_side f <> "buy"%string)
        by (rewrite S; discriminate).
      destruct (Hsell Sn) as (Hsz & Hq1 & Hc1).
      destruct Hh as (a & Ea & _ & Hts & Hle).
      destruct (Strategy.current_ask (market_maker d)) as [qa|] eqn:Eca;
        [|discriminate].
      cbn [price_of size_of] in *.
      assert (Hqs : Strategy.quote_size qa == 0.05).
      { destruct Hq as [[_ X] | (b' & a' & _ & X & _ & _ & Y)];
          [discriminate|]. inversion X; subst. exact Y. }
      inversion P as [Pe]. inversion Ea as [Ea']. subst a.
      assert (A : Qabs (q1 - q0) == Portfolio.fill_size f).
      { rewrite Hq1. setoid_replace (q0 - Portfolio.fill_size f - q0)
          with (- Portfolio.fill_size f) by ring.
        rewrite Qabs_opp. apply Qabs_pos. lra. }
      rewrite A.
      split; [rewrite <- Hqs; exact Hsz|].
      split; [intros _; exact Htr|].
      split; [intro; lra|].
      split.
      * intros _. split; [exact Hts|]. exists qa.
        split; [reflexivity|]. split; [exact Hle|].
        rewrite Hc1, Hq1, <- Pe. ring.
      * intro Nb. exfalso.
        destruct Hq as [[_ X] | (b' & a' & X & _)]; congruence.
Qed.

(** A book 100 / 101 at time 1, then a sell of 1 at 99.5: our bid of 0.05
    at 100 is filled at 100, not at the trade price. *)
Lemma dashboard_trade_fills_at_own_quote_witness :
  exists d1 d2 b,
    handle init (BookEvent [mkLevel 100 1] [mkLevel 101 1] 1 1
                           (Strategy.mkClock 1 1 1))
    = SpreadWindow.Returns d1
    /\ handle d1 (TradeEvent (mkTrade 2 99.5 1 "sell") 2 2)
       = SpreadWindow.Returns d2
    /\ Portfolio.q (Portfolio.state (portfolio d2)) == 0.05
    /\ Portfolio.cash (Portfolio.state (portfolio d2)) == - (5)
    /\ Strategy.current_bid (market_maker d1) = Some b
    /\ Portfolio.cash (Portfolio.state (portfolio d2))
       == Portfolio.cash (Portfolio.state (portfolio d1))
          - (Portfolio.q (Portfolio.state (portfolio d2))
             - Portfolio.q (Portfolio.state (portfolio d1)))
            * Strategy.quote_price b.
Proof.
  eexists. eexists. eexists.
  split; [vm_compute; reflexivity|].
  split; [vm_compute; reflexivity|].
  split; [vm_compute; reflexivity|].
  split; [vm_compute; reflexivity|].
  split; [vm_compute; reflexivity|].
  match goal with
  | |- Portfolio.cash (Portfolio.state (portfolio ?d2))
       == Portfolio.cash (Portfolio.state (portfolio ?d1)) - _ =>
      destruct (dashboard_trade_fills_at_own_quote d1
                  (mkTrade 2 99.5 1 "sell") 2 2 d2)
        as (_ & _ & _ & Hbuy & _)
  end.
  - eapply reach_event
      with (ev := BookEvent [mkLevel 100 1] [mkLevel 101 1] 1 1
                            (Strategy.mkClock 1 1 1)).
    + apply reach_init.
    + vm_compute. reflexivity.
  - vm_compute. reflexivity.
  - destruct Hbuy as (_ & b & Eb & _ & Hc); [vm_compute; reflexivity|].
    inversion Eb; subst b. exact Hc.
Defined.

(** The two steps of a book event that returned. *)
Lemma book_event_steps d nb na (t1 t2 : Q) clk d' :
  sound d ->
  handle d (BookEvent nb na t1 t2 clk) = SpreadWindow.Returns d' ->
  exists a',
    SpreadWindow.update_spreads (spread_analyzer d) nb na t1 t2
      = SpreadWindow.Returns a'
    /\ update_unrealized_pnl
         (mkDashboard (firstn 10 nb) (firstn 10 na) (recent_trades d)
                      (position d) a' (portfolio d) (market_maker d)) clk
       = SpreadWindow.Returns d'.
Proof.
  intros (_ & Ha & _) H. cbn [handle] in H. unfold on_orderbook_update in H.
  cbv zeta in H.
  destruct (SpreadWindow.update_spreads (spread_analyzer d) nb na t1 t2)
    as [a'| |e]; try discriminate.
  exists a'. split; [reflexivity|exact H].
Qed.

(** X29.  A book event with an empty side, on a reached dashboard, is
    only stored and logged: the strategy keeps its quotes, which stay
    live, the ledger is not marked, and a spread of 0 is appended to the
    full log of every configured size. *)
Theorem book_without_a_side_is_only_logged d nb na (t1 t2 : Q) clk d' :
  reachable d ->
  nb = [] \/ na = [] ->
  handle d (BookEvent nb na t1 t2 clk) = SpreadWindow.Returns d' ->
  market_maker d' = market_maker d
  /\ portfolio d' = portfolio d
  /\ bids d' = firstn 10 nb /\ asks d' = firstn 10 na
  /\ forall k, In k SpreadWindow.configured_sizes ->
       exists f,
         SpreadWindow.dict_get k
           (SpreadWindow.spread_history_full (spread_analyzer d)) = Some f
         /\ SpreadWindow.dict_get k
              (SpreadWindow.spread_history_full (spread_analyzer d'))
            = Some (f ++ [0]).
Proof.
  intros R Hside H.
  pose proof (reachable_sound d R) as S.
  destruct (book_event_steps _ _ _ _ _ _ _ S H) as (a' & Ea & Eu).
  destruct S as (_ & Ha & _).
  assert (D : d' = mkDashboard (firstn 10 nb) (firstn 10 na) (recent_trades d)
                     (position d) a' (portfolio d) (market_maker d)).
  { unfold update_unrealized_pnl in Eu. cbn [bids asks] in Eu.
    destruct Hside as [-> | ->].
    - cbn [firstn] in *. inversion Eu. reflexivity.
    - rewrite firstn_nil in *.
      destruct (firstn 10 nb); inversion Eu; reflexivity. }
  subst d'. cbn [market_maker portfolio bids asks spread_analyzer].
  repeat (split; [reflexivity|]).
  destruct (SpreadLogProps.update_spreads_appends 100 (spread_analyzer d) nb na t1 t2
              (SpreadWindowProps.reachable_shaped _ _ Ha))
    as (f1 & f2 & f3 & f4 & s1 & s2 & s3 & s4 & a1 & Hf & E1 & E2 & E3 & E4
        & Ea1 & Hf' & _).
  rewrite Ea in Ea1. inversion Ea1; subst a1; clear Ea1.
  assert (Z : forall k v, Spread.calculate_spread_for_size nb na k = Ok v ->
                          v = 0).
  { intros k v Ev. destruct Hside as [Hb|Hk].
    - subst nb. cbn in Ev. inversion Ev. reflexivity.
    - subst na. destruct nb; cbn in Ev; inversion Ev; reflexivity. }
  rewrite (Z _ _ E1), (Z _ _ E2), (Z _ _ E3), (Z _ _ E4) in Hf'.
  intros k Hk. rewrite Hf, Hf'. cbn in Hk.
  destruct Hk as [<- | [<- | [<- | [<- | []]]]]; eexists; split; reflexivity.
Qed.

(** Quotes from a book 100 / 101, then a book without bids: the quotes
    are still there. *)
Lemma book_without_a_side_is_only_logged_witness :
  exists d1 d2 b,
    handle init (BookEvent [mkLevel 100 1] [mkLevel 101 1] 1 1
                           (Strategy.mkClock 1 1 1))
    = SpreadWindow.Returns d1
    /\ handle d1 (BookEvent [] [mkLevel 101 1] 2 2 (Strategy.mkClock 2 2 2))
       = SpreadWindow.Returns d2
    /\ Strategy.current_bid (market_maker d1) = Some b
    /\ market_maker d2 = market_maker d1
    /\ portfolio d2 = portfolio d1.
Proof.
  eexists. eexists. eexists.
  split; [vm_compute; reflexivity|].
  split; [vm_compute; reflexivity|].
  split; [vm_compute; reflexivity|].
  match goal with
  | |- market_maker ?d2 = market_maker ?d1 /\ _ =>
      destruct (book_without_a_side_is_only_logged d1 [] [mkLevel 101 1] 2 2
                  (Strategy.mkClock 2 2 2) d2)
        as (Hm & Hp & _)
  end.
  - eapply reach_event
      with (ev := BookEvent [mkLevel 100 1] [mkLevel 101 1] 1 1
                            (Strategy.mkClock 1 1 1)).
    + apply reach_init.
    + vm_compute. reflexivity.
  - left. reflexivity.
  - vm_compute. reflexivity.
  - split; [exact Hm|exact Hp].
Defined.

(** X30.  A book event with both sides, on a reached dashboard, marks
    the ledger at the mid of the two best prices.  Within the refresh
    interval of 0.1 the strategy is left as it is; otherwise it is left as
    it is or holds the pair generated from the ten best levels of each
    side, the position and the marked totals.  Past the interval a crossed
    or locked book leaves the strategy without quotes. *)
Theorem book_update_marks_and_requotes d b0 bs a0 az (t1 t2 : Q) clk d' :
  reachable d ->
  handle d (BookEvent (b0 :: bs) (a0 :: az) t1 t2 clk)
    = SpreadWindow.Returns d' ->
  let mid := (price a0 + price b0) / 2 in
  let mm := market_maker d in
  portfolio d' = Portfolio.update_nav_and_pnl (portfolio d) mid
  /\ Portfolio.pnl (Portfolio.state (portfolio d'))
     = Portfolio.cash (Portfolio.state (portfolio d))
       + Portfolio.q (Portfolio.state (portfolio d)) * mid
  /\ (Strategy.t_check clk - Strategy.last_quote_time mm <= 0.1 ->
      market_maker d' = mm)
  /\ (market_maker d' = mm
      \/ (Strategy.generate_quotes Strategy.default_config
            (firstn 10 (b0 :: bs)) (firstn 10 (a0 :: az))
            (Portfolio.q (Portfolio.state (portfolio d)))
            (Portfolio.pnl (Portfolio.state (portfolio d')))
            (Portfolio.nav (Portfolio.state (portfolio d')))
            (Strategy.t_generate clk)
          = Ok (Strategy.current_bid (market_maker d'),
                Strategy.current_ask (market_maker d'))
          /\ Strategy.last_quote_time (market_maker d') = Strategy.t_store clk))
  /\ (0.1 < Strategy.t_check clk - Strategy.last_quote_time mm ->
      price a0 <= price b0 ->
      Strategy.current_bid (market_maker d') = None
      /\ Strategy.current_ask (market_maker d') = None).
Proof.
  intros R H. cbv zeta.
  pose proof (reachable_sound d R) as S.
  destruct (book_event_steps _ _ _ _ _ _ _ S H) as (a' & Ea & Eu).
  destruct S as (Hp & Ha & Hc & Hact & Hpos & _ & _ & _ & Hq).
  unfold update_unrealized_pnl in Eu.
  change (firstn 10 (b0 :: bs)) with (b0 :: firstn 9 bs) in *.
  change (firstn 10 (a0 :: az)) with (a0 :: firstn 9 az) in *.
  cbn [bids asks portfolio market_maker position recent_trades
       spread_analyzer] in Eu.
  cbv zeta in Eu.
  set (pf := Portfolio.update_unrealized_pnl (portfolio d)
               ((price a0 + price b0) / 2)) in *.
  destruct (Portfolio.get_portfolio_summary pf) as [st|] eqn:Es;
    [|discriminate].
  assert (Est : Portfolio.sum_btc_balance st
                = Portfolio.q (Portfolio.state (portfolio d))
                /\ Portfolio.sum_total_pnl st = Portfolio.pnl (Portfolio.state pf)
                /\ Portfolio.sum_unrealized_pnl st
                   = Portfolio.nav (Portfolio.state pf)).
  { unfold Portfolio.get_portfolio_summary in Es. cbv zeta in Es.
    destruct (truediv _ _); cbn [bind] in Es; [|discriminate].
    inversion Es. cbn. repeat split; reflexivity. }
  destruct Est as (E1 & E2 & E3). rewrite E1, E2, E3 in Eu.
  destruct (Strategy.update_quotes (market_maker d) (b0 :: firstn 9 bs)
              (a0 :: firstn 9 az)
              (Portfolio.q (Portfolio.state (portfolio d)))
              (Portfolio.pnl (Portfolio.state pf))
              (Portfolio.nav (Portfolio.state pf)) clk)
    as [[mm1 r]|] eqn:Eq; [|discriminate].
  rewrite Hpos in Eu. cbn [pos_btc_balance pos_avg_entry] in Eu.
  change (negb (eqb 0 0) && gtb 0 0) with false in Eu. cbv iota in Eu.
  inversion Eu; subst d'; clear Eu.
  cbn [portfolio market_maker].
  split; [reflexivity|]. split; [reflexivity|].
  split.
  { intro Hth.
    rewrite StrategyProps.update_quotes_inside_interval in Eq.
    - inversion Eq. reflexivity.
    - rewrite Hc. exact Hth. }
  destruct (update_quotes_result _ _ _ _ _ _ _ _ _ Eq)
    as [[-> Hr] | (qb & qa & G & Hr & ->)].
  - split; [left; reflexivity|].
    intros Hth Hx.
    unfold Strategy.update_quotes in Eq.
    assert (Su : Strategy.should_update_quotes (market_maker d)
                   (Strategy.t_check clk) = true).
    { apply StrategyProps.should_update_quotes_iff. rewrite Hc. exact Hth. }
    rewrite Su in Eq. cbn [negb] in Eq.
    assert (G : forall cfg pos pnl upnl now,
               Strategy.generate_quotes cfg (b0 :: firstn 9 bs)
                 (a0 :: firstn 9 az) pos pnl upnl now = Ok (None, None)).
    { intros. unfold Strategy.generate_quotes, Strategy.calculate_fair_price.
      assert (L : leb (price a0) (price b0) = true)
        by (apply leb_true; exact Hx).
      rewrite L. reflexivity. }
    rewrite G in Eq. cbn [bind] in Eq.
    destruct (Strategy.current_bid (market_maker d)) as [cb|];
    destruct (Strategy.current_ask (market_maker d)) as [ca|];
      cbn in Eq; try (inversion Eq as [[X Y]];
                      apply (f_equal Strategy.quotes_updated) in X;
                      cbn in X; lia).
    split; reflexivity.
  - cbn [Strategy.current_bid Strategy.current_ask Strategy.last_quote_time].
    split.
    + right. rewrite <- Hc. split; [exact G|reflexivity].
    + intros _ Hx.
      assert (L : leb (price a0) (price b0) = true)
        by (apply leb_true; exact Hx).
      unfold Strategy.generate_quotes, Strategy.calculate_fair_price in G.
      rewrite L in G. inversion G. split; reflexivity.
Qed.

(** Quotes from a book 100 / 101 at time 1; at time 2 the book is crossed,
    101 / 100: the ledger is marked at 100.5 and the quotes are gone. *)
Lemma book_update_marks_and_requotes_witness :
  exists d1 d2 b,
    handle init (BookEvent [mkLevel 100 1] [mkLevel 101 1] 1 1
                           (Strategy.mkClock 1 1 1))
    = SpreadWindow.Returns d1
    /\ handle d1 (BookEvent [mkLevel 101 1] [mkLevel 100 1] 2 2
                            (Strategy.mkClock 2 2 2))
       = SpreadWindow.Returns d2
    /\ Strategy.current_bid (market_maker d1) = Some b
    /\ Strategy.current_bid (market_maker d2) = None
    /\ Strategy.current_ask (market_maker d2) = None.
Proof.
  eexists. eexists. eexists.
  match goal with
  | |- ?U = SpreadWindow.Returns ?d1 /\ _ =>
      assert (E1 : U = SpreadWindow.Returns d1) by (vm_compute; reflexivity)
  end.
  split; [exact E1|].
  match goal with
  | |- ?U = SpreadWindow.Returns ?d2 /\ _ =>
      assert (E2 : U = SpreadWindow.Returns d2) by (vm_compute; reflexivity)
  end.
  split; [exact E2|].
  split; [vm_compute; reflexivity|].
  destruct (book_update_marks_and_requotes _ (mkLevel 101 1) []
              (mkLevel 100 1) [] 2 2 (Strategy.mkClock 2 2 2) _
              (reach_event _ _ _ reach_init E1) E2)
    as (_ & _ & _ & _ & Hx).
  apply Hx; vm_compute; [reflexivity|discriminate].
Defined.

End DashboardProps.
